(** * rewrite-all-local.py: classification and extraction pipeline

    A shallow embedding of the pure core of [rewrite-all-local.py]: the
    text metrics, the value normalizers, the legacy-content classifier
    [should_process_product], the payload builder
    [build_payload_from_product], the choice of the export routines and
    the loop of [main] over the rows, with its pause and its saves.

    Modelling conventions.
    - A Python [str] is a [string]; each character is read as one code
      point in the Latin-1 range (U+0000..U+00FF), so [len] is [length].
      Texts with code points above U+00FF are outside the model.
    - [Optional[str]] is [option string]; [None] is [None].
    - A value of type [Any] coming from JSON is a [pyval].
    - A Python [dict] is an insertion-ordered association list with
      unique keys, updated by [dict_set].
    - A Python [float] is a binary64 number, a [spec_float] rounded with
      [prec = 53] and [emax = 1024].
    - A call that may raise returns a [result]. *)

From Stdlib Require Import Bool Arith ZArith List Lia.
From Stdlib Require Import Strings.Ascii Strings.String Numbers.DecimalString.
From Stdlib Require Import Floats.SpecFloat.
Import ListNotations.

#[local] Set Warnings "-register-all".

Open Scope bool_scope.
Open Scope list_scope.
Open Scope string_scope.
Open Scope nat_scope.

(** The double quote, and a way to write a text that holds some: every
    apostrophe of [s] stands for a double quote in [dq s]. *)
Definition dquote : ascii := ascii_of_nat 34.

Fixpoint dq (s : string) : string :=
  match s with
  | EmptyString => EmptyString
  | String c s' => String (if Ascii.eqb c "'" then dquote else c) (dq s')
  end.

(** ** Python strings *)

Module PyStr.

(** [str.isspace] on one character, which is also what [\s] matches in
    a [re] pattern over [str]: U+0009..U+000D, U+001C..U+0020, U+0085
    and U+00A0. *)
Definition isspace (c : ascii) : bool :=
  let n := nat_of_ascii c in
  ((9 <=? n) && (n <=? 13)) || ((28 <=? n) && (n <=? 32))
  || (n =? 133) || (n =? 160).

(** [str.lower] on one character: A..Z, and the Latin-1 capitals
    U+00C0..U+00DE except the multiplication sign U+00D7. *)
Definition lower_char (c : ascii) : ascii :=
  let n := nat_of_ascii c in
  if ((65 <=? n) && (n <=? 90))
     || ((192 <=? n) && (n <=? 222) && negb (n =? 215))
  then ascii_of_nat (n + 32) else c.

Fixpoint lower (s : string) : string :=
  match s with
  | EmptyString => EmptyString
  | String c s' => String (lower_char c) (lower s')
  end.

Fixpoint lstrip (s : string) : string :=
  match s with
  | EmptyString => EmptyString
  | String c s' => if isspace c then lstrip s' else s
  end.

Fixpoint rstrip (s : string) : string :=
  match s with
  | EmptyString => EmptyString
  | String c s' =>
      match rstrip s' with
      | EmptyString => if isspace c then EmptyString else String c EmptyString
      | r => String c r
      end
  end.

(** [s.strip()] *)
Definition strip (s : string) : string := rstrip (lstrip s).

(** [s.startswith(p)] *)
Definition startswith (p s : string) : bool := prefix p s.

(** [s.endswith(p)] *)
Definition endswith (p s : string) : bool :=
  (length p <=? length s)
  && String.eqb (substring (length s - length p) (length p) s) p.

(** [p in s] *)
Fixpoint contains (p s : string) : bool :=
  prefix p s
  || match s with
     | EmptyString => false
     | String _ s' => contains p s'
     end.

(** [s.replace(old, new)]: occurrences of [old] are replaced from the
    left and do not overlap; [skip] counts the characters of the
    occurrence just replaced that are still to be dropped. *)
Fixpoint replace_from (old new : string) (skip : nat) (s : string) : string :=
  match s with
  | EmptyString =>
      match old with EmptyString => new | _ => EmptyString end
  | String c s' =>
      match skip with
      | S k => replace_from old new k s'
      | O =>
          if prefix old s then
            match length old with
            | O => new ++ String c (replace_from old new 0 s')
            | S k => new ++ replace_from old new k s'
            end
          else String c (replace_from old new 0 s')
      end
  end.

Definition replace (old new s : string) : string := replace_from old new 0 s.

(** [s.split(sep)] for a one-character separator: never the empty list. *)
Fixpoint split_char (sep : ascii) (s : string) : list string :=
  match s with
  | EmptyString => [EmptyString]
  | String c s' =>
      if Ascii.eqb c sep then EmptyString :: split_char sep s'
      else match split_char sep s' with
           | h :: t => String c h :: t
           | [] => [String c EmptyString]
           end
  end.

(** [re.sub(r"\s+", " ", s)]: [in_ws] tells that the previous character
    belonged to the run of whitespace already replaced. *)
Fixpoint re_sub_ws (in_ws : bool) (s : string) : string :=
  match s with
  | EmptyString => EmptyString
  | String c s' =>
      if isspace c then
        if in_ws then re_sub_ws true s' else String " " (re_sub_ws true s')
      else String c (re_sub_ws false s')
  end.

(** [re.split(r"\s+", s)]: the head of the result is the piece being
    read. *)
Fixpoint re_split_ws (in_ws : bool) (s : string) : list string :=
  match s with
  | EmptyString => [EmptyString]
  | String c s' =>
      if isspace c then
        if in_ws then re_split_ws true s' else EmptyString :: re_split_ws true s'
      else match re_split_ws false s' with
           | h :: t => String c h :: t
           | [] => [String c EmptyString]
           end
  end.

(** Truth value of a [str]. *)
Definition truthy (s : string) : bool :=
  match s with EmptyString => false | _ => true end.

(** [str(n)] for a natural number and for an integer. *)
Definition of_nat (n : nat) : string := NilEmpty.string_of_uint (Nat.to_uint n).
Definition of_Z (z : Z) : string := NilEmpty.string_of_int (Z.to_int z).

End PyStr.

(** Truth value of an [Optional[str]]: [None] and the empty string are
    false. *)
Definition truthy_opt (o : option string) : bool :=
  match o with
  | Some s => PyStr.truthy s
  | None => false
  end.

(** [o or EmptyString] *)
Definition or_empty (o : option string) : string :=
  match o with
  | Some (String c s) => String c s
  | _ => EmptyString
  end.

(** ** Python values, dictionaries and exceptions *)

(** A value of type [Any]: what [json.loads] returns and what the payload
    holds. *)
Inductive pyval : Type :=
| PNone
| PBool (b : bool)
| PInt (z : Z)
| PFloat (f : spec_float)
| PStr (s : string)
| PList (l : list pyval)
| PDict (d : list (string * pyval)).

Definition dict : Type := list (string * pyval).

(** [bool(v)] *)
Definition truthy (v : pyval) : bool :=
  match v with
  | PNone => false
  | PBool b => b
  | PInt z => negb (Z.eqb z 0)
  | PFloat f =>
      match f with
      | S754_zero _ => false
      | _ => true
      end
  | PStr s => PyStr.truthy s
  | PList l => match l with [] => false | _ => true end
  | PDict d => match d with [] => false | _ => true end
  end.

(** [d.get(k)] *)
Fixpoint dict_get {V : Type} (d : list (string * V)) (k : string) : option V :=
  match d with
  | [] => None
  | (k', v) :: d' => if String.eqb k' k then Some v else dict_get d' k
  end.

(** [d[k] = v]: an existing key keeps its place, a new key goes last. *)
Fixpoint dict_set {V : Type} (d : list (string * V)) (k : string) (v : V)
  : list (string * V) :=
  match d with
  | [] => [(k, v)]
  | (k', v') :: d' =>
      if String.eqb k' k then (k', v) :: d' else (k', v') :: dict_set d' k v
  end.

(** [list(d.keys())] *)
Definition dict_keys {V : Type} (d : list (string * V)) : list string :=
  map fst d.

(** [dict.fromkeys(l)]: the keys of [l] inserted from left to right, each
    with the value [None]. *)
Definition dict_fromkeys (l : list string) : dict :=
  fold_left (fun d k => dict_set d k PNone) l [].

(** [sep.join(d)] for a dictionary [d] iterates over its keys. *)
Definition join_keys (sep : string) (d : dict) : string :=
  String.concat sep (dict_keys d).

(** The exceptions the modelled code raises or catches. *)
Inductive exn : Type :=
| ValueError
| TypeError
| OverflowError
| AttributeError
| JSONDecodeError
| RecursionError
| RuntimeError (msg : string).

Inductive result (A : Type) : Type :=
| Ok (a : A)
| Raise (e : exn).
Arguments Ok {A} a.
Arguments Raise {A} e.

Definition bind {A B : Type} (r : result A) (k : A -> result B) : result B :=
  match r with
  | Ok a => k a
  | Raise e => Raise e
  end.

Notation "x <- r ;; k" := (bind r (fun x => k))
  (at level 61, r at next level, right associativity).

(** ** Python floats and the conversions [float(..)] and [int(..)] *)

Definition is_digit (c : ascii) : bool :=
  let n := nat_of_ascii c in (48 <=? n) && (n <=? 57).

Definition digit_val (c : ascii) : Z := Z.of_nat (nat_of_ascii c - 48).

(** Reads a run of decimal digits: the value read so far, the number of
    digits read and the rest of the input. *)
Fixpoint read_digits (acc : Z) (n : nat) (s : string) : Z * nat * string :=
  match s with
  | EmptyString => (acc, n, s)
  | String c s' =>
      if is_digit c then read_digits (10 * acc + digit_val c) (S n) s'
      else (acc, n, s)
  end.

Definition parse_sign (s : string) : bool * string :=
  match s with
  | String "-" s' => (true, s')
  | String "+" s' => (false, s')
  | _ => (false, s)
  end.

Module PyFloat.

Definition prec : Z := 53.
Definition emax : Z := 1024.

Definition nan : spec_float := S754_nan.
Definition inf (neg : bool) : spec_float := S754_infinity neg.

(** The binary64 number nearest to [(-1)^neg * m * 10^e], ties to
    even, as the correctly rounded [strtod] gives it. *)
Definition of_decimal (neg : bool) (m e : Z) : spec_float :=
  match m with
  | Zpos p =>
      match e with
      | Zneg k =>
          SFdiv prec emax (S754_finite neg p 0)
                (S754_finite false (Pos.pow 10 k) 0)
      | _ => binary_round prec emax neg (p * Z.to_pos (10 ^ e)) 0
      end
  | _ => S754_zero neg
  end.

(** [float(z)] for an [int]. *)
Definition of_int (z : Z) : result spec_float :=
  match binary_normalize prec emax z 0 false with
  | S754_infinity _ => Raise OverflowError
  | f => Ok f
  end.

(** [int(f)]: truncation toward zero. *)
Definition to_int (f : spec_float) : result Z :=
  match f with
  | S754_nan => Raise ValueError
  | S754_infinity _ => Raise OverflowError
  | S754_zero _ => Ok 0%Z
  | S754_finite neg m e =>
      let a := Z.shiftl (Zpos m) e in
      Ok (if neg then Z.opp a else a)
  end.

(** Underscores of a numeric literal: allowed only between two digits.
    [prev] is the previous character. *)
Fixpoint strip_underscores (prev : ascii) (s : string) : option string :=
  match s with
  | EmptyString => if Ascii.eqb prev "_" then None else Some EmptyString
  | String c s' =>
      if Ascii.eqb c "_" then
        if is_digit prev then strip_underscores c s' else None
      else if Ascii.eqb prev "_" && negb (is_digit c) then None
      else option_map (String c) (strip_underscores c s')
  end.

(** The whitespace [float] strips: the ASCII ones of [isspace] in C and
    the non-ASCII ones of [str.isspace]. *)
Definition isspace (c : ascii) : bool :=
  let n := nat_of_ascii c in
  ((9 <=? n) && (n <=? 13)) || (n =? 32) || (n =? 133) || (n =? 160).

Fixpoint lstrip (s : string) : string :=
  match s with
  | EmptyString => EmptyString
  | String c s' => if isspace c then lstrip s' else s
  end.

Fixpoint rstrip (s : string) : string :=
  match s with
  | EmptyString => EmptyString
  | String c s' =>
      match rstrip s' with
      | EmptyString => if isspace c then EmptyString else String c EmptyString
      | r => String c r
      end
  end.

(** An optional exponent that must reach the end of the input. *)
Definition parse_exponent (s : string) : option Z :=
  match s with
  | EmptyString => Some 0%Z
  | String c s' =>
      if Ascii.eqb c "e" || Ascii.eqb c "E" then
        let (neg, s2) := parse_sign s' in
        match read_digits 0 0 s2 with
        | (v, S _, EmptyString) => Some (if neg then Z.opp v else v)
        | _ => None
        end
      else None
  end.

(** [float(s)] for a [str]. *)
Definition of_str (s : string) : result spec_float :=
  match strip_underscores zero s with
  | None => Raise ValueError
  | Some s1 =>
      let (neg, s3) := parse_sign (rstrip (lstrip s1)) in
      match s3 with
      | EmptyString => Raise ValueError
      | String c _ =>
          if is_digit c || Ascii.eqb c "." then
            let '(mi, ni, r1) := read_digits 0 0 s3 in
            let '(m, nf, r2) :=
              match r1 with
              | String "." r => read_digits mi 0 r
              | _ => (mi, 0, r1)
              end in
            if ni + nf =? 0 then Raise ValueError
            else match parse_exponent r2 with
                 | Some e => Ok (of_decimal neg m (e - Z.of_nat nf))
                 | None => Raise ValueError
                 end
          else
            let l := PyStr.lower s3 in
            if String.eqb l "inf" || String.eqb l "infinity" then Ok (inf neg)
            else if String.eqb l "nan" then Ok nan
            else Raise ValueError
      end
  end.

End PyFloat.

(** [float(v)] *)
Definition py_float (v : pyval) : result spec_float :=
  match v with
  | PStr s => PyFloat.of_str s
  | PInt z => PyFloat.of_int z
  | PBool b => PyFloat.of_int (if b then 1 else 0)
  | PFloat f => Ok f
  | _ => Raise TypeError
  end.

(** ** [json.loads]

    The decoder of the [json] module with its default hooks, in strict
    mode.  The input is consumed from the left: every function returns
    the decoded value and the rest of the input.  [fuel] bounds the
    nesting of calls; [loads] gives enough of it for the whole input
    (lemma [loads_total]), so that [RecursionError] marks a scan that
    was given too little and is never the result of [loads].  Limits of
    the interpreter (recursion depth, maximum number of digits of an
    integer) are not modelled, and a [\u] escape above U+00FF is
    reported as a decoding error because its character is outside the
    Latin-1 model of [str]. *)

Module Json.

(** The characters of [WHITESPACE_STR]. *)
Definition is_ws (c : ascii) : bool :=
  let n := nat_of_ascii c in
  (n =? 32) || (n =? 9) || (n =? 10) || (n =? 13).

Fixpoint skip_ws (s : string) : string :=
  match s with
  | EmptyString => EmptyString
  | String c s' => if is_ws c then skip_ws s' else s
  end.

Fixpoint drop (n : nat) (s : string) : string :=
  match n, s with
  | S k, String _ s' => drop k s'
  | _, _ => s
  end.

Definition hex_val (c : ascii) : option nat :=
  let n := nat_of_ascii c in
  if (48 <=? n) && (n <=? 57) then Some (n - 48)
  else if (65 <=? n) && (n <=? 70) then Some (n - 55)
  else if (97 <=? n) && (n <=? 102) then Some (n - 87)
  else None.

Definition hex4 (a b c d : ascii) : option nat :=
  match hex_val a, hex_val b, hex_val c, hex_val d with
  | Some x, Some y, Some z, Some w => Some (((x * 16 + y) * 16 + z) * 16 + w)
  | _, _, _, _ => None
  end.

(** The table [BACKSLASH]. *)
Definition unescape (c : ascii) : option ascii :=
  if Ascii.eqb c dquote then Some dquote
  else if Ascii.eqb c "\" then Some "\"%char
  else if Ascii.eqb c "/" then Some "/"%char
  else if Ascii.eqb c "b" then Some (ascii_of_nat 8)
  else if Ascii.eqb c "f" then Some (ascii_of_nat 12)
  else if Ascii.eqb c "n" then Some (ascii_of_nat 10)
  else if Ascii.eqb c "r" then Some (ascii_of_nat 13)
  else if Ascii.eqb c "t" then Some (ascii_of_nat 9)
  else None.

Definition cons_char (c : ascii) (r : result (string * string))
  : result (string * string) :=
  p <- r ;; Ok (String c (fst p), snd p).

(** [scanstring], strict: the input starts after the opening quote. *)
Fixpoint scanstring (s : string) : result (string * string) :=
  match s with
  | EmptyString => Raise JSONDecodeError
  | String c s1 =>
      if Ascii.eqb c dquote then Ok (EmptyString, s1)
      else if Ascii.eqb c "\" then
        match s1 with
        | EmptyString => Raise JSONDecodeError
        | String e s2 =>
            if Ascii.eqb e "u" then
              match s2 with
              | String h1 (String h2 (String h3 (String h4 s3))) =>
                  match hex4 h1 h2 h3 h4 with
                  | Some n =>
                      if n <? 256 then cons_char (ascii_of_nat n) (scanstring s3)
                      else Raise JSONDecodeError
                  | None => Raise JSONDecodeError
                  end
              | _ => Raise JSONDecodeError
              end
            else
              match unescape e with
              | Some ch => cons_char ch (scanstring s2)
              | None => Raise JSONDecodeError
              end
        end
      else if nat_of_ascii c <? 32 then Raise JSONDecodeError
      else cons_char c (scanstring s1)
  end.

(** [NUMBER_RE.match] and the conversion of its groups: an integer
    part, an optional fraction and an optional exponent.  A fraction or
    an exponent makes the number a [float]. *)
Definition match_number (s : string) : option (pyval * string) :=
  let (neg, s1) :=
    match s with
    | String "-" r => (true, r)
    | _ => (false, s)
    end in
  match s1 with
  | EmptyString => None
  | String c r =>
      if is_digit c then
        let '(mi, _, r1) :=
          if Ascii.eqb c "0" then (0%Z, 1, r) else read_digits 0 0 s1 in
        let '(m, nf, r2) :=
          match r1 with
          | String "." rf =>
              match read_digits mi 0 rf with
              | (m', S k, r') => (m', S k, r')
              | _ => (mi, 0, r1)
              end
          | _ => (mi, 0, r1)
          end in
        let '(ex, r3) :=
          match r2 with
          | String c2 re =>
              if Ascii.eqb c2 "e" || Ascii.eqb c2 "E" then
                let (eneg, re1) := parse_sign re in
                match read_digits 0 0 re1 with
                | (v, S _, r') => (Some (if eneg then Z.opp v else v), r')
                | _ => (None, r2)
                end
              else (None, r2)
          | EmptyString => (None, r2)
          end in
        match nf, ex with
        | O, None => Some (PInt (if neg then Z.opp mi else mi), r3)
        | _, _ =>
            let e := match ex with Some e => e | None => 0%Z end in
            Some (PFloat (PyFloat.of_decimal neg m (e - Z.of_nat nf)), r3)
        end
      else None
  end.

(** [dict(pairs)] *)
Definition dict_of_pairs (pairs : list (string * pyval)) : dict :=
  fold_left (fun d kv => dict_set d (fst kv) (snd kv)) pairs [].

(** [scan_once], [JSONArray] and [JSONObject].  [array_loop] and
    [object_loop] are the [while True] loops of the latter two;
    [object_loop] starts after the opening quote of a key. *)
Fixpoint scan_once (fuel : nat) (s : string) {struct fuel}
  : result (pyval * string) :=
  match fuel with
  | O => Raise RecursionError
  | S fuel' =>
      match s with
      | EmptyString => Raise JSONDecodeError
      | String c s' =>
          if Ascii.eqb c dquote then
            p <- scanstring s' ;; Ok (PStr (fst p), snd p)
          else if Ascii.eqb c "{" then parse_object fuel' s'
          else if Ascii.eqb c "[" then parse_array fuel' s'
          else if prefix "null" s then Ok (PNone, drop 4 s)
          else if prefix "true" s then Ok (PBool true, drop 4 s)
          else if prefix "false" s then Ok (PBool false, drop 5 s)
          else
            match match_number s with
            | Some r => Ok r
            | None =>
                if prefix "NaN" s then Ok (PFloat PyFloat.nan, drop 3 s)
                else if prefix "Infinity" s then
                  Ok (PFloat (PyFloat.inf false), drop 8 s)
                else if prefix "-Infinity" s then
                  Ok (PFloat (PyFloat.inf true), drop 9 s)
                else Raise JSONDecodeError
            end
      end
  end

with parse_array (fuel : nat) (s : string) {struct fuel}
  : result (pyval * string) :=
  match fuel with
  | O => Raise RecursionError
  | S fuel' =>
      match skip_ws s with
      | String "]" r => Ok (PList [], r)
      | s1 => array_loop fuel' [] s1
      end
  end

with array_loop (fuel : nat) (values : list pyval) (s : string) {struct fuel}
  : result (pyval * string) :=
  match fuel with
  | O => Raise RecursionError
  | S fuel' =>
      p <- scan_once fuel' s ;;
      let values' := (values ++ [fst p])%list in
      match skip_ws (snd p) with
      | String "]" r => Ok (PList values', r)
      | String "," r => array_loop fuel' values' (skip_ws r)
      | _ => Raise JSONDecodeError
      end
  end

with parse_object (fuel : nat) (s : string) {struct fuel}
  : result (pyval * string) :=
  match fuel with
  | O => Raise RecursionError
  | S fuel' =>
      match skip_ws s with
      | String c r =>
          if Ascii.eqb c "}" then Ok (PDict [], r)
          else if Ascii.eqb c dquote then object_loop fuel' [] r
          else Raise JSONDecodeError
      | EmptyString => Raise JSONDecodeError
      end
  end

with object_loop (fuel : nat) (pairs : list (string * pyval)) (s : string)
       {struct fuel} : result (pyval * string) :=
  match fuel with
  | O => Raise RecursionError
  | S fuel' =>
      k <- scanstring s ;;
      match skip_ws (snd k) with
      | String ":" r =>
          p <- scan_once fuel' (skip_ws r) ;;
          let pairs' := (pairs ++ [(fst k, fst p)])%list in
          match skip_ws (snd p) with
          | String "}" r1 => Ok (PDict (dict_of_pairs pairs'), r1)
          | String "," r1 =>
              match skip_ws r1 with
              | String c2 r2 =>
                  if Ascii.eqb c2 dquote then object_loop fuel' pairs' r2
                  else Raise JSONDecodeError
              | EmptyString => Raise JSONDecodeError
              end
          | _ => Raise JSONDecodeError
          end
      | _ => Raise JSONDecodeError
      end
  end.

(** [json.loads(s)]: one value, surrounded by whitespace only. *)
Definition loads (s : string) : result pyval :=
  p <- scan_once (3 * length s + 3) (skip_ws s) ;;
  match skip_ws (snd p) with
  | EmptyString => Ok (fst p)
  | _ => Raise JSONDecodeError
  end.

End Json.

(** ** Libraries outside the repository

    [soup_get_text html] stands for
    [BeautifulSoup(html, "html.parser").get_text(" ", strip=True)], and
    [repr_compound v] for [str(v)] when [v] is a [float], a [list] or a
    [dict].  Both are left open: nothing below depends on what they
    compute. *)
Class Runtime : Type := {
  soup_get_text : string -> string;
  repr_compound : pyval -> string
}.

(** [str(v)] *)
Definition py_str `{Runtime} (v : pyval) : string :=
  match v with
  | PStr s => s
  | PInt z => PyStr.of_Z z
  | PBool b => if b then "True" else "False"
  | PNone => "None"
  | _ => repr_compound v
  end.

(** ** Configuration *)

(** The adjacent literals ["symphony" "indulge"], ["ellegance"
    "unparalleled"] and ["craftsmanship" "sophisticated"] of the source
    have no comma between them: Python joins each pair into one
    string. *)
Definition AI_PHRASES : list string :=
  [ "timeless";
    "must-have";
    "embodies";
    "symphony" ++ "indulge";
    "essence";
    "allure";
    "prestige";
    "epitomizes";
    "ellegance" ++ "unparalleled";
    "exquisite";
    "craftsmanship" ++ "sophisticated";
    "elevate your style";
    "ultimate";
    "expression";
    "embody";
    "aesthetic";
    "refined taste";
    "experience";
    "luxurious";
    "prestigious";
    "status" ].

Definition EDITORS_NOTE_MAX_WORDS : nat := 50.
Definition MAX_CHAR_COUNT : nat := 1200.
Definition MAX_WORD_COUNT : nat := 180.
Definition MIN_AI_PHRASES : nat := 1.

(** ** The product record

    The shape of [data["product"]] as [PRODUCT_QUERY] asks for it.  Every
    object and every scalar is nullable; an absent object and an empty
    one are both [None], which is how [x or {}] reads them. *)

(** [metafield(..) { value }] *)
Record Metafield : Type := { value : option string }.

(** [fields { key value }] *)
Record Field : Type := { key : option string; field_value : option string }.

(** [... on Metaobject { fields { key value } }] *)
Record Metaobject : Type := { fields : option (list Field) }.

(** [references(first: 10) { nodes { .. } }] *)
Record References : Type := { nodes : option (list Metaobject) }.

Record ListRefMetafield : Type := { references : option References }.

Record RefMetafield : Type := { reference : option Metaobject }.

(** [reference { ... on Metaobject { <alias>: field(key: ..) { value } } }],
    for [style_size_descritpion] and for [construction_description]. *)
Record NamedField : Type := { named_field : option Metafield }.

Record NamedRefMetafield : Type := { named_reference : option NamedField }.

Record Product : Type := {
  id : option string;
  title : option string;
  vendor : option string;
  handle : option string;
  descriptionHtml : option string;
  bag_style : option Metafield;
  bag_size : option Metafield;
  condition : option Metafield;
  receipt : option Metafield;
  accessories : option Metafield;
  stamp : option Metafield;
  hardware : option Metafield;
  dimensions : option Metafield;
  hermes_colour : option ListRefMetafield;
  hermes_material : option ListRefMetafield;
  hermes_hardware : option RefMetafield;
  size_style_description : option NamedRefMetafield;
  hermes_construction : option NamedRefMetafield
}.

(** [(p.get(k) or {}).get("value")] *)
Definition metafield_value (m : option Metafield) : option string :=
  match m with
  | Some mf => value mf
  | None => None
  end.

(** [((p.get(k) or {}).get("references") or {}).get("nodes") or []] *)
Definition reference_nodes (m : option ListRefMetafield) : list Metaobject :=
  match m with
  | Some {| references := Some {| nodes := Some l |} |} => l
  | _ => []
  end.

(** [node.get("fields") or []] *)
Definition node_fields (node : Metaobject) : list Field :=
  match fields node with
  | Some l => l
  | None => []
  end.

(** [(p.get(k) or {}).get("reference") or {}]: [None] is the empty
    dictionary. *)
Definition reference_of (m : option RefMetafield) : option Metaobject :=
  match m with
  | Some r => reference r
  | None => None
  end.

(** [((ref.get(alias) or {}) or {}).get("value")] for the reference of a
    [NamedRefMetafield], when that reference is not empty. *)
Definition named_reference_value (m : option NamedRefMetafield) : option string :=
  match m with
  | Some {| named_reference := Some {| named_field := Some f |} |} => value f
  | _ => None
  end.

Definition opt_str (o : option string) : pyval :=
  match o with
  | Some s => PStr s
  | None => PNone
  end.

(** ** Text normalizer *)

Section TextNormalizer.
Context `{Runtime}.

Definition strip_html_to_text (html : string) : string :=
  if negb (PyStr.truthy html) then EmptyString
  else
    let text := soup_get_text html in
    PyStr.strip (PyStr.re_sub_ws false text).

Definition word_count (text : string) : nat :=
  if negb (PyStr.truthy text) then 0
  else
    List.length
      (filter PyStr.truthy (PyStr.re_split_ws false (PyStr.strip text))).

(** [sum(1 for p in AI_PHRASES if p in s)] *)
Definition count_ai_phrases (html : option string) : nat :=
  let s := PyStr.lower (or_empty html) in
  list_sum (map (fun _ => 1) (filter (fun p => PyStr.contains p s) AI_PHRASES)).

End TextNormalizer.

(** ** Legacy-content classifier *)

Section Classifier.
Context `{Runtime}.

Definition reason_bag_style_empty : string :=
  "SKIPPED: Bag Style is empty (non-Herm"
  ++ String (ascii_of_nat 232) "s handbag / manual description required)".

Definition reason_metrics (head : string) (chars wc phrases : nat) : string :=
  head ++ " (chars=" ++ PyStr.of_nat chars ++ ", words=" ++ PyStr.of_nat wc
  ++ ", phrases=" ++ PyStr.of_nat phrases ++ ")".

(** Returns [(should_process, existing_editor_note, reason)]. *)
Definition should_process_product (p : Product)
  : bool * option string * string :=
  let bag_style_val := metafield_value (bag_style p) in
  if negb (truthy_opt bag_style_val) then
    (false, None, reason_bag_style_empty)
  else
    let desc_html := or_empty (descriptionHtml p) in
    if negb (PyStr.truthy desc_html) then
      (true, None, "PROCESS: description empty")
    else
      let char_count := String.length desc_html in
      let text := strip_html_to_text desc_html in
      let wc := word_count text in
      if (0 <? wc) && (wc <=? EDITORS_NOTE_MAX_WORDS) then
        (true, Some desc_html,
         "PROCESS: editor note detected (" ++ PyStr.of_nat wc ++ " words)")
      else
        let ai_phrase_count := count_ai_phrases (Some desc_html) in
        let is_legacy_ai :=
          (MAX_CHAR_COUNT <? char_count) && (MAX_WORD_COUNT <? wc)
          && (MIN_AI_PHRASES <=? ai_phrase_count) in
        if is_legacy_ai then
          (true, None,
           reason_metrics "PROCESS: legacy AI detected"
                          char_count wc ai_phrase_count)
        else
          (false, None,
           reason_metrics "SKIPPED: has description"
                          char_count wc ai_phrase_count).

(** The word count of the stripped text of a description. *)
Definition stripped_word_count (markup : string) : nat :=
  word_count (strip_html_to_text markup).

End Classifier.

(** ** Value normalizers *)

Section ValueNormalizers.
Context `{Runtime}.

(** The first item of a list-looking string. *)
Definition parse_listish_string (value : option string) : option string :=
  match value with
  | None => None
  | Some raw =>
      let v := PyStr.strip raw in
      if String.eqb v EmptyString || String.eqb (PyStr.lower v) "nan" then None
      else if PyStr.startswith "[" v && PyStr.endswith "]" v then
        match Json.loads v with
        | Ok (PList (first :: _)) =>
            match first with
            | PNone => None
            | _ => Some (PyStr.strip (py_str first))
            end
        | Ok _ => Some v
        | Raise _ =>
            let v2 :=
              PyStr.strip
                (PyStr.replace "\" EmptyString
                   (PyStr.replace (String dquote EmptyString) EmptyString
                      (PyStr.replace "]" EmptyString (PyStr.replace "[" EmptyString v)))) in
            let parts :=
              filter PyStr.truthy (map PyStr.strip (PyStr.split_char "," v2)) in
            match parts with
            | p0 :: _ => Some p0
            | [] => None
            end
        end
      else Some v
  end.

(** [v.startswith("[") and v.endswith("]")] *)
Definition bracketed (v : string) : bool :=
  PyStr.startswith "[" v && PyStr.endswith "]" v.

(** [d.get("unit") or EmptyString] followed by [.lower()], which only a [str]
    has. *)
Definition unit_lower (d : dict) : result string :=
  match dict_get d "unit" with
  | None => Ok (PyStr.lower EmptyString)
  | Some u =>
      if truthy u then
        match u with
        | PStr s => Ok (PyStr.lower s)
        | _ => Raise AttributeError
        end
      else Ok (PyStr.lower EmptyString)
  end.

(** The nested [try] of the loop: [int(float(val))], else [float(val)],
    else [val]. *)
Definition coerce_value (val : pyval) : pyval :=
  match f <- py_float val ;; PyFloat.to_int f with
  | Ok n => PInt n
  | Raise _ =>
      match py_float val with
      | Ok f => PFloat f
      | Raise _ => val
      end
  end.

(** The body of [for d in parsed], appending to [out]. *)
Definition dimension_step (out : list pyval) (d : pyval) : result (list pyval) :=
  match d with
  | PDict dd =>
      let val := match dict_get dd "value" with Some v => v | None => PNone end in
      unit0 <- unit_lower dd ;;
      let unit :=
        PyStr.replace "centimetres" "cm" (PyStr.replace "centimeters" "cm" unit0) in
      let val_num := coerce_value val in
      Ok (out ++ [PDict [("value", val_num); ("unit", PStr unit)]])%list
  | _ => Ok out
  end.

Fixpoint dimension_loop (out : list pyval) (parsed : list pyval)
  : result (list pyval) :=
  match parsed with
  | [] => Ok out
  | d :: rest => out' <- dimension_step out d ;; dimension_loop out' rest
  end.

(** [None], the list of [{value, unit}] dictionaries, or the stripped
    text. *)
Definition parse_dimensions_list_dimension (dimensions_raw : option string)
  : option pyval :=
  if negb (truthy_opt dimensions_raw) then None
  else
    let s := PyStr.strip (or_empty dimensions_raw) in
    if String.eqb s EmptyString || String.eqb (PyStr.lower s) "nan" then None
    else
      let body :=
        parsed <- Json.loads s ;;
        match parsed with
        | PList l =>
            out <- dimension_loop [] l ;;
            Ok (match out with [] => PStr s | _ => PList out end)
        | _ => Ok (PStr s)
        end in
      match body with
      | Ok r => Some r
      | Raise _ => Some (PStr s)
      end.

(** *** The dimension list, element by element

    The same result written without the loop. *)

(** The text of [d.get("unit") or EmptyString]; [None] when that value is true
    and is not a [str], so that it has no [lower]. *)
Definition unit_text (d : dict) : option string :=
  match dict_get d "unit" with
  | None => Some EmptyString
  | Some u =>
      if truthy u then
        match u with
        | PStr s => Some s
        | _ => None
        end
      else Some EmptyString
  end.

Definition unit_ok (d : pyval) : bool :=
  match d with
  | PDict dd => match unit_text dd with Some _ => true | None => false end
  | _ => true
  end.

Definition normalize_unit (u : string) : string :=
  PyStr.replace "centimetres" "cm" (PyStr.replace "centimeters" "cm" (PyStr.lower u)).

Definition dimension_value (d : dict) : pyval :=
  match dict_get d "value" with
  | Some v => v
  | None => PNone
  end.

Definition dimension_entry (coerce : pyval -> pyval) (d : dict) (u : string) : pyval :=
  PDict [("value", coerce (dimension_value d)); ("unit", PStr (normalize_unit u))].

Definition dimension_list (coerce : pyval -> pyval) (l : list pyval) : list pyval :=
  flat_map
    (fun d =>
       match d with
       | PDict dd =>
           match unit_text dd with
           | Some u => [dimension_entry coerce dd u]
           | None => []
           end
       | _ => []
       end) l.

(** *** The normalizer as the specification words it

    The magnitude becomes an integer if it parses cleanly as a whole
    number, else a floating value, else it stays raw; when no element
    is valid or decoding fails, the result is the original raw string
    unmodified. *)

Definition is_whole (f : spec_float) : bool :=
  match f with
  | S754_zero _ => true
  | S754_finite _ m e => Z.eqb (Z.shiftl (Z.shiftl (Zpos m) e) (- e)) (Zpos m)
  | _ => false
  end.

(** The float [f] is the whole number [n], exactly. *)
Definition float_is_int (f : spec_float) (n : Z) : Prop :=
  match f with
  | S754_zero _ => n = 0%Z
  | S754_finite neg m e =>
      (n * 2 ^ Z.max 0 (- e)
       = (if neg then Z.neg m else Z.pos m) * 2 ^ Z.max 0 e)%Z
  | _ => False
  end.

Definition coerce_value_spec (val : pyval) : pyval :=
  match py_float val with
  | Ok f =>
      if is_whole f then
        match PyFloat.to_int f with
        | Ok n => PInt n
        | Raise _ => PFloat f
        end
      else PFloat f
  | Raise _ => val
  end.

Definition normalize_dimensions_spec (raw : option string) : option pyval :=
  match raw with
  | None => None
  | Some r =>
      let s := PyStr.strip r in
      if String.eqb s EmptyString || String.eqb (PyStr.lower s) "nan" then None
      else
        match Json.loads s with
        | Ok (PList l) =>
            match dimension_list coerce_value_spec l with
            | [] => Some (PStr r)
            | out => Some (PList out)
            end
        | _ => Some (PStr r)
        end
  end.

End ValueNormalizers.

(** ** Specification extractor *)

Section Extractor.
Context `{Runtime}.

(** [k in (..)] for the key of a field, which may be [None]. *)
Definition key_in (k : option string) (keys : list string) : bool :=
  match k with
  | Some s => existsb (String.eqb s) keys
  | None => false
  end.

Definition key_is (k : option string) (name : string) : bool :=
  match k with
  | Some s => String.eqb s name
  | None => false
  end.

Definition COLOUR_KEYS : list string :=
  ["blue"; "pink_purple"; "red"; "orange_yellow"; "green"; "black_grey";
   "brown"; "natural_white"].

Definition MATERIAL_KEYS : list string :=
  ["calfskin"; "goatskin"; "buffalo"; "exotic_skins"; "canvas"; "other"].

(** The lists a traversal of the colour references fills. *)
Record colour_acc : Type := {
  colour_categories : list string;
  colour_codes : list string;
  colour_descriptions_array : list string
}.

(** The body of [for field in node.get("fields") or []] for colours. *)
Definition colour_field (acc : colour_acc) (field : Field) : colour_acc :=
  let k := key field in
  match field_value field with
  | Some (String c v') =>
      let v := String c v' in
      if key_in k COLOUR_KEYS then
        {| colour_categories := (colour_categories acc ++ [v])%list;
           colour_codes := colour_codes acc;
           colour_descriptions_array := colour_descriptions_array acc |}
      else if key_is k "colour_code" then
        {| colour_categories := colour_categories acc;
           colour_codes := (colour_codes acc ++ [v])%list;
           colour_descriptions_array := colour_descriptions_array acc |}
      else if key_is k "colour_description" then
        {| colour_categories := colour_categories acc;
           colour_codes := colour_codes acc;
           colour_descriptions_array := (colour_descriptions_array acc ++ [v])%list |}
      else acc
  | _ => acc
  end.

(** [for node in colour_refs: for field in ..] *)
Definition colour_loop (colour_refs : list Metaobject) : colour_acc :=
  fold_left (fun acc node => fold_left colour_field (node_fields node) acc)
            colour_refs
            {| colour_categories := []; colour_codes := [];
               colour_descriptions_array := [] |}.

Record material_acc : Type := {
  material_categories : list string;
  material_descriptions_array : list string
}.

Definition material_field (acc : material_acc) (field : Field) : material_acc :=
  let k := key field in
  match field_value field with
  | Some (String c v') =>
      let v := String c v' in
      if key_in k MATERIAL_KEYS then
        {| material_categories := (material_categories acc ++ [v])%list;
           material_descriptions_array := material_descriptions_array acc |}
      else if key_is k "material_description" then
        {| material_categories := material_categories acc;
           material_descriptions_array :=
             (material_descriptions_array acc ++ [v])%list |}
      else acc
  | _ => acc
  end.

Definition material_loop (material_refs : list Metaobject) : material_acc :=
  fold_left (fun acc node => fold_left material_field (node_fields node) acc)
            material_refs
            {| material_categories := []; material_descriptions_array := [] |}.

(** [" | ".join(dict.fromkeys(l))] *)
Definition join_unique (l : list string) : string :=
  join_keys " | " (dict_fromkeys l).

(** [int(float(s))] of the bag size. *)
Definition int_of_float_str (s : string) : result Z :=
  f <- PyFloat.of_str s ;; PyFloat.to_int f.

(** [specs] after the direct fields: bag style, bag size, condition,
    the four fields copied as they are, and the dimensions. *)
Definition specs_direct (p : Product) : dict :=
  let specs : dict := [] in
  let bag_style_val := parse_listish_string (metafield_value (bag_style p)) in
  let specs :=
    if truthy_opt bag_style_val
    then dict_set specs "bag_style" (opt_str bag_style_val) else specs in
  let bag_size_val := metafield_value (bag_size p) in
  let specs :=
    match bag_size_val with
    | None => specs
    | Some s =>
        if String.eqb s EmptyString || String.eqb s "nan" || String.eqb s "NaN" then specs
        else match int_of_float_str s with
             | Ok n => dict_set specs "bag_size_cm" (PInt n)
             | Raise _ => specs
             end
    end in
  let condition_val := parse_listish_string (metafield_value (condition p)) in
  let specs :=
    if truthy_opt condition_val
    then dict_set specs "condition" (opt_str condition_val) else specs in
  let specs := dict_set specs "stamp" (opt_str (metafield_value (stamp p))) in
  let specs := dict_set specs "receipt" (opt_str (metafield_value (receipt p))) in
  let specs :=
    dict_set specs "accessories" (opt_str (metafield_value (accessories p))) in
  let specs := dict_set specs "hardware" (opt_str (metafield_value (hardware p))) in
  let dims := parse_dimensions_list_dimension (metafield_value (dimensions p)) in
  match dims with
  | Some d => dict_set specs "dimensions" d
  | None => specs
  end.

(** The [hermes_colour] block: the two joined keys it may add. *)
Definition specs_colour (specs : dict) (colour_refs : list Metaobject) : dict :=
  match colour_refs with
  | [] => specs
  | _ =>
      let acc := colour_loop colour_refs in
      let specs :=
        match colour_categories acc with
        | [] => specs
        | cats => dict_set specs "hermes_colour" (PStr (join_unique cats))
        end in
      match colour_codes acc with
      | [] => specs
      | codes => dict_set specs "hermes_colour_code" (PStr (join_unique codes))
      end
  end.

(** The [hermes_material] block. *)
Definition specs_material (specs : dict) (material_refs : list Metaobject) : dict :=
  match material_refs with
  | [] => specs
  | _ =>
      match material_categories (material_loop material_refs) with
      | [] => specs
      | cats => dict_set specs "hermes_material" (PStr (join_unique cats))
      end
  end.

(** The [specs] dictionary at the end of the function. *)
Definition specifications (p : Product) : dict :=
  specs_material
    (specs_colour (specs_direct p) (reference_nodes (hermes_colour p)))
    (reference_nodes (hermes_material p)).

(** [hardware_description_value] after the [hermes_hardware] block: the
    last truthy value of a field named [hardware_description]. *)
Definition hardware_description (hh_ref : option Metaobject) : string :=
  match hh_ref with
  | None => EmptyString
  | Some r =>
      fold_left
        (fun acc field =>
           if key_is (key field) "hardware_description"
              && truthy_opt (field_value field)
           then or_empty (field_value field) else acc)
        (node_fields r) EmptyString
  end.

Definition str_list (l : list string) : pyval := PList (map PStr l).

(** The [puzzle] dictionary. *)
Definition puzzle_description (p : Product) : dict :=
  let puzzle : dict := [] in
  let ssd_val := named_reference_value (size_style_description p) in
  let puzzle :=
    if truthy_opt ssd_val
    then dict_set puzzle "style_size_description" (opt_str ssd_val) else puzzle in
  let hc_val := named_reference_value (hermes_construction p) in
  let puzzle :=
    if truthy_opt hc_val
    then dict_set puzzle "construction_description" (opt_str hc_val) else puzzle in
  let material_descriptions :=
    match reference_nodes (hermes_material p) with
    | [] => []
    | refs => material_descriptions_array (material_loop refs)
    end in
  let colour_descriptions :=
    match reference_nodes (hermes_colour p) with
    | [] => []
    | refs => colour_descriptions_array (colour_loop refs)
    end in
  let puzzle :=
    match material_descriptions with
    | [] => puzzle
    | l => dict_set puzzle "material_descriptions" (str_list l)
    end in
  let puzzle :=
    match colour_descriptions with
    | [] => puzzle
    | l => dict_set puzzle "colour_descriptions" (str_list l)
    end in
  let hardware_description_value :=
    hardware_description (reference_of (hermes_hardware p)) in
  if PyStr.truthy hardware_description_value
  then dict_set puzzle "hardware_description" (PStr hardware_description_value)
  else puzzle.

(** *** The entries of [specs], one attribute at a time

    The same dictionary written as the list of its entries, in the
    order the function adds them. *)

Definition opt_entry (k : string) (o : option pyval) : dict :=
  match o with
  | Some v => [(k, v)]
  | None => []
  end.

(** A text attribute that is kept only when it is true. *)
Definition text_entry (o : option string) : option pyval :=
  if truthy_opt o then Some (opt_str o) else None.

Definition bag_size_entry (o : option string) : option pyval :=
  match o with
  | None => None
  | Some s =>
      if String.eqb s EmptyString || String.eqb s "nan" || String.eqb s "NaN" then None
      else match int_of_float_str s with
           | Ok n => Some (PInt n)
           | Raise _ => None
           end
  end.

Definition joined_entry (l : list string) : option pyval :=
  match l with
  | [] => None
  | _ => Some (PStr (join_unique l))
  end.

(** The true values of the fields whose key [sel] selects, in the
    order of the fields. *)
Definition field_values (sel : option string -> bool) (fs : list Field)
  : list string :=
  flat_map
    (fun f =>
       match field_value f with
       | Some (String c v) => if sel (key f) then [String c v] else []
       | _ => []
       end) fs.

(** The fields of all the sub-records, in the order of iteration. *)
Definition all_fields (refs : list Metaobject) : list Field :=
  flat_map node_fields refs.

Definition colour_category_values (p : Product) : list string :=
  field_values (fun k => key_in k COLOUR_KEYS)
               (all_fields (reference_nodes (hermes_colour p))).

Definition colour_code_values (p : Product) : list string :=
  field_values (fun k => key_is k "colour_code")
               (all_fields (reference_nodes (hermes_colour p))).

Definition material_category_values (p : Product) : list string :=
  field_values (fun k => key_in k MATERIAL_KEYS)
               (all_fields (reference_nodes (hermes_material p))).

(** De-duplication as the specification words it: the first
    occurrence of a value stays where it is, the later ones go. *)
Fixpoint first_seen (l : list string) : list string :=
  match l with
  | [] => []
  | x :: t => x :: filter (fun y => negb (String.eqb x y)) (first_seen t)
  end.

(** The first character of a text that [float] may read as a finite
    number. *)
Definition numeric_head (c : ascii) : bool :=
  is_digit c || Ascii.eqb c "+" || Ascii.eqb c "-" || Ascii.eqb c ".".

(** The keys [specs] may hold. *)
Definition SPEC_KEYS : list string :=
  ["bag_style"; "bag_size_cm"; "condition"; "stamp"; "receipt"; "accessories";
   "hardware"; "dimensions"; "hermes_colour"; "hermes_colour_code";
   "hermes_material"].

(** A scalar source value that is absent, empty or the "nan" token,
    surrounding whitespace and case aside. *)
Definition source_blank (o : option string) : Prop :=
  match o with
  | None => True
  | Some s =>
      PyStr.strip s = EmptyString \/ PyStr.lower (PyStr.strip s) = "nan"
  end.

Definition build_payload_from_product
           (p : Product) (existing_editor_note : option string) : dict :=
  let product_hash : dict :=
    [("id", opt_str (id p)); ("title", opt_str (title p));
     ("vendor", opt_str (vendor p)); ("handle", opt_str (handle p))] in
  let structured : dict :=
    [("specifications", PDict (specifications p));
     ("puzzle_description", PDict (puzzle_description p))] in
  let structured :=
    if truthy_opt existing_editor_note
    then dict_set structured "editor_note" (opt_str existing_editor_note)
    else structured in
  [("product", PDict product_hash); ("structured", PDict structured)].

(** [payload["structured"]["specifications"]] *)
Definition payload_specifications (payload : dict) : option dict :=
  match dict_get payload "structured" with
  | Some (PDict structured) =>
      match dict_get structured "specifications" with
      | Some (PDict specs) => Some specs
      | _ => None
      end
  | _ => None
  end.

End Extractor.

(** ** [repr] of strings, for the messages of [main] *)

Module PyRepr.

(** [str.isprintable] on one Latin-1 character. *)
Definition isprintable (c : ascii) : bool :=
  let n := nat_of_ascii c in
  ((32 <=? n) && (n <=? 126)) || ((161 <=? n) && negb (n =? 173)).

Definition hex_digit (n : nat) : ascii :=
  if n <? 10 then ascii_of_nat (48 + n) else ascii_of_nat (87 + n).

Definition repr_char (quote c : ascii) : string :=
  let n := nat_of_ascii c in
  if Ascii.eqb c quote || Ascii.eqb c "\" then String "\" (String c EmptyString)
  else if n =? 9 then "\t"
  else if n =? 10 then "\n"
  else if n =? 13 then "\r"
  else if isprintable c then String c EmptyString
  else "\x" ++ String (hex_digit (n / 16)) (String (hex_digit (n mod 16)) EmptyString).

Fixpoint repr_chars (quote : ascii) (s : string) : string :=
  match s with
  | EmptyString => EmptyString
  | String c s' => repr_char quote c ++ repr_chars quote s'
  end.

(** [repr(s)]: single quotes, unless [s] has a single quote and no
    double quote. *)
Definition repr_str (s : string) : string :=
  let quote : ascii :=
    if PyStr.contains "'" s && negb (PyStr.contains (String dquote EmptyString) s)
    then dquote else "'"%char in
  String quote (repr_chars quote s ++ String quote EmptyString).

(** [str(l)] for a list of strings. *)
Definition repr_str_list (l : list string) : string :=
  "[" ++ String.concat ", " (map repr_str l) ++ "]".

End PyRepr.

(** ** Sample data for the examples *)

(** A runtime for markup that has neither tags nor character references:
    the parse has one text node, and [get_text(" ", strip=True)] is that
    text stripped. *)
Definition text_runtime : Runtime :=
  {| soup_get_text := PyStr.strip; repr_compound := fun _ => EmptyString |}.

Definition metafield (v : string) : option Metafield := Some {| value := Some v |}.

(** A product with a bag style, a description and nothing else. *)
Definition plain_product (style : option Metafield) (html : option string) : Product :=
  {| id := Some "gid://shopify/Product/1"; title := Some "Bag";
     vendor := Some "Vendor"; handle := Some "bag";
     descriptionHtml := html;
     bag_style := style; bag_size := None; condition := None;
     receipt := None; accessories := None; stamp := None; hardware := None;
     dimensions := None;
     hermes_colour := None; hermes_material := None; hermes_hardware := None;
     size_style_description := None; hermes_construction := None |}.

(** A sub-record with one field. *)
Definition one_field (k v : string) : Metaobject :=
  {| fields := Some [{| key := Some k; field_value := Some v |}] |}.

(** A product whose colour attribute refers to the given sub-records. *)
Definition colour_product (refs : list Metaobject) : Product :=
  {| id := Some "gid://shopify/Product/2"; title := Some "Bag";
     vendor := Some "Vendor"; handle := Some "bag";
     descriptionHtml := None;
     bag_style := metafield (dq "['Kelly']"); bag_size := None; condition := None;
     receipt := None; accessories := None; stamp := None; hardware := None;
     dimensions := None;
     hermes_colour := Some {| references := Some {| nodes := Some refs |} |};
     hermes_material := None; hermes_hardware := None;
     size_style_description := None; hermes_construction := None |}.

(** [n] copies of [s], one after the other. *)
Fixpoint repeat_string (n : nat) (s : string) : string :=
  match n with
  | O => EmptyString
  | S k => s ++ repeat_string k s
  end.

(** Descriptions of 4, of 60 and of 200 words; the last one has 1800
    characters and one signal phrase. *)
Definition note_markup : string := "A short curator note.".
Definition long_markup : string := repeat_string 60 "word ".
Definition legacy_markup : string := repeat_string 200 "timeless ".

Definition birkin : option Metafield := metafield (dq "['Birkin']").

(** A service state that counts the calls it has answered. *)
Definition counting_fetch (p : Product) (w : nat) (gid : string)
  : result (option Product) * nat := (Ok (Some p), S w).

Definition counting_webhook (resp : dict) (w : nat) (payload : dict)
  : result dict * nat := (Ok resp, S w).

From Stdlib Require Import Numbers.DecimalPos.

(** ** Product identifiers *)

Definition newline : ascii := ascii_of_nat 10.

(** [re.sub(r"\.0$", "", s)]: [$] matches at the end of the text and
    before a newline that ends it, so at most one occurrence goes. *)
Fixpoint re_sub_dot0 (s : string) : string :=
  match s with
  | EmptyString => EmptyString
  | String c s' =>
      if String.eqb s ".0" then EmptyString
      else if String.eqb s (String "." (String "0" (String newline EmptyString)))
      then String newline EmptyString
      else String c (re_sub_dot0 s')
  end.

Fixpoint all_digits (s : string) : bool :=
  match s with
  | EmptyString => true
  | String c s' => is_digit c && all_digits s'
  end.

(** [re.fullmatch(r"\d+", s)] finds a match. *)
Definition fullmatch_digits (s : string) : bool :=
  PyStr.truthy s && all_digits s.

Section ProductId.
Context `{Runtime}.

(** The global id of a product, from the [ID] cell of the table. *)
Definition normalize_product_id (raw_id : pyval) : option string :=
  match raw_id with
  | PNone => None
  | _ =>
      let s := PyStr.strip (py_str raw_id) in
      if String.eqb s EmptyString || String.eqb (PyStr.lower s) "nan" then None
      else if PyStr.startswith "gid://" s then Some s
      else
        let s2 := re_sub_dot0 s in
        if fullmatch_digits s2 then Some ("gid://shopify/Product/" ++ s2)
        else Some s
  end.

End ProductId.

(** ** The export file *)

(** The pandas routine that reads or writes the table. *)
Inductive table_format : Type := Csv | Excel.

Definition read_export (path : string) : result table_format :=
  if PyStr.endswith ".csv" (PyStr.lower path) then Ok Csv
  else if PyStr.endswith ".xlsx" (PyStr.lower path)
          || PyStr.endswith ".xls" (PyStr.lower path)
  then Ok Excel
  else Raise ValueError.

Definition write_export (out_path : string) : result table_format :=
  if PyStr.endswith ".csv" (PyStr.lower out_path) then Ok Csv
  else if PyStr.endswith ".xlsx" (PyStr.lower out_path)
          || PyStr.endswith ".xls" (PyStr.lower out_path)
  then Ok Excel
  else Raise ValueError.

(** [s.rfind(c)] for a character [c]: the index of its last occurrence,
    [-1] when there is none. *)
Fixpoint rfind (c : ascii) (s : string) : Z :=
  match s with
  | EmptyString => (-1)%Z
  | String d s' =>
      let r := rfind c s' in
      if (0 <=? r)%Z then (r + 1)%Z
      else if Ascii.eqb d c then 0%Z else (-1)%Z
  end.

(** The loop of [os.path.splitext] over the leading dots of the file
    name, from [filenameIndex] for at most [n] characters: [true] when it
    meets a character that is not the dot. *)
Fixpoint has_stem (p : string) (filenameIndex n : nat) : bool :=
  match n with
  | 0 => false
  | S n' =>
      match get filenameIndex p with
      | Some c =>
          if Ascii.eqb c "." then has_stem p (S filenameIndex) n' else true
      | None => true
      end
  end.

(** [os.path.splitext(p)] of [posixpath]: the extension starts at the
    last dot, if that dot comes after the last slash and after a
    character of the file name that is not a dot. *)
Definition splitext (p : string) : string * string :=
  let sepIndex := rfind "/" p in
  let dotIndex := rfind "." p in
  if (sepIndex <? dotIndex)%Z
     && has_stem p (Z.to_nat (sepIndex + 1))
                 (Z.to_nat (dotIndex - (sepIndex + 1)))
  then (substring 0 (Z.to_nat dotIndex) p,
        substring (Z.to_nat dotIndex) (length p - Z.to_nat dotIndex) p)
  else (p, EmptyString).

(** The output path of [main]: [--out] when given and not empty,
    otherwise the export path with [_updated] before its extension. *)
Definition out_path (export_path : string) (out : option string) : string :=
  match out with
  | Some (String c o) => String c o
  | _ => let (base, ext) := splitext export_path in base ++ "_updated" ++ ext
  end.

(** The suffixes [read_export] and [write_export] know, in lower case. *)
Definition EXPORT_SUFFIXES : list string := [".csv"; ".xlsx"; ".xls"].

Fixpoint last_char (s : string) : option ascii :=
  match s with
  | EmptyString => None
  | String c s' =>
      match last_char s' with
      | Some d => Some d
      | None => Some c
      end
  end.

Definition is_dot (c : ascii) : bool := Ascii.eqb c ".".

(** ** The rows of [main] *)

(** What the loop has written to the status cell and to the cell of the
    written column of the rows it has visited, in their order; [None]
    for a cell of the written column that is left as it was.  The other
    cells of the table do not change during the run. *)
Definition table : Type := list (string * option pyval).

(** What one turn of the loop leaves behind: the status cell, the cell of
    the written column when it is overwritten, and the exception that
    leaves the loop, if any.  The messages printed on the way are left
    out. *)
Record row_result : Type := {
  row_status : string;
  row_body : option pyval;
  row_raised : option exn
}.

(** The table after the cells of one more row are written. *)
Definition with_row (done : table) (status : string) (body : option pyval)
  : table := (done ++ [(status, body)])%list.

Definition row_done (status : string) (body : option pyval) : row_result :=
  {| row_status := status; row_body := body; row_raised := None |}.

Definition row_invalid_id : row_result := row_done "SKIPPED: invalid ID" None.

Definition missing_description_html (resp : dict) : exn :=
  RuntimeError
    ("Webhook missing description_html (keys="
     ++ PyRepr.repr_str_list (dict_keys resp) ++ ")").

(** [limit is not None and (idx - start_row) >= limit], with [k] for
    [idx - start_row]. *)
Definition limit_reached (limit : option Z) (k : Z) : bool :=
  match limit with
  | Some l => Z.leb l k
  | None => false
  end.

Section Main.
Context `{Runtime}.

(** What [main] talks to.  [World] is the state of all of it: a call
    takes the world it finds and returns the world it leaves, so that
    the calls made are visible in the result.  [fetch_product w gid] is
    [shopify_graphql] followed by
    [(data.get("data") or {}).get("product")]; [time_sleep] is
    [time.sleep]; [to_file w format df path] is [df.to_csv] or
    [df.to_excel], by [format].  Each of them may raise. *)
Variable World : Type.
Variable fetch_product : World -> string -> result (option Product) * World.
Variable call_webhook : World -> dict -> result dict * World.
Variable time_sleep : World -> spec_float -> result unit * World.
Variable to_file :
  World -> table_format -> table -> string -> result unit * World.

(** [str(ex)] for the exceptions that carry no message in this model. *)
Variable str_exn : exn -> string.

(** [cfg.sleep_seconds], [args.save_every] and the local [out_path]. *)
Variable sleep_seconds : spec_float.
Variable save_every : Z.
Variable out_file : string.

(** [str(ex)] *)
Definition exn_str (ex : exn) : string :=
  match ex with
  | RuntimeError msg => msg
  | _ => str_exn ex
  end.

(** [write_export(df, out_path)] in a world. *)
Definition write_table (w : World) (df : table) : result unit * World :=
  match write_export out_file with
  | Ok format => to_file w format df out_file
  | Raise ex => (Raise ex, w)
  end.

(** [if cfg.sleep_seconds: time.sleep(cfg.sleep_seconds)] *)
Definition pause (w : World) : result unit * World :=
  if truthy (PFloat sleep_seconds) then time_sleep w sleep_seconds
  else (Ok tt, w).

(** [args.save_every > 0 and generated_count % args.save_every == 0] *)
Definition save_due (generated_count : Z) : bool :=
  (0 <? save_every)%Z && (generated_count mod save_every =? 0)%Z.

(** The [except Exception as ex] handler, for a row whose cell of the
    written column is [body] and with [done] for the rows before it: the
    status is written, the table is saved and [ex] is raised again; an
    exception of the save takes its place. *)
Definition row_failed (w : World) (done : table) (body : option pyval)
           (ex : exn) : row_result * World :=
  let status := "FAILED: " ++ exn_str ex in
  match write_table w (with_row done status body) with
  | (Ok _, w') =>
      ({| row_status := status; row_body := body; row_raised := Some ex |},
       w')
  | (Raise ex', w') =>
      ({| row_status := status; row_body := body; row_raised := Some ex' |},
       w')
  end.

(** The [try] statement for the row of [product_gid], after the rows
    [done] and with [generated_count] cells written so far; the new
    count comes with the result. *)
Definition row_step (w : World) (done : table) (generated_count : Z)
           (product_gid : string) : row_result * Z * World :=
  match fetch_product w product_gid with
  | (Raise ex, w1) =>
      let (r, w') := row_failed w1 done None ex in (r, generated_count, w')
  | (Ok None, w1) =>
      (row_done "SKIPPED: product not found" None, generated_count, w1)
  | (Ok (Some p), w1) =>
      let '(should_process, editor_note, reason) := should_process_product p in
      if negb should_process then (row_done reason None, generated_count, w1)
      else
        let payload := build_payload_from_product p editor_note in
        match call_webhook w1 payload with
        | (Raise ex, w2) =>
            let (r, w') := row_failed w2 done None ex in
            (r, generated_count, w')
        | (Ok resp, w2) =>
            match dict_get resp "description_html" with
            | Some generated_html =>
                if negb (truthy generated_html)
                then
                  let (r, w') :=
                    row_failed w2 done None (missing_description_html resp) in
                  (r, generated_count, w')
                else
                  let r := row_done "GENERATED" (Some generated_html) in
                  let count := (generated_count + 1)%Z in
                  match pause w2 with
                  | (Raise ex, w3) =>
                      let (r', w') :=
                        row_failed w3 done (Some generated_html) ex in
                      (r', count, w')
                  | (Ok _, w3) =>
                      if save_due count then
                        match write_table w3 (with_row done "GENERATED" (Some generated_html)) with
                        | (Raise ex, w4) =>
                            let (r', w') :=
                              row_failed w4 done (Some generated_html) ex in
                            (r', count, w')
                        | (Ok _, w4) => (r, count, w4)
                        end
                      else (r, count, w3)
                  end
            | None =>
                let (r, w') :=
                  row_failed w2 done None (missing_description_html resp) in
                (r, generated_count, w')
            end
        end
  end.

(** The body of [for idx in range(start_row, total)] on the [ID] cells
    that are left, [k] rows after [start_row]: the limit ends the loop, a
    cell without an id is marked and passed over, and an exception ends
    the loop after its row. *)
Fixpoint rows_loop (w : World) (done : table) (generated_count : Z)
         (ids : list pyval) (limit : option Z) (k : Z)
  : list row_result * World :=
  match ids with
  | [] => ([], w)
  | raw_id :: rest =>
      if limit_reached limit k then ([], w)
      else
        match normalize_product_id raw_id with
        | Some (String c g) =>
            let '(r, count, w1) :=
              row_step w done generated_count (String c g) in
            match row_raised r with
            | Some _ => ([r], w1)
            | None =>
                let (rs, w2) :=
                  rows_loop w1 (with_row done (row_status r) (row_body r)) count
                            rest limit (k + 1) in
                (r :: rs, w2)
            end
        | _ =>
            let (rs, w2) :=
              rows_loop w (with_row done "SKIPPED: invalid ID" None)
                        generated_count rest limit (k + 1) in
            (row_invalid_id :: rs, w2)
        end
  end.

(** The rows the loop of [main] visits, for a [start_row] that is not
    negative. *)
Definition main_rows (w : World) (ids : list pyval) (start_row : nat)
           (limit : option Z) : list row_result * World :=
  rows_loop w [] 0 (skipn start_row ids) limit 0.

End Main.

(** Services for the examples: a pause and a writer that count their
    calls like [counting_fetch], a pause that fails as [time.sleep]
    does for a negative time, and exceptions without text. *)
Definition counting_sleep (w : nat) (seconds : spec_float)
  : result unit * nat := (Ok tt, S w).

Definition failing_sleep (w : nat) (seconds : spec_float)
  : result unit * nat := (Raise ValueError, w).

Definition minus_one : spec_float := S754_finite true 1 0.

Definition counting_to_file (w : nat) (format : table_format) (df : table)
           (path : string) : result unit * nat := (Ok tt, S w).

Definition no_text (ex : exn) : string := EmptyString.


(** ** Vocabulary of the further properties *)

(** The number of maximal runs of characters that are not whitespace;
    [in_word] tells that the previous character belongs to a run. *)
Fixpoint count_words (in_word : bool) (s : string) : nat :=
  match s with
  | EmptyString => 0
  | String c s' =>
      if PyStr.isspace c then count_words false s'
      else (if in_word then 0 else 1) + count_words true s'
  end.

(** Every whitespace of [s] is one space character that follows a
    character that is not whitespace; with [after_ws] the text may not
    start with whitespace either. *)
Fixpoint single_spaced (after_ws : bool) (s : string) : bool :=
  match s with
  | EmptyString => true
  | String c s' =>
      if PyStr.isspace c
      then negb after_ws && Ascii.eqb c " " && single_spaced true s'
      else single_spaced false s'
  end.

(** The number of texts of a list that have a character. *)
Definition count_filled (l : list string) : nat :=
  List.length (filter PyStr.truthy l).

(** Every character of [s] passes the test [f]. *)
Fixpoint string_forallb (f : ascii -> bool) (s : string) : bool :=
  match s with
  | EmptyString => true
  | String c s' => f c && string_forallb f s'
  end.

(** The characters the fallback of [parse_listish_string] removes or
    splits at. *)
Definition list_punctuation : list ascii :=
  ["["%char; "]"%char; dquote; "\"%char; ","%char].

(** [c] occurs in [s]. *)
Fixpoint has_char (c : ascii) (s : string) : bool :=
  match s with
  | EmptyString => false
  | String d s' => Ascii.eqb d c || has_char c s'
  end.

(** The keys [puzzle] may hold. *)
Definition PUZZLE_KEYS : list string :=
  ["style_size_description"; "construction_description"; "material_descriptions";
   "colour_descriptions"; "hardware_description"].

(** A value of the payload that is a text with a character, or a list
    with an element, all of whose elements are such texts. *)
Definition filled_text (v : pyval) : bool :=
  match v with
  | PStr (String _ _) => true
  | _ => false
  end.

Definition filled (v : pyval) : bool :=
  match v with
  | PStr (String _ _) => true
  | PList (x :: l) => forallb filled_text (x :: l)
  | _ => false
  end.

(** A list of texts that is kept only when it has an element. *)
Definition list_entry (l : list string) : option pyval :=
  match l with
  | [] => None
  | _ => Some (str_list l)
  end.

(** The fields of the single reference of [hermes_hardware]. *)
Definition hardware_fields (p : Product) : list Field :=
  match reference_of (hermes_hardware p) with
  | Some r => node_fields r
  | None => []
  end.

(** An [ID] cell without an id: [None], or a value whose text is empty
    or the "nan" token once trimmed (the empty cell of a table). *)
Definition blank_id `{Runtime} (v : pyval) : Prop :=
  v = PNone \/ source_blank (Some (py_str v)).

(** A webhook that fails at every call. *)
Definition failing_webhook (w : nat) (payload : dict) : result dict * nat :=
  (Raise (RuntimeError "Webhook HTTP 500: "), S w).

(** [l] is [m] with some elements left out. *)
Fixpoint is_subseq (l m : list string) : bool :=
  match l, m with
  | [], _ => true
  | _ :: _, [] => false
  | x :: l', y :: m' =>
      if String.eqb x y then is_subseq l' m' else is_subseq l m'
  end.

(** The last element of a list of texts, the empty text without one. *)
Definition last_text (l : list string) : string := last l EmptyString.


(** * Properties *)

(** ** Text metrics and the phrase dictionary *)

Lemma truthy_opt_false (o : option string) :
  truthy_opt o = false <-> o = None \/ o = Some EmptyString.
Proof.
  destruct o as [[|c s]|]; simpl; split; intro Hx;
    try reflexivity; try discriminate; auto;
    destruct Hx as [Hx|Hx]; discriminate.
Qed.

Lemma truthy_opt_true (o : option string) :
  truthy_opt o = true <-> exists c s, o = Some (String c s).
Proof.
  destruct o as [[|c s]|]; simpl; split; intro Hx;
    try discriminate; try reflexivity.
  - destruct Hx as (c & s & Hx); discriminate.
  - exists c, s; reflexivity.
  - destruct Hx as (c & s & Hx); discriminate.
Qed.

Lemma or_empty_some (s : string) : or_empty (Some s) = s.
Proof. destruct s; reflexivity. Qed.

Lemma truthy_nonempty (s : string) : PyStr.truthy s = true <-> s <> EmptyString.
Proof.
  destruct s; simpl; split; intro Hx; try discriminate; try reflexivity.
  contradiction Hx; reflexivity.
Qed.

(** Counting with [sum(1 for ..)] never counts more than the list has. *)
Lemma count_ones_le {A : Type} (f : A -> bool) (l : list A) :
  list_sum (map (fun _ => 1) (filter f l)) <= List.length l.
Proof.
  induction l as [|a l IH]; simpl.
  - lia.
  - destruct (f a); simpl; lia.
Qed.

Section ClassifierProperties.
Context `{Runtime}.

(** C1. A product whose bag-style value is absent or empty is skipped
    with no preserved note, whatever its description holds. *)
Theorem should_process_product_bag_style_empty (p : Product) :
  metafield_value (bag_style p) = None
  \/ metafield_value (bag_style p) = Some EmptyString ->
  should_process_product p = (false, None, reason_bag_style_empty).
Proof.
  intro Hbag.
  apply truthy_opt_false in Hbag.
  unfold should_process_product.
  rewrite Hbag.
  reflexivity.
Qed.

(** The classifier once the bag style and the description are there. *)
Lemma should_process_product_described (p : Product) (markup : string) :
  truthy_opt (metafield_value (bag_style p)) = true ->
  descriptionHtml p = Some markup ->
  markup <> EmptyString ->
  should_process_product p =
    let wc := stripped_word_count markup in
    let chars := String.length markup in
    let phrases := count_ai_phrases (Some markup) in
    if (0 <? wc) && (wc <=? EDITORS_NOTE_MAX_WORDS) then
      (true, Some markup,
       "PROCESS: editor note detected (" ++ PyStr.of_nat wc ++ " words)")
    else if (MAX_CHAR_COUNT <? chars) && (MAX_WORD_COUNT <? wc)
            && (MIN_AI_PHRASES <=? phrases) then
      (true, None, reason_metrics "PROCESS: legacy AI detected" chars wc phrases)
    else
      (false, None, reason_metrics "SKIPPED: has description" chars wc phrases).
Proof.
  intros Hbag Hdesc Hne.
  unfold should_process_product, stripped_word_count.
  rewrite Hbag, Hdesc, or_empty_some.
  apply truthy_nonempty in Hne.
  rewrite Hne.
  reflexivity.
Qed.

(** C2. With a bag style and a description of 1 to 50 stripped words,
    the product is processed, the preserved note is the description
    markup itself, and the reason gives the word count. *)
Theorem should_process_product_editor_note (p : Product) (markup : string) :
  truthy_opt (metafield_value (bag_style p)) = true ->
  descriptionHtml p = Some markup ->
  markup <> EmptyString ->
  1 <= stripped_word_count markup <= 50 ->
  should_process_product p =
    (true, Some markup,
     "PROCESS: editor note detected ("
     ++ PyStr.of_nat (stripped_word_count markup) ++ " words)").
Proof.
  intros Hbag Hdesc Hne [Hlo Hhi].
  rewrite (should_process_product_described p markup Hbag Hdesc Hne).
  cbv zeta.
  replace (0 <? stripped_word_count markup) with true
    by (symmetry; apply Nat.ltb_lt; lia).
  replace (stripped_word_count markup <=? EDITORS_NOTE_MAX_WORDS) with true
    by (symmetry; apply Nat.leb_le; unfold EDITORS_NOTE_MAX_WORDS; lia).
  reflexivity.
Qed.

(** C3. With a bag style and a non-empty description whose stripped
    word count is outside 1..50, the product is processed without a
    note exactly when the markup has more than 1200 characters, more
    than 180 stripped words and at least one signal phrase; otherwise
    it is skipped without a note. *)
Theorem should_process_product_legacy_or_skip (p : Product) (markup : string) :
  truthy_opt (metafield_value (bag_style p)) = true ->
  descriptionHtml p = Some markup ->
  markup <> EmptyString ->
  ~ (1 <= stripped_word_count markup <= 50) ->
  let chars := String.length markup in
  let wc := stripped_word_count markup in
  let phrases := count_ai_phrases (Some markup) in
  (should_process_product p
     = (true, None,
        reason_metrics "PROCESS: legacy AI detected" chars wc phrases)
   <-> (chars > 1200 /\ wc > 180 /\ phrases >= 1))
  /\ (~ (chars > 1200 /\ wc > 180 /\ phrases >= 1) ->
      should_process_product p
        = (false, None,
           reason_metrics "SKIPPED: has description" chars wc phrases)).
Proof.
  intros Hbag Hdesc Hne Hout chars wc phrases.
  rewrite (should_process_product_described p markup Hbag Hdesc Hne).
  cbv zeta. fold chars wc phrases.
  assert (Hnote : (0 <? wc) && (wc <=? EDITORS_NOTE_MAX_WORDS) = false).
  { apply andb_false_iff.
    destruct (Nat.ltb_spec 0 wc) as [Hpos|Hzero]; [right | left; reflexivity].
    apply Nat.leb_gt. unfold EDITORS_NOTE_MAX_WORDS.
    unfold wc in *. lia. }
  rewrite Hnote.
  destruct ((MAX_CHAR_COUNT <? chars) && (MAX_WORD_COUNT <? wc)
            && (MIN_AI_PHRASES <=? phrases)) eqn:Hlegacy.
  - apply andb_true_iff in Hlegacy as [Hcw Hph].
    apply andb_true_iff in Hcw as [Hch Hwc].
    apply Nat.ltb_lt in Hch, Hwc. apply Nat.leb_le in Hph.
    unfold MAX_CHAR_COUNT, MAX_WORD_COUNT, MIN_AI_PHRASES in *.
    split; [split; [intros _; lia | reflexivity] | intro Hn; exfalso; lia].
  - split; [split; [discriminate |] | reflexivity].
    intros (Hch & Hwc & Hph). exfalso.
    apply andb_false_iff in Hlegacy as [Hcw|Hph'].
    + apply andb_false_iff in Hcw as [Hch'|Hwc'].
      * apply Nat.ltb_ge in Hch'. unfold MAX_CHAR_COUNT in Hch'. lia.
      * apply Nat.ltb_ge in Hwc'. unfold MAX_WORD_COUNT in Hwc'. lia.
    + apply Nat.leb_gt in Hph'. unfold MIN_AI_PHRASES in Hph'. lia.
Qed.

End ClassifierProperties.

Lemma should_process_product_bag_style_empty_witness :
  (metafield_value (bag_style (plain_product None (Some legacy_markup))) = None
   \/ metafield_value (bag_style (plain_product None (Some legacy_markup)))
      = Some EmptyString)
  /\ @should_process_product text_runtime (plain_product None (Some legacy_markup))
     = (false, None, reason_bag_style_empty).
Proof.
  split.
  - left; reflexivity.
  - apply (@should_process_product_bag_style_empty text_runtime).
    left; reflexivity.
Defined.

Lemma should_process_product_editor_note_witness :
  1 <= @stripped_word_count text_runtime note_markup <= 50
  /\ @should_process_product text_runtime (plain_product birkin (Some note_markup))
     = (true, Some note_markup, "PROCESS: editor note detected (4 words)").
Proof.
  split.
  - vm_compute; lia.
  - apply (@should_process_product_editor_note text_runtime
             (plain_product birkin (Some note_markup)) note_markup).
    + reflexivity.
    + reflexivity.
    + discriminate.
    + vm_compute; lia.
Defined.

Lemma should_process_product_legacy_or_skip_witness :
  ~ (1 <= @stripped_word_count text_runtime legacy_markup <= 50)
  /\ @should_process_product text_runtime (plain_product birkin (Some legacy_markup))
     = (true, None,
        "PROCESS: legacy AI detected (chars=1800, words=200, phrases=1)").
Proof.
  assert (Hwc : @stripped_word_count text_runtime legacy_markup = 200)
    by (vm_compute; reflexivity).
  assert (Hout : ~ (1 <= @stripped_word_count text_runtime legacy_markup <= 50))
    by (rewrite Hwc; lia).
  split; [exact Hout|].
  destruct (@should_process_product_legacy_or_skip text_runtime
              (plain_product birkin (Some legacy_markup)) legacy_markup
              eq_refl eq_refl ltac:(discriminate) Hout) as [Hiff _].
  etransitivity; [apply Hiff | vm_compute; reflexivity].
  rewrite Hwc.
  replace (String.length legacy_markup) with 1800 by (vm_compute; reflexivity).
  replace (count_ai_phrases (Some legacy_markup)) with 1 by (vm_compute; reflexivity).
  lia.
Defined.

(** A description of 60 words without a signal phrase is left alone. *)
Example should_process_product_long_markup :
  @should_process_product text_runtime (plain_product birkin (Some long_markup))
  = (false, None, "SKIPPED: has description (chars=300, words=60, phrases=0)").
Proof. vm_compute; reflexivity. Qed.

(** C10. The phrase dictionary has 21 entries: three pairs of adjacent
    literals are fused, so none of their halves is an entry, a markup
    made of the second half alone counts no phrase, and no markup counts
    more than 21. *)
Theorem AI_PHRASES_fused_entries :
  List.length AI_PHRASES = 21
  /\ (In "symphonyindulge" AI_PHRASES
      /\ In "elleganceunparalleled" AI_PHRASES
      /\ In "craftsmanshipsophisticated" AI_PHRASES)
  /\ (forall half,
         In half ["symphony"; "indulge"; "ellegance"; "unparalleled";
                  "craftsmanship"; "sophisticated"] ->
         ~ In half AI_PHRASES)
  /\ (count_ai_phrases (Some "indulge") = 0
      /\ count_ai_phrases (Some "unparalleled") = 0
      /\ count_ai_phrases (Some "sophisticated") = 0)
  /\ (forall html, count_ai_phrases html <= 21).
Proof.
  split; [reflexivity|].
  split; [simpl; tauto|].
  split.
  - intros half Hhalf Hin.
    simpl in Hhalf.
    repeat (destruct Hhalf as [Hhalf|Hhalf];
            [subst half; simpl in Hin;
             repeat (destruct Hin as [Hin|Hin]; [discriminate Hin|]);
             exact Hin|]).
    exact Hhalf.
  - split; [repeat split; reflexivity|].
    intro html. unfold count_ai_phrases.
    apply (count_ones_le _ AI_PHRASES).
Qed.

(** ** [parse_listish_string] *)

Section ListishProperties.
Context `{Runtime}.


(** The examples of the specification. *)
Example parse_listish_string_examples :
  parse_listish_string (Some (dq "['Birkin']")) = Some "Birkin"
  /\ parse_listish_string (Some (dq "['A','B']")) = Some "A"
  /\ parse_listish_string (Some "Plain") = Some "Plain"
  /\ parse_listish_string (Some EmptyString) = None
  /\ parse_listish_string (Some " NaN ") = None
  /\ parse_listish_string (Some "[null]") = None
  /\ parse_listish_string (Some "[Birkin, Kelly]") = Some "Birkin".
Proof. repeat split; vm_compute; reflexivity. Qed.

(** C4. The text ["[]"] is bracketed and decodes as the empty list, and
    the function returns the text itself, not [None]: the branch of
    the decoded list has no [return] for the empty list, so control
    reaches the final [return v]. *)
Theorem parse_listish_string_empty_list :
  Json.loads "[]" = Ok (PList [])
  /\ parse_listish_string (Some "[]") = Some "[]".
Proof. split; vm_compute; reflexivity. Qed.

(** The fallback of the same function returns [None] when nothing is
    left between the brackets. *)
Example parse_listish_string_fallback_empty :
  parse_listish_string (Some "[,]") = None.
Proof. vm_compute; reflexivity. Qed.

(** C9. A product with the bag-style value [dq "['']"] is processed, yet its
    specification has no [bag_style] key: the classifier tests the raw
    value, the extractor tests its first item, which is empty. *)
Theorem processed_without_bag_style :
  exists p : Product,
    metafield_value (bag_style p) = Some (dq "['']")
    /\ truthy_opt (metafield_value (bag_style p)) = true
    /\ fst (fst (should_process_product p)) = true
    /\ parse_listish_string (metafield_value (bag_style p)) = Some EmptyString
    /\ dict_get (specifications p) "bag_style" = None
    /\ payload_specifications
         (build_payload_from_product p (snd (fst (should_process_product p))))
       = Some (specifications p).
Proof.
  exists (plain_product (metafield (dq "['']")) None).
  repeat split; vm_compute; reflexivity.
Qed.

End ListishProperties.

(** ** The decoder always has fuel enough *)

Lemma skip_ws_length (s : string) :
  String.length (Json.skip_ws s) <= String.length s.
Proof.
  induction s as [|c s IH]; simpl; [lia|].
  destruct (Json.is_ws c); simpl; lia.
Qed.

Lemma drop_length (n : nat) (s : string) :
  String.length (Json.drop n s) = String.length s - n.
Proof.
  revert s. induction n as [|n IH]; intro s; simpl.
  - lia.
  - destruct s as [|c s]; simpl; [reflexivity | apply IH].
Qed.

Lemma prefix_length (p s : string) :
  prefix p s = true -> String.length p <= String.length s.
Proof.
  revert s. induction p as [|c p IH]; intros s Hp; simpl; [lia|].
  destruct s as [|d s]; simpl in Hp; [discriminate Hp|].
  destruct (ascii_dec c d); [|discriminate Hp].
  simpl. apply IH in Hp. lia.
Qed.

Lemma read_digits_length (s : string) :
  forall acc n v n' r,
    read_digits acc n s = (v, n', r) ->
    String.length r + n' = String.length s + n /\ n <= n'.
Proof.
  induction s as [|c s IH]; intros acc n v n' r Hr; simpl in Hr.
  - injection Hr as _ <- <-. split; reflexivity.
  - destruct (is_digit c).
    + apply IH in Hr. simpl. lia.
    + injection Hr as _ <- <-. split; reflexivity.
Qed.

Lemma scanstring_length (s : string) :
  forall str r, Json.scanstring s = Ok (str, r) -> String.length r < String.length s.
Proof.
  assert (Hcons : forall c t str r,
             Json.cons_char c (Json.scanstring t) = Ok (str, r) ->
             exists str', Json.scanstring t = Ok (str', r)).
  { intros c t str r Hc. unfold Json.cons_char in Hc.
    destruct (Json.scanstring t) as [[str' r']|e]; simpl in Hc; [|discriminate Hc].
    injection Hc as _ <-. exists str'. reflexivity. }
  induction s as [s IH] using (well_founded_induction
                                 (Wf_nat.well_founded_ltof _ String.length)).
  unfold Wf_nat.ltof in IH.
  intros str r Hs.
  destruct s as [|c s1]; simpl in Hs; [discriminate Hs|].
  destruct (Ascii.eqb c dquote).
  { injection Hs as _ <-. simpl. lia. }
  destruct (Ascii.eqb c "\").
  - destruct s1 as [|e s2]; [discriminate Hs|].
    destruct (Ascii.eqb e "u").
    + destruct s2 as [|h1 [|h2 [|h3 [|h4 s3]]]]; try discriminate Hs.
      destruct (Json.hex4 h1 h2 h3 h4) as [n|]; [|discriminate Hs].
      destruct (n <? 256); [|discriminate Hs].
      apply Hcons in Hs as [str' Hs].
      apply IH in Hs; simpl in *; lia.
    + destruct (Json.unescape e); [|discriminate Hs].
      apply Hcons in Hs as [str' Hs].
      apply IH in Hs; simpl in *; lia.
  - destruct (nat_of_ascii c <? 32); [discriminate Hs|].
    apply Hcons in Hs as [str' Hs].
    apply IH in Hs; simpl in *; lia.
Qed.

Lemma scanstring_no_recursion (s : string) :
  Json.scanstring s <> Raise RecursionError.
Proof.
  assert (Hcons : forall c t,
             Json.scanstring t <> Raise RecursionError ->
             Json.cons_char c (Json.scanstring t) <> Raise RecursionError).
  { intros c t Ht. unfold Json.cons_char.
    destruct (Json.scanstring t) as [[str' r']|e]; simpl; [discriminate|].
    intro He. apply Ht. exact He. }
  induction s as [s IH] using (well_founded_induction
                                 (Wf_nat.well_founded_ltof _ String.length)).
  unfold Wf_nat.ltof in IH.
  destruct s as [|c s1]; simpl; [discriminate|].
  destruct (Ascii.eqb c dquote); [discriminate|].
  destruct (Ascii.eqb c "\").
  - destruct s1 as [|e s2]; [discriminate|].
    destruct (Ascii.eqb e "u").
    + destruct s2 as [|h1 [|h2 [|h3 [|h4 s3]]]]; try discriminate.
      destruct (Json.hex4 h1 h2 h3 h4) as [n|]; [|discriminate].
      destruct (n <? 256); [|discriminate].
      apply Hcons, IH. simpl. lia.
    + destruct (Json.unescape e); [|discriminate].
      apply Hcons, IH. simpl. lia.
  - destruct (nat_of_ascii c <? 32); [discriminate|].
    apply Hcons, IH. simpl. lia.
Qed.

Lemma match_number_length (s : string) (v : pyval) (r : string) :
  Json.match_number s = Some (v, r) -> String.length r < String.length s.
Proof.
  unfold Json.match_number.
  set (ns := match s with
             | String "-" r0 => (true, r0)
             | _ => (false, s)
             end).
  assert (Hns : String.length (snd ns) <= String.length s).
  { unfold ns. destruct s as [|c s']; simpl; [lia|].
    destruct c as [[] [] [] [] [] [] [] []]; simpl; lia. }
  destruct ns as [neg s1]. simpl in Hns.
  destruct s1 as [|c t]; [discriminate|].
  destruct (is_digit c) eqn:Hc; [|discriminate].
  set (ip := if Ascii.eqb c "0" then (0%Z, 1, t) else read_digits 0 0 (String c t)).
  assert (Hip : String.length (snd ip) <= String.length t).
  { unfold ip. destruct (Ascii.eqb c "0"); simpl; [lia|].
    rewrite Hc.
    destruct (read_digits _ 1 t) as [[v0 n0] r0] eqn:Hrd.
    apply read_digits_length in Hrd. simpl. lia. }
  destruct ip as [[mi ni] r1]. simpl in Hip.
  set (fp := match r1 with
             | String "." rf =>
                 match read_digits mi 0 rf with
                 | (m', S k, r') => (m', S k, r')
                 | _ => (mi, 0, r1)
                 end
             | _ => (mi, 0, r1)
             end).
  assert (Hfp : String.length (snd fp) <= String.length r1).
  { unfold fp. destruct r1 as [|d rf]; simpl; [lia|].
    destruct d as [[] [] [] [] [] [] [] []]; simpl; try lia.
    destruct (read_digits mi 0 rf) as [[m' k] r'] eqn:Hrd.
    apply read_digits_length in Hrd.
    destruct k; simpl; lia. }
  destruct fp as [[m nf] r2]. simpl in Hfp.
  set (ep := match r2 with
             | String c2 re =>
                 if Ascii.eqb c2 "e" || Ascii.eqb c2 "E" then
                   let (eneg, re1) := parse_sign re in
                   match read_digits 0 0 re1 with
                   | (v0, S _, r') => (Some (if eneg then Z.opp v0 else v0), r')
                   | _ => (None, r2)
                   end
                 else (None, r2)
             | EmptyString => (None, r2)
             end).
  assert (Hep : String.length (snd ep) <= String.length r2).
  { unfold ep. destruct r2 as [|c2 re]; simpl; [lia|].
    destruct (Ascii.eqb c2 "e" || Ascii.eqb c2 "E"); simpl; [|lia].
    assert (Hsign : String.length (snd (parse_sign re)) <= String.length re).
    { unfold parse_sign. destruct re as [|d re']; simpl; [lia|].
      destruct d as [[] [] [] [] [] [] [] []]; simpl; lia. }
    destruct (parse_sign re) as [eneg re1]. simpl in Hsign.
    destruct (read_digits 0 0 re1) as [[v0 k] r'] eqn:Hrd.
    apply read_digits_length in Hrd.
    destruct k; simpl; lia. }
  destruct ep as [ex r3]. simpl in Hep.
  intro Hm.
  assert (Hr : r = r3).
  { destruct nf; destruct ex; injection Hm as _ <-; reflexivity. }
  subst r. simpl in *. lia.
Qed.

Ltac bind_ok H p Hp :=
  match type of H with
  | bind ?x _ = Ok _ =>
      destruct x as [p|] eqn:Hp; [|discriminate H]; cbn [bind] in H
  end.

(** Every successful scan consumes some input. *)
Lemma scan_consumes (fuel : nat) :
  (forall s v r, Json.scan_once fuel s = Ok (v, r) ->
                 String.length r < String.length s)
  /\ (forall s v r, Json.parse_array fuel s = Ok (v, r) ->
                    String.length r < String.length s)
  /\ (forall vals s v r, Json.array_loop fuel vals s = Ok (v, r) ->
                         String.length r < String.length s)
  /\ (forall s v r, Json.parse_object fuel s = Ok (v, r) ->
                    String.length r < String.length s)
  /\ (forall pairs s v r, Json.object_loop fuel pairs s = Ok (v, r) ->
                          String.length r < String.length s).
Proof.
  induction fuel as [|fuel (IHscan & IHarr & IHaloop & IHobj & IHoloop)].
  { repeat split; intros; discriminate. }
  split; [|split; [|split; [|split]]].
  - intros s v r Hs. cbn [Json.scan_once] in Hs.
    destruct s as [|c s']; [discriminate Hs|].
    destruct (Ascii.eqb c dquote).
    { bind_ok Hs p Hp. destruct p as [str r']. injection Hs as _ <-.
      apply scanstring_length in Hp. simpl in *. lia. }
    destruct (Ascii.eqb c "{").
    { apply IHobj in Hs. simpl. lia. }
    destruct (Ascii.eqb c "[").
    { apply IHarr in Hs. simpl. lia. }
    assert (Hdrop : forall n, 0 < n ->
              String.length (Json.drop n (String c s')) < String.length (String c s')).
    { intros n Hn. rewrite drop_length.
      change (String.length (String c s')) with (S (String.length s')). lia. }
    destruct (prefix "null" (String c s'));
      [injection Hs as _ <-; apply (Hdrop 4); lia|].
    destruct (prefix "true" (String c s'));
      [injection Hs as _ <-; apply (Hdrop 4); lia|].
    destruct (prefix "false" (String c s'));
      [injection Hs as _ <-; apply (Hdrop 5); lia|].
    destruct (Json.match_number (String c s')) as [[v0 r0]|] eqn:Hnum.
    { injection Hs as _ <-. apply (match_number_length _ _ _ Hnum). }
    destruct (prefix "NaN" (String c s'));
      [injection Hs as _ <-; apply (Hdrop 3); lia|].
    destruct (prefix "Infinity" (String c s'));
      [injection Hs as _ <-; apply (Hdrop 8); lia|].
    destruct (prefix "-Infinity" (String c s'));
      [injection Hs as _ <-; apply (Hdrop 9); lia|].
    discriminate Hs.
  - intros s v r Hs. cbn [Json.parse_array] in Hs.
    pose proof (skip_ws_length s) as Hws.
    destruct (Json.skip_ws s) as [|c s1] eqn:Hskip.
    + apply IHaloop in Hs. simpl in Hs. lia.
    + assert (Hloop : Json.array_loop fuel [] (String c s1) = Ok (v, r) ->
                      String.length r < String.length s).
      { intro Hl. apply IHaloop in Hl. lia. }
      destruct (Ascii.eqb_spec c "]") as [->|Hc].
      * injection Hs as _ <-. simpl in Hws. lia.
      * apply Hloop.
        destruct c as [[] [] [] [] [] [] [] []]; try exact Hs.
        contradiction Hc. reflexivity.
  - intros vals s v r Hs. cbn [Json.array_loop] in Hs.
    bind_ok Hs p Hp. destruct p as [v0 r0]. apply IHscan in Hp.
    cbn [fst snd] in Hs.
    pose proof (skip_ws_length r0) as Hws.
    destruct (Json.skip_ws r0) as [|c r1]; [discriminate Hs|].
    destruct (Ascii.eqb_spec c "]") as [->|Hc1].
    { injection Hs as _ <-. simpl in Hws. lia. }
    destruct (Ascii.eqb_spec c ",") as [->|Hc2].
    { apply IHaloop in Hs.
      pose proof (skip_ws_length r1). simpl in Hws. lia. }
    destruct c as [[] [] [] [] [] [] [] []]; try discriminate Hs;
      first [exfalso; apply Hc1; reflexivity | exfalso; apply Hc2; reflexivity].
  - intros s v r Hs. cbn [Json.parse_object] in Hs.
    pose proof (skip_ws_length s) as Hws.
    destruct (Json.skip_ws s) as [|c s1]; [discriminate Hs|].
    destruct (Ascii.eqb c "}").
    { injection Hs as _ <-. simpl in Hws. lia. }
    destruct (Ascii.eqb c dquote); [|discriminate Hs].
    apply IHoloop in Hs. simpl in Hws. lia.
  - intros pairs s v r Hs. cbn [Json.object_loop] in Hs.
    bind_ok Hs k Hk. destruct k as [key r0]. apply scanstring_length in Hk.
    cbn [fst snd] in Hs.
    pose proof (skip_ws_length r0) as Hws0.
    destruct (Json.skip_ws r0) as [|c r1]; [discriminate Hs|].
    destruct (Ascii.eqb_spec c ":") as [->|Hc];
      [|destruct c as [[] [] [] [] [] [] [] []]; try discriminate Hs;
        contradiction Hc; reflexivity].
    bind_ok Hs p Hp. destruct p as [v0 r2]. apply IHscan in Hp.
    cbn [fst snd] in Hs.
    pose proof (skip_ws_length r1) as Hws1.
    pose proof (skip_ws_length r2) as Hws2.
    destruct (Json.skip_ws r2) as [|c2 r3]; [discriminate Hs|].
    destruct (Ascii.eqb_spec c2 "}") as [->|Hc1].
    { injection Hs as _ <-. simpl in *. lia. }
    destruct (Ascii.eqb_spec c2 ",") as [->|Hc2];
      [|destruct c2 as [[] [] [] [] [] [] [] []]; try discriminate Hs;
        first [exfalso; apply Hc1; reflexivity | exfalso; apply Hc2; reflexivity]].
    pose proof (skip_ws_length r3) as Hws3.
    destruct (Json.skip_ws r3) as [|c3 r4]; [discriminate Hs|].
    destruct (Ascii.eqb c3 dquote); [|discriminate Hs].
    apply IHoloop in Hs. simpl in *. lia.
Qed.

(** With three units of fuel for each character the scan never runs
    out. *)
Lemma scan_fuel (fuel : nat) :
  (forall s, 3 * String.length s + 1 <= fuel ->
             Json.scan_once fuel s <> Raise RecursionError)
  /\ (forall s, 3 * String.length s + 3 <= fuel ->
                Json.parse_array fuel s <> Raise RecursionError)
  /\ (forall vals s, 3 * String.length s + 2 <= fuel ->
                     Json.array_loop fuel vals s <> Raise RecursionError)
  /\ (forall s, 3 * String.length s + 3 <= fuel ->
                Json.parse_object fuel s <> Raise RecursionError)
  /\ (forall pairs s, 3 * String.length s + 2 <= fuel ->
                      Json.object_loop fuel pairs s <> Raise RecursionError).
Proof.
  induction fuel as [|fuel (IHscan & IHarr & IHaloop & IHobj & IHoloop)].
  { repeat split; intros; lia. }
  destruct (scan_consumes fuel) as (Cscan & _).
  split; [|split; [|split; [|split]]].
  - intros s Hf. cbn [Json.scan_once].
    destruct s as [|c s']; [discriminate|].
    change (String.length (String c s')) with (S (String.length s')) in Hf.
    destruct (Ascii.eqb c dquote).
    { pose proof (scanstring_no_recursion s') as Hno.
      destruct (Json.scanstring s') as [p|e]; cbn [bind]; [discriminate|].
      intro He. apply Hno. injection He as ->. reflexivity. }
    destruct (Ascii.eqb c "{"); [apply IHobj; lia|].
    destruct (Ascii.eqb c "["); [apply IHarr; lia|].
    destruct (prefix "null" (String c s')); [discriminate|].
    destruct (prefix "true" (String c s')); [discriminate|].
    destruct (prefix "false" (String c s')); [discriminate|].
    destruct (Json.match_number (String c s')); [discriminate|].
    destruct (prefix "NaN" (String c s')); [discriminate|].
    destruct (prefix "Infinity" (String c s')); [discriminate|].
    destruct (prefix "-Infinity" (String c s')); discriminate.
  - intros s Hf. cbn [Json.parse_array].
    pose proof (skip_ws_length s) as Hws.
    destruct (Json.skip_ws s) as [|c s1].
    + apply IHaloop. simpl. lia.
    + assert (Hloop : Json.array_loop fuel [] (String c s1) <> Raise RecursionError)
        by (apply IHaloop; lia).
      destruct c as [[] [] [] [] [] [] [] []]; try exact Hloop.
      discriminate.
  - intros vals s Hf. cbn [Json.array_loop].
    pose proof (IHscan s ltac:(lia)) as Hno.
    destruct (Json.scan_once fuel s) as [[v0 r0]|e] eqn:Hp; cbn [bind];
      [|exact Hno].
    apply Cscan in Hp. cbn [fst snd].
    pose proof (skip_ws_length r0) as Hws.
    destruct (Json.skip_ws r0) as [|c r1]; [discriminate|].
    change (String.length (String c r1)) with (S (String.length r1)) in Hws.
    pose proof (skip_ws_length r1) as Hws1.
    assert (Hloop : Json.array_loop fuel (vals ++ [v0]) (Json.skip_ws r1)
                    <> Raise RecursionError) by (apply IHaloop; lia).
    destruct c as [[] [] [] [] [] [] [] []]; try discriminate.
    exact Hloop.
  - intros s Hf. cbn [Json.parse_object].
    pose proof (skip_ws_length s) as Hws.
    destruct (Json.skip_ws s) as [|c s1]; [discriminate|].
    change (String.length (String c s1)) with (S (String.length s1)) in Hws.
    destruct (Ascii.eqb c "}"); [discriminate|].
    destruct (Ascii.eqb c dquote); [|discriminate].
    apply IHoloop. lia.
  - intros pairs s Hf. cbn [Json.object_loop].
    pose proof (scanstring_no_recursion s) as Hno.
    destruct (Json.scanstring s) as [[key r0]|e] eqn:Hk; cbn [bind];
      [|intro He; apply Hno; injection He as ->; reflexivity].
    apply scanstring_length in Hk. cbn [fst snd].
    pose proof (skip_ws_length r0) as Hws0.
    destruct (Json.skip_ws r0) as [|c r1]; [discriminate|].
    change (String.length (String c r1)) with (S (String.length r1)) in Hws0.
    pose proof (skip_ws_length r1) as Hws1.
    assert (Hvalue :
              bind (Json.scan_once fuel (Json.skip_ws r1))
                   (fun p =>
                      let pairs' := (pairs ++ [(key, fst p)])%list in
                      match Json.skip_ws (snd p) with
                      | String "}" r2 => Ok (PDict (Json.dict_of_pairs pairs'), r2)
                      | String "," r2 =>
                          match Json.skip_ws r2 with
                          | String c2 r3 =>
                              if Ascii.eqb c2 dquote
                              then Json.object_loop fuel pairs' r3
                              else Raise JSONDecodeError
                          | EmptyString => Raise JSONDecodeError
                          end
                      | _ => Raise JSONDecodeError
                      end)
              <> Raise RecursionError).
    { pose proof (IHscan (Json.skip_ws r1) ltac:(lia)) as Hnov.
      destruct (Json.scan_once fuel (Json.skip_ws r1)) as [[v0 r2]|e] eqn:Hp;
        cbn [bind]; [|exact Hnov].
      apply Cscan in Hp. cbn [fst snd]. cbv zeta.
      pose proof (skip_ws_length r2) as Hws2.
      destruct (Json.skip_ws r2) as [|c2 r3]; [discriminate|].
      change (String.length (String c2 r3)) with (S (String.length r3)) in Hws2.
      pose proof (skip_ws_length r3) as Hws3.
      assert (Hnext : match Json.skip_ws r3 with
                      | String c3 r4 =>
                          if Ascii.eqb c3 dquote
                          then Json.object_loop fuel (pairs ++ [(key, v0)]) r4
                          else Raise JSONDecodeError
                      | EmptyString => Raise JSONDecodeError
                      end <> Raise RecursionError).
      { destruct (Json.skip_ws r3) as [|c3 r4]; [discriminate|].
        change (String.length (String c3 r4)) with (S (String.length r4)) in Hws3.
        destruct (Ascii.eqb c3 dquote); [|discriminate].
        apply IHoloop. lia. }
      destruct c2 as [[] [] [] [] [] [] [] []]; try discriminate.
      exact Hnext. }
    destruct c as [[] [] [] [] [] [] [] []]; try discriminate.
    exact Hvalue.
Qed.

(** [json.loads] returns a value or reports a decoding error: the fuel
    it starts with is never used up. *)
Lemma loads_total (s : string) :
  (exists v, Json.loads s = Ok v) \/ Json.loads s = Raise JSONDecodeError.
Proof.
  assert (Hexn : forall fuel,
             (forall t e, Json.scan_once fuel t = Raise e ->
                          e = JSONDecodeError \/ e = RecursionError)
             /\ (forall t e, Json.parse_array fuel t = Raise e ->
                             e = JSONDecodeError \/ e = RecursionError)
             /\ (forall vals t e, Json.array_loop fuel vals t = Raise e ->
                                  e = JSONDecodeError \/ e = RecursionError)
             /\ (forall t e, Json.parse_object fuel t = Raise e ->
                             e = JSONDecodeError \/ e = RecursionError)
             /\ (forall pairs t e, Json.object_loop fuel pairs t = Raise e ->
                                   e = JSONDecodeError \/ e = RecursionError)).
  { assert (Hstr : forall t e, Json.scanstring t = Raise e -> e = JSONDecodeError).
    { intro t.
      induction t as [t IH] using (well_founded_induction
                                     (Wf_nat.well_founded_ltof _ String.length)).
      unfold Wf_nat.ltof in IH.
      assert (Hcons : forall c u e,
                 String.length u < String.length t ->
                 Json.cons_char c (Json.scanstring u) = Raise e ->
                 e = JSONDecodeError).
      { intros c u e Hu Hc. unfold Json.cons_char in Hc.
        destruct (Json.scanstring u) as [p|e'] eqn:Hsu; cbn [bind] in Hc;
          [discriminate Hc|].
        injection Hc as <-. apply (IH u Hu e' Hsu). }
      intros e Ht.
      destruct t as [|c s1]; simpl in Ht; [injection Ht as <-; reflexivity|].
      destruct (Ascii.eqb c dquote); [discriminate Ht|].
      destruct (Ascii.eqb c "\").
      - destruct s1 as [|e0 s2]; [injection Ht as <-; reflexivity|].
        destruct (Ascii.eqb e0 "u").
        + destruct s2 as [|h1 [|h2 [|h3 [|h4 s3]]]];
            try (injection Ht as <-; reflexivity).
          destruct (Json.hex4 h1 h2 h3 h4) as [n|];
            [|injection Ht as <-; reflexivity].
          destruct (n <? 256); [|injection Ht as <-; reflexivity].
          eapply (Hcons _ s3 e); [simpl; lia | exact Ht].
        + destruct (Json.unescape e0); [|injection Ht as <-; reflexivity].
          eapply (Hcons _ s2 e); [simpl; lia | exact Ht].
      - destruct (nat_of_ascii c <? 32); [injection Ht as <-; reflexivity|].
        eapply (Hcons _ s1 e); [simpl; lia | exact Ht]. }
    induction fuel as [|fuel (IHscan & IHarr & IHaloop & IHobj & IHoloop)].
    { repeat split; intros; simpl in *;
        match goal with Hr : Raise _ = Raise _ |- _ => injection Hr as <- end;
        right; reflexivity. }
    split; [|split; [|split; [|split]]].
    - intros t e Ht. cbn [Json.scan_once] in Ht.
      destruct t as [|c t']; [injection Ht as <-; left; reflexivity|].
      destruct (Ascii.eqb c dquote).
      { destruct (Json.scanstring t') as [p|e'] eqn:Hs; cbn [bind] in Ht;
          [discriminate Ht|].
        injection Ht as <-. left. apply (Hstr _ _ Hs). }
      destruct (Ascii.eqb c "{"); [apply (IHobj _ _ Ht)|].
      destruct (Ascii.eqb c "["); [apply (IHarr _ _ Ht)|].
      destruct (prefix "null" (String c t')); [discriminate Ht|].
      destruct (prefix "true" (String c t')); [discriminate Ht|].
      destruct (prefix "false" (String c t')); [discriminate Ht|].
      destruct (Json.match_number (String c t')); [discriminate Ht|].
      destruct (prefix "NaN" (String c t')); [discriminate Ht|].
      destruct (prefix "Infinity" (String c t')); [discriminate Ht|].
      destruct (prefix "-Infinity" (String c t')); [discriminate Ht|].
      injection Ht as <-. left. reflexivity.
    - intros t e Ht. cbn [Json.parse_array] in Ht.
      destruct (Json.skip_ws t) as [|c t1]; [apply (IHaloop _ _ _ Ht)|].
      destruct (Ascii.eqb_spec c "]") as [->|Hc]; [discriminate Ht|].
      apply (IHaloop [] (String c t1) e).
      destruct c as [[] [] [] [] [] [] [] []]; try exact Ht.
      contradiction Hc. reflexivity.
    - intros vals t e Ht. cbn [Json.array_loop] in Ht.
      destruct (Json.scan_once fuel t) as [[v0 r0]|e'] eqn:Hp; cbn [bind] in Ht;
        [|injection Ht as <-; apply (IHscan _ _ Hp)].
      cbn [fst snd] in Ht.
      destruct (Json.skip_ws r0) as [|c r1];
        [injection Ht as <-; left; reflexivity|].
      destruct (Ascii.eqb_spec c ",") as [->|Hc]; [apply (IHaloop _ _ _ Ht)|].
      destruct c as [[] [] [] [] [] [] [] []];
        first [ discriminate Ht
              | injection Ht as <-; left; reflexivity
              | contradiction Hc; reflexivity ].
    - intros t e Ht. cbn [Json.parse_object] in Ht.
      destruct (Json.skip_ws t) as [|c t1];
        [injection Ht as <-; left; reflexivity|].
      destruct (Ascii.eqb c "}"); [discriminate Ht|].
      destruct (Ascii.eqb c dquote); [apply (IHoloop _ _ _ Ht)|].
      injection Ht as <-. left. reflexivity.
    - intros pairs t e Ht. cbn [Json.object_loop] in Ht.
      destruct (Json.scanstring t) as [[key r0]|e'] eqn:Hk; cbn [bind] in Ht;
        [|injection Ht as <-; left; apply (Hstr _ _ Hk)].
      cbn [fst snd] in Ht.
      destruct (Json.skip_ws r0) as [|c r1];
        [injection Ht as <-; left; reflexivity|].
      destruct (Ascii.eqb_spec c ":") as [->|Hc];
        [|destruct c as [[] [] [] [] [] [] [] []];
          first [ injection Ht as <-; left; reflexivity
                | contradiction Hc; reflexivity ]].
      destruct (Json.scan_once fuel (Json.skip_ws r1)) as [[v0 r2]|e'] eqn:Hp;
        cbn [bind] in Ht; [|injection Ht as <-; apply (IHscan _ _ Hp)].
      cbn [fst snd] in Ht. cbv zeta in Ht.
      destruct (Json.skip_ws r2) as [|c2 r3];
        [injection Ht as <-; left; reflexivity|].
      destruct (Ascii.eqb_spec c2 ",") as [->|Hc2].
      + destruct (Json.skip_ws r3) as [|c3 r4];
          [injection Ht as <-; left; reflexivity|].
        destruct (Ascii.eqb c3 dquote); [apply (IHoloop _ _ _ Ht)|].
        injection Ht as <-. left. reflexivity.
      + destruct c2 as [[] [] [] [] [] [] [] []];
          first [ discriminate Ht
                | injection Ht as <-; left; reflexivity
                | contradiction Hc2; reflexivity ]. }
  unfold Json.loads.
  pose proof (skip_ws_length s) as Hws.
  destruct (scan_fuel (3 * String.length s + 3)) as (Hfuel & _).
  specialize (Hfuel (Json.skip_ws s) ltac:(lia)).
  destruct (Hexn (3 * String.length s + 3)) as (Hscan & _).
  destruct (Json.scan_once (3 * String.length s + 3) (Json.skip_ws s))
    as [[v r]|e] eqn:Hp; cbn [bind].
  - cbn [fst snd]. destruct (Json.skip_ws r); [left; eexists |right]; reflexivity.
  - right. destruct (Hscan _ _ Hp) as [->| ->]; [reflexivity|].
    contradiction Hfuel. reflexivity.
Qed.

(** ** [parse_dimensions_list_dimension] *)

(** [int(f)] truncates toward zero: the magnitude of the result is the
    integer part of the magnitude of [f], and the sign is that of [f]. *)
Lemma to_int_truncates (neg : bool) (m : positive) (e n : Z) :
  PyFloat.to_int (S754_finite neg m e) = Ok n ->
  (n = (if neg then -1 else 1) * Z.abs n
   /\ (0 <= e -> Z.abs n = Zpos m * 2 ^ e)
   /\ (e < 0 -> Z.abs n * 2 ^ (- e) <= Zpos m < (Z.abs n + 1) * 2 ^ (- e)))%Z.
Proof.
  unfold PyFloat.to_int. intro Hn. injection Hn as Hn.
  set (a := Z.shiftl (Zpos m) e) in *.
  assert (Ha : (0 <= a)%Z) by (apply Z.shiftl_nonneg; lia).
  assert (Habs : Z.abs n = a) by (destruct neg; subst n; lia).
  rewrite Habs.
  split; [destruct neg; subst n; lia|].
  split.
  - intro He. unfold a. apply Z.shiftl_mul_pow2. exact He.
  - intro He. unfold a.
    rewrite <- (Z.opp_involutive e) at 1 3.
    rewrite Z.shiftl_opp_r, Z.shiftr_div_pow2 by lia.
    assert (Hp : (0 < 2 ^ (- e))%Z) by (apply Z.pow_pos_nonneg; lia).
    pose proof (Z.mul_div_le (Zpos m) (2 ^ (- e)) Hp).
    pose proof (Z.mul_succ_div_gt (Zpos m) (2 ^ (- e)) Hp).
    lia.
Qed.

Lemma unit_lower_text (d : dict) :
  unit_lower d =
    match unit_text d with
    | Some u => Ok (PyStr.lower u)
    | None => Raise AttributeError
    end.
Proof.
  unfold unit_lower, unit_text.
  destruct (dict_get d "unit") as [u|]; [|reflexivity].
  destruct (truthy u); [|reflexivity].
  destruct u; reflexivity.
Qed.

(** The loop appends the entries of the dictionaries, and stops with an
    exception at the first unit that has no [lower]. *)
Lemma dimension_loop_list (l out : list pyval) :
  dimension_loop out l =
    if forallb unit_ok l then Ok (out ++ dimension_list coerce_value l)%list
    else Raise AttributeError.
Proof.
  revert out.
  induction l as [|d l IH]; intro out; simpl.
  - rewrite app_nil_r. reflexivity.
  - destruct d as [| b | z | f | s | l0 | dd]; simpl;
      try (rewrite IH; reflexivity).
    rewrite unit_lower_text.
    destruct (unit_text dd) as [u|]; simpl; [|reflexivity].
    rewrite IH.
    destruct (forallb unit_ok l); [|reflexivity].
    rewrite <- app_assoc. reflexivity.
Qed.

(** A float that holds a whole number converts to that number. *)
Lemma to_int_whole (f : spec_float) :
  is_whole f = true -> exists n, PyFloat.to_int f = Ok n /\ float_is_int f n.
Proof.
  destruct f as [neg| neg | | neg m e]; simpl; try discriminate.
  - intros _. exists 0%Z. split; reflexivity.
  - intro Hw. apply Z.eqb_eq in Hw.
    eexists. split; [reflexivity|].
    destruct (Z.le_gt_cases 0 e) as [He|He].
    + rewrite Z.shiftl_mul_pow2 by exact He.
      rewrite (Z.max_l 0 (- e)), (Z.max_r 0 e), Z.pow_0_r by lia.
      destruct neg; [change (Z.neg m) with (- Z.pos m)%Z|]; ring.
    + rewrite Z.shiftl_mul_pow2 in Hw by lia.
      rewrite (Z.max_r 0 (- e)), (Z.max_l 0 e), Z.pow_0_r by lia.
      destruct neg; [change (Z.neg m) with (- Z.pos m)%Z|];
        rewrite <- Hw at 2; ring.
Qed.

(** C5, as amended.  On a text that is neither empty nor the "nan" token
    once trimmed, the result is the list of the entries of the
    dictionaries of the decoded list, each with its unit lower-cased and
    both spellings of the centimetre abbreviated; it is the trimmed text
    when there is no such entry, when a unit is a true value that is not
    text, when the decoded value is not a list and when decoding fails.
    A magnitude that converts to a whole number becomes that integer,
    one that converts to a float that is not a number or is infinite
    becomes that float, and one that does not convert stays as it is. *)
Theorem parse_dimensions_list_dimension_cases (raw : string) :
  let s := PyStr.strip raw in
  s <> EmptyString ->
  PyStr.lower s <> "nan" ->
  parse_dimensions_list_dimension (Some raw)
  = Some match Json.loads s with
         | Ok (PList l) =>
             if forallb unit_ok l then
               match dimension_list coerce_value l with
               | [] => PStr s
               | out => PList out
               end
             else PStr s
         | _ => PStr s
         end
  /\ (forall val f,
         py_float val = Ok f -> is_whole f = true ->
         exists n, coerce_value val = PInt n /\ float_is_int f n)
  /\ (forall val f,
         py_float val = Ok f -> f = PyFloat.nan \/ (exists neg, f = PyFloat.inf neg) ->
         coerce_value val = PFloat f)
  /\ (forall val e, py_float val = Raise e -> coerce_value val = val)
  /\ parse_dimensions_list_dimension
       (Some (dq "[{'value':'24','unit':'Centimeters'}]"))
     = Some (PList [PDict [("value", PInt 24); ("unit", PStr "cm")]]).
Proof.
  intros s Hs Hnan.
  split; [|split; [|split; [|split]]].
  - assert (Hraw : truthy_opt (Some raw) = true).
    { destruct raw; [contradiction Hs; reflexivity | reflexivity]. }
    unfold parse_dimensions_list_dimension.
    rewrite Hraw, or_empty_some. fold s. cbv zeta.
    replace (String.eqb s EmptyString) with false
      by (symmetry; apply String.eqb_neq; exact Hs).
    replace (String.eqb (PyStr.lower s) "nan") with false
      by (symmetry; apply String.eqb_neq; exact Hnan).
    simpl orb. cbv iota.
    destruct (Json.loads s) as [v|e]; simpl; [|reflexivity].
    destruct v; simpl; try reflexivity.
    rewrite dimension_loop_list. simpl.
    destruct (forallb unit_ok l); simpl; [|reflexivity].
    destruct (dimension_list coerce_value l); reflexivity.
  - intros val f Hf Hw.
    destruct (to_int_whole f Hw) as (n & Hn & Hexact).
    exists n. split; [|exact Hexact].
    unfold coerce_value. rewrite Hf. simpl. rewrite Hn. reflexivity.
  - intros val f Hf Hnf. unfold coerce_value. rewrite Hf. simpl.
    destruct Hnf as [Hnf|[neg Hnf]]; subst f; reflexivity.
  - intros val e He. unfold coerce_value. rewrite He. reflexivity.
  - vm_compute; reflexivity.
Qed.

Lemma parse_dimensions_list_dimension_cases_witness :
  (PyStr.strip (dq " [{'value':'24.0','unit':'CENTIMETRES'}, 7] ") <> EmptyString
   /\ PyStr.lower (PyStr.strip (dq " [{'value':'24.0','unit':'CENTIMETRES'}, 7] "))
      <> "nan")
  /\ parse_dimensions_list_dimension
       (Some (dq " [{'value':'24.0','unit':'CENTIMETRES'}, 7] "))
     = Some (PList [PDict [("value", PInt 24); ("unit", PStr "cm")]]).
Proof.
  assert (Hs : PyStr.strip (dq " [{'value':'24.0','unit':'CENTIMETRES'}, 7] ")
               <> EmptyString) by (vm_compute; discriminate).
  assert (Hnan : PyStr.lower
                   (PyStr.strip (dq " [{'value':'24.0','unit':'CENTIMETRES'}, 7] "))
                 <> "nan") by (vm_compute; discriminate).
  split; [split; assumption|].
  destruct (parse_dimensions_list_dimension_cases
              (dq " [{'value':'24.0','unit':'CENTIMETRES'}, 7] ") Hs Hnan)
    as [Heq _].
  rewrite Heq. vm_compute. reflexivity.
Defined.

(** C5, as stated, fails.  A magnitude with a fraction is cut to an
    integer where the specification keeps a floating value, and a text
    that does not decode comes back trimmed, not unmodified. *)
Lemma parse_dimensions_list_dimension_differs_from_spec :
  parse_dimensions_list_dimension (Some (dq "[{'value':'24.5','unit':'cm'}]"))
  = Some (PList [PDict [("value", PInt 24); ("unit", PStr "cm")]])
  /\ (exists f, PyFloat.of_str "24.5" = Ok f /\ is_whole f = false
                /\ normalize_dimensions_spec
                     (Some (dq "[{'value':'24.5','unit':'cm'}]"))
                   = Some (PList [PDict [("value", PFloat f); ("unit", PStr "cm")]]))
  /\ parse_dimensions_list_dimension (Some (dq "[{'value':'24.5','unit':'cm'}]"))
     <> normalize_dimensions_spec (Some (dq "[{'value':'24.5','unit':'cm'}]"))
  /\ parse_dimensions_list_dimension (Some " 24 cm ") = Some (PStr "24 cm")
  /\ normalize_dimensions_spec (Some " 24 cm ") = Some (PStr " 24 cm ")
  /\ parse_dimensions_list_dimension (Some " 24 cm ")
     <> normalize_dimensions_spec (Some " 24 cm ").
Proof.
  split; [vm_compute; reflexivity|].
  split.
  { eexists. split; [vm_compute; reflexivity|].
    split; vm_compute; reflexivity. }
  split; [vm_compute; discriminate|].
  split; [vm_compute; reflexivity|].
  split; [vm_compute; reflexivity|].
  vm_compute; discriminate.
Qed.

(** ** Dictionaries *)

Lemma dict_get_set {V : Type} (d : list (string * V)) (k k' : string) (v : V) :
  dict_get (dict_set d k v) k' = if String.eqb k k' then Some v else dict_get d k'.
Proof.
  induction d as [|[k0 v0] d IH]; simpl.
  - reflexivity.
  - destruct (String.eqb_spec k0 k) as [->|Hk0]; simpl.
    + destruct (String.eqb k k'); reflexivity.
    + rewrite IH.
      destruct (String.eqb_spec k0 k') as [->|Hk0'].
      * destruct (String.eqb_spec k k') as [->|_]; [contradiction Hk0|]; reflexivity.
      * reflexivity.
Qed.

Lemma dict_keys_set {V : Type} (d : list (string * V)) (k : string) (v : V) :
  dict_keys (dict_set d k v) =
    if existsb (String.eqb k) (dict_keys d) then dict_keys d
    else (dict_keys d ++ [k])%list.
Proof.
  unfold dict_keys.
  induction d as [|[k0 v0] d IH]; simpl.
  - reflexivity.
  - rewrite (String.eqb_sym k k0).
    destruct (String.eqb_spec k0 k) as [->|Hk0]; simpl.
    + reflexivity.
    + rewrite IH.
      destruct (existsb (String.eqb k) (map fst d)); reflexivity.
Qed.

(** ** De-duplication by [dict.fromkeys] *)

Lemma filter_filter_comm {A : Type} (f g : A -> bool) (l : list A) :
  filter f (filter g l) = filter g (filter f l).
Proof.
  induction l as [|a l IH]; simpl; [reflexivity|].
  destruct (f a) eqn:Hf, (g a) eqn:Hg; simpl; rewrite ?Hf, ?Hg, IH; reflexivity.
Qed.

Lemma filter_filter_and {A : Type} (f g : A -> bool) (l : list A) :
  filter f (filter g l) = filter (fun a => f a && g a) l.
Proof.
  induction l as [|a l IH]; simpl; [reflexivity|].
  destruct (g a) eqn:Hg; simpl; rewrite IH.
  - destruct (f a); reflexivity.
  - rewrite andb_false_r. reflexivity.
Qed.

Lemma filter_all {A : Type} (f : A -> bool) (l : list A) :
  (forall a, In a l -> f a = true) -> filter f l = l.
Proof.
  induction l as [|a l IH]; simpl; intro Hall; [reflexivity|].
  rewrite (Hall a (or_introl eq_refl)), IH; [reflexivity|].
  intros b Hb. apply Hall. right. exact Hb.
Qed.

Lemma first_seen_filter (f : string -> bool) (l : list string) :
  first_seen (filter f l) = filter f (first_seen l).
Proof.
  induction l as [|x l IH]; simpl; [reflexivity|].
  destruct (f x) eqn:Hf; simpl.
  - rewrite IH. f_equal. apply filter_filter_comm.
  - rewrite IH, filter_filter_comm.
    symmetry. apply filter_all.
    intros y Hy. apply filter_In in Hy as [_ Hy].
    destruct (String.eqb_spec x y) as [->|_]; simpl.
    + rewrite Hy in Hf. discriminate Hf.
    + reflexivity.
Qed.

(** Inserting the keys one by one: [seen] holds the keys already there. *)
Lemma dict_keys_fold_set (l : list string) (d : dict) :
  dict_keys (fold_left (fun d k => dict_set d k PNone) l d)
  = (dict_keys d
     ++ first_seen
          (filter (fun k => negb (existsb (String.eqb k) (dict_keys d))) l))%list.
Proof.
  revert d.
  induction l as [|x l IH]; intro d; simpl.
  - rewrite app_nil_r. reflexivity.
  - rewrite IH, dict_keys_set.
    destruct (existsb (String.eqb x) (dict_keys d)) eqn:Hx; simpl.
    + reflexivity.
    + rewrite <- app_assoc. simpl. do 2 f_equal.
      rewrite <- first_seen_filter, filter_filter_and.
      f_equal. apply filter_ext.
      intro y. rewrite existsb_app. simpl. rewrite orb_false_r.
      rewrite negb_orb, andb_comm, (String.eqb_sym y x). reflexivity.
Qed.

(** [dict.fromkeys] keeps the first occurrence of every key. *)
Lemma dict_fromkeys_first_seen (l : list string) :
  dict_keys (dict_fromkeys l) = first_seen l.
Proof.
  unfold dict_fromkeys. rewrite dict_keys_fold_set. simpl.
  f_equal. induction l as [|x l IH]; simpl; [reflexivity|].
  f_equal. exact IH.
Qed.

Lemma join_unique_first_seen (l : list string) :
  join_unique l = String.concat " | " (first_seen l).
Proof.
  unfold join_unique, join_keys. rewrite dict_fromkeys_first_seen. reflexivity.
Qed.

Lemma first_seen_In (l : list string) (x : string) :
  In x (first_seen l) <-> In x l.
Proof.
  induction l as [|y l IH]; simpl; [tauto|].
  rewrite filter_In, IH.
  destruct (String.eqb_spec y x) as [->|Hyx]; simpl.
  - tauto.
  - split; [tauto|]. intros [Hy|Hx]; [contradiction|]. right; split; auto.
Qed.

Lemma first_seen_NoDup (l : list string) : NoDup (first_seen l).
Proof.
  induction l as [|y l IH]; simpl; constructor.
  - rewrite filter_In. intros [_ Hy].
    rewrite String.eqb_refl in Hy. discriminate Hy.
  - apply NoDup_filter. exact IH.
Qed.

(** ** The reference collections *)

Lemma fold_left_nodes {A : Type} (f : A -> Field -> A)
      (refs : list Metaobject) (a : A) :
  fold_left (fun acc node => fold_left f (node_fields node) acc) refs a
  = fold_left f (all_fields refs) a.
Proof.
  revert a. unfold all_fields.
  induction refs as [|node refs IH]; intro a; simpl.
  - reflexivity.
  - rewrite fold_left_app. apply IH.
Qed.

Lemma key_is_code_not_category (k : option string) :
  key_is k "colour_code" = true -> key_in k COLOUR_KEYS = false.
Proof.
  destruct k as [s|]; simpl; [|discriminate].
  destruct (String.eqb_spec s "colour_code") as [->|_]; [reflexivity | discriminate].
Qed.

(** The traversal collects the category values and the codes in the
    order of the fields. *)
Lemma colour_fold_values (fs : list Field) (acc : colour_acc) :
  colour_categories (fold_left colour_field fs acc)
  = (colour_categories acc ++ field_values (fun k => key_in k COLOUR_KEYS) fs)%list
  /\ colour_codes (fold_left colour_field fs acc)
     = (colour_codes acc ++ field_values (fun k => key_is k "colour_code") fs)%list.
Proof.
  revert acc.
  induction fs as [|f fs IH]; intro acc; simpl.
  - rewrite !app_nil_r. split; reflexivity.
  - destruct (IH (colour_field acc f)) as [IHcat IHcode].
    rewrite IHcat, IHcode. clear IH IHcat IHcode.
    unfold colour_field.
    destruct (field_value f) as [[|c v]|]; simpl; try (split; reflexivity).
    destruct (key_in (key f) COLOUR_KEYS) eqn:Hcat; simpl.
    + destruct (key_is (key f) "colour_code") eqn:Hcode.
      * rewrite (key_is_code_not_category _ Hcode) in Hcat. discriminate Hcat.
      * rewrite <- app_assoc. split; reflexivity.
    + destruct (key_is (key f) "colour_code") eqn:Hcode; simpl.
      * rewrite <- app_assoc. split; reflexivity.
      * destruct (key_is (key f) "colour_description"); split; reflexivity.
Qed.

Lemma material_fold_values (fs : list Field) (acc : material_acc) :
  material_categories (fold_left material_field fs acc)
  = (material_categories acc
     ++ field_values (fun k => key_in k MATERIAL_KEYS) fs)%list.
Proof.
  revert acc.
  induction fs as [|f fs IH]; intro acc; simpl.
  - rewrite app_nil_r. reflexivity.
  - rewrite IH. clear IH.
    unfold material_field.
    destruct (field_value f) as [[|c v]|]; simpl; try reflexivity.
    destruct (key_in (key f) MATERIAL_KEYS); simpl.
    + rewrite <- app_assoc. reflexivity.
    + destruct (key_is (key f) "material_description"); reflexivity.
Qed.

Lemma colour_loop_values (refs : list Metaobject) :
  colour_categories (colour_loop refs)
  = field_values (fun k => key_in k COLOUR_KEYS) (all_fields refs)
  /\ colour_codes (colour_loop refs)
     = field_values (fun k => key_is k "colour_code") (all_fields refs).
Proof.
  unfold colour_loop. rewrite fold_left_nodes.
  apply (colour_fold_values (all_fields refs)).
Qed.

Lemma material_loop_values (refs : list Metaobject) :
  material_categories (material_loop refs)
  = field_values (fun k => key_in k MATERIAL_KEYS) (all_fields refs).
Proof.
  unfold material_loop. rewrite fold_left_nodes.
  apply (material_fold_values (all_fields refs)).
Qed.

(** The two blocks, with the guard on the references folded in: without
    references there is no value either. *)
Lemma specs_colour_entries (specs : dict) (refs : list Metaobject) :
  specs_colour specs refs =
    let cats := field_values (fun k => key_in k COLOUR_KEYS) (all_fields refs) in
    let codes := field_values (fun k => key_is k "colour_code") (all_fields refs) in
    let specs1 :=
      match cats with
      | [] => specs
      | _ => dict_set specs "hermes_colour" (PStr (join_unique cats))
      end in
    match codes with
    | [] => specs1
    | _ => dict_set specs1 "hermes_colour_code" (PStr (join_unique codes))
    end.
Proof.
  destruct refs as [|node refs]; [reflexivity|].
  unfold specs_colour.
  destruct (colour_loop_values (node :: refs)) as [-> ->].
  cbv zeta.
  destruct (field_values (fun k => key_in k COLOUR_KEYS) _);
    destruct (field_values (fun k => key_is k "colour_code") _); reflexivity.
Qed.

Lemma specs_material_entries (specs : dict) (refs : list Metaobject) :
  specs_material specs refs =
    let cats := field_values (fun k => key_in k MATERIAL_KEYS) (all_fields refs) in
    match cats with
    | [] => specs
    | _ => dict_set specs "hermes_material" (PStr (join_unique cats))
    end.
Proof.
  destruct refs as [|node refs]; [reflexivity|].
  unfold specs_material.
  rewrite (material_loop_values (node :: refs)).
  cbv zeta.
  destruct (field_values (fun k => key_in k MATERIAL_KEYS) _); reflexivity.
Qed.

Section ExtractorProperties.
Context `{Runtime}.

(** The specification, entry by entry, in the order of insertion. *)
Lemma specifications_entries (p : Product) :
  specifications p =
    (opt_entry "bag_style"
       (text_entry (parse_listish_string (metafield_value (bag_style p))))
     ++ opt_entry "bag_size_cm" (bag_size_entry (metafield_value (bag_size p)))
     ++ opt_entry "condition"
          (text_entry (parse_listish_string (metafield_value (condition p))))
     ++ [("stamp", opt_str (metafield_value (stamp p)));
         ("receipt", opt_str (metafield_value (receipt p)));
         ("accessories", opt_str (metafield_value (accessories p)));
         ("hardware", opt_str (metafield_value (hardware p)))]
     ++ opt_entry "dimensions"
          (parse_dimensions_list_dimension (metafield_value (dimensions p)))
     ++ opt_entry "hermes_colour" (joined_entry (colour_category_values p))
     ++ opt_entry "hermes_colour_code" (joined_entry (colour_code_values p))
     ++ opt_entry "hermes_material" (joined_entry (material_category_values p)))%list.
Proof.
  unfold specifications.
  rewrite specs_material_entries, specs_colour_entries.
  unfold colour_category_values, colour_code_values, material_category_values.
  unfold specs_direct, text_entry, bag_size_entry, joined_entry.
  set (cats := field_values (fun k => key_in k COLOUR_KEYS) _).
  set (codes := field_values (fun k => key_is k "colour_code") _).
  set (mats := field_values (fun k => key_in k MATERIAL_KEYS) _).
  cbv zeta.
  destruct (truthy_opt (parse_listish_string (metafield_value (bag_style p))));
    destruct (truthy_opt (parse_listish_string (metafield_value (condition p))));
    destruct (parse_dimensions_list_dimension (metafield_value (dimensions p)));
    destruct cats; destruct codes; destruct mats;
    (destruct (metafield_value (bag_size p)) as [sz|];
     [ destruct (String.eqb sz EmptyString || String.eqb sz "nan" || String.eqb sz "NaN");
       [ reflexivity | destruct (int_of_float_str sz); reflexivity ]
     | reflexivity ]).
Qed.

End ExtractorProperties.

(** ** [int(float(s))] on a blank text *)

Ltac each_char c :=
  destruct c as [[] [] [] [] [] [] [] []]; vm_compute; try reflexivity;
  try discriminate; try (intros; discriminate); try (intros; reflexivity).




Lemma numeric_head_not_n (c : ascii) :
  numeric_head c = true -> PyStr.lower_char c <> "n"%char.
Proof. each_char c. Qed.


Lemma rstrip_head (c : ascii) (r : string) :
  PyStr.isspace c = false -> exists r', PyStr.rstrip (String c r) = String c r'.
Proof.
  intro Hc. simpl. destruct (PyStr.rstrip r) as [|c0 r0].
  - rewrite Hc. eexists; reflexivity.
  - eexists; reflexivity.
Qed.




(** ** The keys of the specification *)

Lemma dict_get_app {V : Type} (a b : list (string * V)) (k : string) :
  dict_get (a ++ b)%list k =
    match dict_get a k with
    | Some v => Some v
    | None => dict_get b k
    end.
Proof.
  induction a as [|[k0 v0] a IH]; simpl; [reflexivity|].
  destruct (String.eqb k0 k); [reflexivity | exact IH].
Qed.

Lemma dict_get_opt_entry (k k' : string) (o : option pyval) :
  dict_get (opt_entry k o) k' = if String.eqb k k' then o else None.
Proof.
  destruct o as [v|]; simpl.
  - reflexivity.
  - destruct (String.eqb k k'); reflexivity.
Qed.



Lemma joined_entry_first_seen (l : list string) :
  joined_entry l =
    match l with
    | [] => None
    | _ => Some (PStr (String.concat " | " (first_seen l)))
    end.
Proof.
  unfold joined_entry. rewrite join_unique_first_seen. reflexivity.
Qed.


Section SpecificationProperties.
Context `{Runtime}.

Ltac lookup_entries :=
  rewrite specifications_entries;
  rewrite !dict_get_app, !dict_get_opt_entry; simpl.




(** C7. The colour categories, the colour codes and the material
    categories are joined with [" | "] after de-duplication, each value
    at the place of its first occurrence in the order of the fields;
    the key is absent when there is no value.  Three sub-records with
    the colour categories Black, Grey and Black give "Black | Grey". *)
Theorem specifications_joins (p : Product) :
  let joined (l : list string) :=
    match l with
    | [] => None
    | _ => Some (PStr (String.concat " | " (first_seen l)))
    end in
  dict_get (specifications p) "hermes_colour"
    = joined (colour_category_values p)
  /\ dict_get (specifications p) "hermes_colour_code"
     = joined (colour_code_values p)
  /\ dict_get (specifications p) "hermes_material"
     = joined (material_category_values p)
  /\ (forall l, NoDup (first_seen l) /\ forall x, In x (first_seen l) <-> In x l)
  /\ (forall l, join_unique l = String.concat " | " (first_seen l))
  /\ colour_category_values
       (colour_product [one_field "black_grey" "Black";
                        one_field "black_grey" "Grey";
                        one_field "black_grey" "Black"])
     = ["Black"; "Grey"; "Black"]
  /\ dict_get
       (specifications
          (colour_product [one_field "black_grey" "Black";
                           one_field "black_grey" "Grey";
                           one_field "black_grey" "Black"]))
       "hermes_colour"
     = Some (PStr "Black | Grey").
Proof.
  intro joined. unfold joined. clear joined.
  split; [lookup_entries; rewrite joined_entry_first_seen;
          destruct (colour_category_values p); reflexivity|].
  split; [lookup_entries; rewrite joined_entry_first_seen;
          destruct (colour_code_values p); reflexivity|].
  split; [lookup_entries; rewrite joined_entry_first_seen;
          destruct (material_category_values p); reflexivity|].
  split; [intro l; split; [apply first_seen_NoDup | apply first_seen_In]|].
  split; [apply join_unique_first_seen|].
  split; vm_compute; reflexivity.
Qed.

End SpecificationProperties.


(** ** The webhook response *)

Lemma prefix_append (p s : string) : prefix p (p ++ s) = true.
Proof.
  induction p as [|c p IH]; simpl.
  - destruct s; reflexivity.
  - destruct (ascii_dec c c) as [_|Hc]; [exact IH | contradiction Hc; reflexivity].
Qed.

Lemma contains_unfold (p s : string) :
  PyStr.contains p s =
    prefix p s
    || match s with
       | EmptyString => false
       | String _ s' => PyStr.contains p s'
       end.
Proof. destruct s; reflexivity. Qed.

Lemma contains_append (p a b : string) : PyStr.contains p (a ++ p ++ b) = true.
Proof.
  induction a as [|c a IH]; simpl.
  - rewrite contains_unfold, prefix_append. reflexivity.
  - rewrite IH. apply orb_true_r.
Qed.

Lemma append_assoc (a b c : string) : (a ++ b) ++ c = a ++ (b ++ c).
Proof.
  induction a as [|x a IH]; simpl; [reflexivity | rewrite IH; reflexivity].
Qed.

Lemma append_empty_r (s : string) : s ++ EmptyString = s.
Proof.
  induction s as [|c s IH]; simpl; [reflexivity | rewrite IH; reflexivity].
Qed.

Lemma concat_In (sep x : string) (l : list string) :
  In x l -> exists a b, String.concat sep l = a ++ x ++ b.
Proof.
  induction l as [|y l IH]; [contradiction|].
  intros [->|Hx].
  - destruct l as [|z l].
    + exists EmptyString, EmptyString. simpl.
      rewrite append_empty_r. reflexivity.
    + exists EmptyString. eexists. simpl. reflexivity.
  - destruct (IH Hx) as (a & b & Hab).
    destruct l as [|z l]; [contradiction|].
    exists (y ++ sep ++ a), b.
    change (String.concat sep (y :: z :: l))
      with (y ++ sep ++ String.concat sep (z :: l)).
    rewrite Hab, !append_assoc. reflexivity.
Qed.

Section MainProperties.
Context `{Runtime}.
Variable World : Type.
Variable fetch_product : World -> string -> result (option Product) * World.
Variable call_webhook : World -> dict -> result dict * World.
Variable time_sleep : World -> spec_float -> result unit * World.
Variable to_file :
  World -> table_format -> table -> string -> result unit * World.
Variable str_exn : exn -> string.
Variable sleep_seconds : spec_float.
Variable save_every : Z.
Variable out_file : string.

(** The message of the error names every key of the response. *)
Lemma missing_description_html_keys (resp : dict) (k : string) :
  In k (dict_keys resp) ->
  PyStr.contains (PyRepr.repr_str k)
                 (exn_str str_exn (missing_description_html resp)) = true.
Proof.
  intro Hk.
  apply (in_map PyRepr.repr_str) in Hk.
  destruct (concat_In ", " _ _ Hk) as (a & b & Hab).
  unfold missing_description_html, exn_str, PyRepr.repr_str_list.
  rewrite Hab.
  replace ("Webhook missing description_html (keys="
           ++ ("[" ++ (a ++ PyRepr.repr_str k ++ b) ++ "]") ++ ")")
    with (("Webhook missing description_html (keys=[" ++ a)
          ++ PyRepr.repr_str k ++ (b ++ "])")).
  - apply contains_append.
  - rewrite !append_assoc. reflexivity.
Qed.

(** The handler on a [RuntimeError]: the status holds the message, and
    the exception that leaves is the one caught, or the one of the save
    when the save fails. *)
Lemma row_failed_runtime_error
      (w : World) (done : table) (body : option pyval) (msg : string) :
  row_failed World to_file str_exn out_file w done body (RuntimeError msg)
  = ({| row_status := "FAILED: " ++ msg;
        row_body := body;
        row_raised :=
          Some (match fst (write_table World to_file out_file w
                                       (with_row done ("FAILED: " ++ msg) body))
                with
                | Ok _ => RuntimeError msg
                | Raise ex => ex
                end) |},
     snd (write_table World to_file out_file w
                      (with_row done ("FAILED: " ++ msg) body))).
Proof.
  unfold row_failed. cbn [exn_str].
  destruct (write_table World to_file out_file w
                        (with_row done ("FAILED: " ++ msg) body))
    as [[u|ex] w']; reflexivity.
Qed.

(** C8. When a product is processed and the response of the webhook
    has no [description_html], the row fails with a [RuntimeError] whose
    message lists the keys of the response.  The handler writes that
    message to the status cell and saves the table, the webhook having
    been called once; then an exception leaves the loop, which ends
    there: the [RuntimeError] itself, or the exception of the save when
    the save fails. *)
Theorem row_step_missing_description_html
        (w w1 w2 : World) (done : table) (generated_count : Z)
        (product_gid : string) (p : Product)
        (editor_note : option string) (reason : string) (resp : dict) :
  fetch_product w product_gid = (Ok (Some p), w1) ->
  should_process_product p = (true, editor_note, reason) ->
  call_webhook w1 (build_payload_from_product p editor_note) = (Ok resp, w2) ->
  dict_get resp "description_html" = None ->
  let msg :=
    "Webhook missing description_html (keys="
    ++ PyRepr.repr_str_list (dict_keys resp) ++ ")" in
  let saved :=
    write_table World to_file out_file w2
                (with_row done ("FAILED: " ++ msg) None) in
  let failed :=
    {| row_status := "FAILED: " ++ msg;
       row_body := None;
       row_raised := Some (match fst saved with
                           | Ok _ => RuntimeError msg
                           | Raise ex => ex
                           end) |} in
  row_step World fetch_product call_webhook time_sleep to_file str_exn
           sleep_seconds save_every out_file w done generated_count product_gid
    = (failed, generated_count, snd saved)
  /\ (forall raw_id rest limit k,
         normalize_product_id raw_id = Some product_gid ->
         product_gid <> EmptyString ->
         limit_reached limit k = false ->
         rows_loop World fetch_product call_webhook time_sleep to_file str_exn
                   sleep_seconds save_every out_file w done generated_count
                   (raw_id :: rest) limit k
         = ([failed], snd saved))
  /\ (forall k, In k (dict_keys resp) ->
                PyStr.contains (PyRepr.repr_str k) msg = true).
Proof.
  intros Hfetch Hprocess Hcall Hmissing msg saved failed.
  assert (Hrow : row_step World fetch_product call_webhook time_sleep to_file
                          str_exn sleep_seconds save_every out_file
                          w done generated_count product_gid
                 = (failed, generated_count, snd saved)).
  { unfold row_step.
    rewrite Hfetch, Hprocess. cbn [negb].
    rewrite Hcall, Hmissing.
    unfold missing_description_html.
    rewrite row_failed_runtime_error. reflexivity. }
  split; [exact Hrow|].
  split.
  - intros raw_id rest limit k Hid Hgid Hlimit.
    cbn [rows_loop]. rewrite Hlimit, Hid.
    destruct product_gid as [|c g]; [contradiction Hgid; reflexivity|].
    rewrite Hrow. reflexivity.
  - intros k Hk. apply (missing_description_html_keys resp k Hk).
Qed.

(** A field that is there but false ([None], an empty text) fails the
    row in the same way. *)
Lemma row_step_false_description_html
      (w w1 w2 : World) (done : table) (generated_count : Z)
      (product_gid : string) (p : Product)
      (editor_note : option string) (reason : string) (resp : dict)
      (html : pyval) :
  fetch_product w product_gid = (Ok (Some p), w1) ->
  should_process_product p = (true, editor_note, reason) ->
  call_webhook w1 (build_payload_from_product p editor_note) = (Ok resp, w2) ->
  dict_get resp "description_html" = Some html ->
  truthy html = false ->
  row_step World fetch_product call_webhook time_sleep to_file str_exn
           sleep_seconds save_every out_file w done generated_count product_gid
  = (fst (row_failed World to_file str_exn out_file w2 done None
                     (missing_description_html resp)),
     generated_count,
     snd (row_failed World to_file str_exn out_file w2 done None
                     (missing_description_html resp))).
Proof.
  intros Hfetch Hprocess Hcall Hhtml Hfalse.
  unfold row_step.
  rewrite Hfetch, Hprocess. cbn [negb].
  rewrite Hcall, Hhtml, Hfalse. cbn [negb].
  destruct (row_failed World to_file str_exn out_file w2 done None
                       (missing_description_html resp)); reflexivity.
Qed.

End MainProperties.

Lemma row_step_missing_description_html_witness :
  dict_get [("html", PStr "<p>text</p>"); ("status", PStr "ok")] "description_html"
  = None
  /\ @main_rows text_runtime nat
       (counting_fetch (plain_product birkin None))
       (counting_webhook [("html", PStr "<p>text</p>"); ("status", PStr "ok")])
       counting_sleep counting_to_file no_text
       (S754_zero false) 10 "export_updated.csv"
       0 [PInt 1; PInt 2] 0 None
     = ([{| row_status :=
              "FAILED: Webhook missing description_html (keys=['html', 'status'])";
            row_body := None;
            row_raised :=
              Some (RuntimeError
                      "Webhook missing description_html (keys=['html', 'status'])") |}],
        3).
Proof.
  split; [reflexivity|].
  destruct (@row_step_missing_description_html text_runtime nat
              (counting_fetch (plain_product birkin None))
              (counting_webhook [("html", PStr "<p>text</p>"); ("status", PStr "ok")])
              counting_sleep counting_to_file no_text
              (S754_zero false) 10 "export_updated.csv"
              0 1 2 [] 0 "gid://shopify/Product/1" (plain_product birkin None)
              None "PROCESS: description empty"
              [("html", PStr "<p>text</p>"); ("status", PStr "ok")]
              eq_refl eq_refl eq_refl eq_refl)
    as (_ & Hloop & _).
  unfold main_rows. cbn [skipn].
  rewrite (Hloop (PInt 1) [PInt 2] None 0%Z);
    [vm_compute; reflexivity | reflexivity | discriminate | reflexivity].
Defined.

(** * Further properties *)

(** ** Trimming *)

Lemma rstrip_idempotent (s : string) : PyStr.rstrip (PyStr.rstrip s) = PyStr.rstrip s.
Proof.
  induction s as [|c s IH]; simpl; [reflexivity|].
  destruct (PyStr.rstrip s) as [|d r] eqn:Hr.
  - destruct (PyStr.isspace c) eqn:Hc; simpl; [reflexivity|].
    rewrite Hc. reflexivity.
  - simpl. simpl in IH. rewrite IH. reflexivity.
Qed.

Lemma lstrip_head (s : string) :
  PyStr.lstrip s = EmptyString
  \/ exists c r, PyStr.lstrip s = String c r /\ PyStr.isspace c = false.
Proof.
  induction s as [|c s IH]; simpl; [left; reflexivity|].
  destruct (PyStr.isspace c) eqn:Hc; [exact IH|].
  right. exists c, s. split; [reflexivity | exact Hc].
Qed.

Lemma strip_head (s : string) :
  PyStr.strip s = EmptyString
  \/ exists c r, PyStr.strip s = String c r /\ PyStr.isspace c = false.
Proof.
  unfold PyStr.strip.
  destruct (lstrip_head s) as [->|(c & r & -> & Hc)]; [left; reflexivity|].
  right. destruct (rstrip_head c r Hc) as [r' ->].
  exists c, r'. split; [reflexivity | exact Hc].
Qed.

(** Trimming a trimmed text changes nothing. *)
Lemma strip_idempotent (s : string) : PyStr.strip (PyStr.strip s) = PyStr.strip s.
Proof.
  destruct (strip_head s) as [->|(c & r & Hs & Hc)]; [reflexivity|].
  rewrite Hs. unfold PyStr.strip at 1. simpl. rewrite Hc.
  rewrite <- Hs. unfold PyStr.strip. apply rstrip_idempotent.
Qed.

Lemma lower_char_idempotent (c : ascii) :
  PyStr.lower_char (PyStr.lower_char c) = PyStr.lower_char c.
Proof. destruct c as [[] [] [] [] [] [] [] []]; vm_compute; reflexivity. Qed.

Lemma lower_idempotent (s : string) : PyStr.lower (PyStr.lower s) = PyStr.lower s.
Proof.
  induction s as [|c s IH]; simpl; [reflexivity|].
  rewrite lower_char_idempotent, IH. reflexivity.
Qed.

Lemma lower_append (a b : string) :
  PyStr.lower (a ++ b) = PyStr.lower a ++ PyStr.lower b.
Proof.
  induction a as [|c a IH]; simpl; [reflexivity | rewrite IH; reflexivity].
Qed.

(** ** Word count *)

Lemma re_split_ws_cons (b : bool) (s : string) :
  exists h t, PyStr.re_split_ws b s = h :: t.
Proof.
  revert b. induction s as [|c s IH]; intro b; simpl.
  - eexists; eexists; reflexivity.
  - destruct (PyStr.isspace c).
    + destruct b; [apply IH | eexists; eexists; reflexivity].
    + destruct (IH false) as (h & t & ->). eexists; eexists; reflexivity.
Qed.

Lemma re_split_ws_count (s : string) :
  (forall b, count_filled (PyStr.re_split_ws b s) = count_words false s)
  /\ count_filled (tl (PyStr.re_split_ws false s)) = count_words true s.
Proof.
  unfold count_filled.
  induction s as [|c s [IHall IHtl]]; simpl.
  - split; [intro b|]; reflexivity.
  - destruct (PyStr.isspace c) eqn:Hc.
    + split.
      * intros [|]; simpl; apply IHall.
      * simpl. apply IHall.
    + destruct (re_split_ws_cons false s) as (h & t & Hs).
      rewrite Hs in *. simpl in IHtl. simpl.
      split; [intros _|]; rewrite IHtl; reflexivity.
Qed.

Lemma count_words_lstrip (s : string) :
  count_words false (PyStr.lstrip s) = count_words false s.
Proof.
  induction s as [|c s IH]; simpl; [reflexivity|].
  destruct (PyStr.isspace c) eqn:Hc; [exact IH|].
  simpl. rewrite Hc. reflexivity.
Qed.

Lemma rstrip_empty_count (s : string) (b : bool) :
  PyStr.rstrip s = EmptyString -> count_words b s = 0.
Proof.
  revert b. induction s as [|c s IH]; intro b; simpl; [reflexivity|].
  destruct (PyStr.rstrip s) as [|d r]; [|discriminate].
  destruct (PyStr.isspace c); [|discriminate].
  intros _. apply IH. reflexivity.
Qed.

Lemma count_words_rstrip (s : string) (b : bool) :
  count_words b (PyStr.rstrip s) = count_words b s.
Proof.
  revert b. induction s as [|c s IH]; intro b; simpl; [reflexivity|].
  destruct (PyStr.rstrip s) as [|d r] eqn:Hr.
  - destruct (PyStr.isspace c) eqn:Hc; simpl; rewrite ?Hc.
    + rewrite (rstrip_empty_count s false Hr). reflexivity.
    + rewrite (rstrip_empty_count s true Hr). reflexivity.
  - change (count_words b (String c (String d r))
            = (if PyStr.isspace c then count_words false s
               else (if b then 0 else 1) + count_words true s)).
    rewrite <- !IH. reflexivity.
Qed.

Lemma count_words_strip (s : string) :
  count_words false (PyStr.strip s) = count_words false s.
Proof.
  unfold PyStr.strip. rewrite count_words_rstrip. apply count_words_lstrip.
Qed.

Lemma count_words_re_sub_ws (s : string) :
  forall b w, (w = true -> b = false) ->
              count_words b (PyStr.re_sub_ws w s) = count_words b s.
Proof.
  induction s as [|c s IH]; intros b w Hbw; simpl; [reflexivity|].
  destruct (PyStr.isspace c) eqn:Hc.
  - destruct w.
    + rewrite (Hbw eq_refl). apply IH. reflexivity.
    + change (count_words b (String " " (PyStr.re_sub_ws true s)))
        with (count_words false (PyStr.re_sub_ws true s)).
      apply IH. reflexivity.
  - simpl. rewrite Hc, IH; [reflexivity | discriminate].
Qed.

Section TextProperties.
Context `{Runtime}.

(** X1. [word_count] is the number of maximal runs of characters that
    are not whitespace, and the normalisation of [strip_html_to_text]
    keeps it: the count the classifier uses is the count of the text
    the parser extracted. *)
Theorem word_count_runs (text html : string) :
  word_count text = count_words false text
  /\ (html <> EmptyString ->
      word_count (strip_html_to_text html) = word_count (soup_get_text html)).
Proof.
  assert (Hwc : forall t, word_count t = count_words false t).
  { intro t. unfold word_count.
    destruct t as [|c t]; [reflexivity|].
    cbn [PyStr.truthy negb].
    destruct (re_split_ws_count (PyStr.strip (String c t))) as [Hall _].
    unfold count_filled in Hall.
    rewrite Hall. apply count_words_strip. }
  split; [apply Hwc|].
  intro Hne. rewrite !Hwc.
  unfold strip_html_to_text.
  destruct html as [|c h]; [contradiction Hne; reflexivity|].
  cbn [PyStr.truthy negb].
  rewrite count_words_strip. apply count_words_re_sub_ws. discriminate.
Qed.

End TextProperties.

Lemma word_count_runs_witness :
  " one   two  three " <> EmptyString
  /\ @word_count (@strip_html_to_text text_runtime " one   two  three ") = 3.
Proof.
  split; [discriminate|].
  destruct (@word_count_runs text_runtime EmptyString " one   two  three ")
    as [_ Hkeep].
  rewrite Hkeep by discriminate.
  vm_compute. reflexivity.
Defined.

(** ** The shape of the stripped text *)

Lemma single_spaced_re_sub_ws (s : string) :
  forall w, single_spaced w (PyStr.re_sub_ws w s) = true.
Proof.
  induction s as [|c s IH]; intro w; simpl; [reflexivity|].
  destruct (PyStr.isspace c) eqn:Hc.
  - destruct w; [apply IH|].
    change (single_spaced false (String " " (PyStr.re_sub_ws true s)))
      with (single_spaced true (PyStr.re_sub_ws true s)).
    apply IH.
  - simpl. rewrite Hc. apply IH.
Qed.

Lemma single_spaced_lstrip (s : string) :
  forall w, single_spaced w s = true -> single_spaced true (PyStr.lstrip s) = true.
Proof.
  induction s as [|c s IH]; intros w Hs; simpl; [reflexivity|].
  simpl in Hs.
  destruct (PyStr.isspace c) eqn:Hc.
  - apply andb_true_iff in Hs as [_ Hs]. apply (IH true Hs).
  - simpl. rewrite Hc. exact Hs.
Qed.

Lemma single_spaced_rstrip (s : string) :
  forall w, single_spaced w s = true -> single_spaced w (PyStr.rstrip s) = true.
Proof.
  induction s as [|c s IH]; intros w Hs; simpl; [reflexivity|].
  simpl in Hs.
  destruct (PyStr.rstrip s) as [|d r] eqn:Hr.
  - destruct (PyStr.isspace c) eqn:Hc; simpl; [reflexivity|].
    rewrite Hc. reflexivity.
  - change (single_spaced w (String c (String d r))
            = true) with
      ((if PyStr.isspace c
        then negb w && Ascii.eqb c " " && single_spaced true (String d r)
        else single_spaced false (String d r)) = true).
    destruct (PyStr.isspace c).
    + apply andb_true_iff in Hs as [Hwc Hs].
      rewrite Hwc. apply (IH true Hs).
    + apply (IH false Hs).
Qed.

Lemma single_spaced_fixed (s : string) :
  forall w, single_spaced w s = true -> PyStr.re_sub_ws w s = s.
Proof.
  induction s as [|c s IH]; intros w Hs; simpl; [reflexivity|].
  simpl in Hs.
  destruct (PyStr.isspace c) eqn:Hc.
  - apply andb_true_iff in Hs as [Hwc Hs].
    apply andb_true_iff in Hwc as [Hw Hsp].
    destruct w; [discriminate Hw|].
    apply Ascii.eqb_eq in Hsp. subst c.
    rewrite (IH true Hs). reflexivity.
  - rewrite (IH false Hs). reflexivity.
Qed.

Lemma single_spaced_weaken (s : string) :
  single_spaced true s = true -> single_spaced false s = true.
Proof.
  destruct s as [|c s]; simpl; [reflexivity|].
  destruct (PyStr.isspace c); [discriminate | auto].
Qed.

Section StrippedText.
Context `{Runtime}.

(** X2. Whatever the parser extracts, the text [strip_html_to_text]
    returns is in normal form: it neither starts nor ends with
    whitespace, and its only whitespace is single spaces between words;
    collapsing and trimming it again changes nothing. *)
Theorem strip_html_to_text_normal (html : string) :
  single_spaced true (strip_html_to_text html) = true
  /\ PyStr.strip (strip_html_to_text html) = strip_html_to_text html
  /\ PyStr.re_sub_ws false (strip_html_to_text html) = strip_html_to_text html.
Proof.
  assert (Hshape : single_spaced true (strip_html_to_text html) = true).
  { unfold strip_html_to_text.
    destruct (negb (PyStr.truthy html)); [reflexivity|].
    cbv zeta. unfold PyStr.strip.
    apply single_spaced_rstrip.
    apply (single_spaced_lstrip _ false).
    apply single_spaced_re_sub_ws. }
  split; [exact Hshape|].
  split.
  - unfold strip_html_to_text.
    destruct (negb (PyStr.truthy html)); [reflexivity|].
    apply strip_idempotent.
  - apply single_spaced_fixed, single_spaced_weaken, Hshape.
Qed.

End StrippedText.

(** ** Signal phrases *)

Lemma prefix_split (p s : string) :
  prefix p s = true -> exists b, s = p ++ b.
Proof.
  revert s. induction p as [|c p IH]; intros s Hp.
  - exists s. reflexivity.
  - destruct s as [|d s]; simpl in Hp; [discriminate Hp|].
    destruct (ascii_dec c d) as [->|_]; [|discriminate Hp].
    destruct (IH s Hp) as [b ->]. exists b. reflexivity.
Qed.

Lemma contains_split (p s : string) :
  PyStr.contains p s = true -> exists a b, s = a ++ p ++ b.
Proof.
  induction s as [|c s IH]; rewrite contains_unfold; intro Hc.
  - rewrite orb_false_r in Hc.
    destruct (prefix_split _ _ Hc) as [b Hb].
    exists EmptyString, b. exact Hb.
  - apply orb_true_iff in Hc as [Hp|Hc].
    + destruct (prefix_split _ _ Hp) as [b Hb].
      exists EmptyString, b. exact Hb.
    + destruct (IH Hc) as (a & b & ->).
      exists (String c a), b. reflexivity.
Qed.

Lemma contains_embedded (p s a b : string) :
  PyStr.contains p s = true -> PyStr.contains p (a ++ s ++ b) = true.
Proof.
  intro Hc. destruct (contains_split _ _ Hc) as (x & y & ->).
  replace (a ++ (x ++ p ++ y) ++ b) with ((a ++ x) ++ p ++ (y ++ b))
    by (rewrite !append_assoc; reflexivity).
  apply contains_append.
Qed.

Lemma count_ones_monotone {A : Type} (f g : A -> bool) (l : list A) :
  (forall a, f a = true -> g a = true) ->
  list_sum (map (fun _ => 1) (filter f l))
  <= list_sum (map (fun _ => 1) (filter g l)).
Proof.
  intro Hfg. induction l as [|a l IH]; simpl; [lia|].
  destruct (f a) eqn:Hf.
  - rewrite (Hfg a Hf). simpl. lia.
  - destruct (g a); simpl; lia.
Qed.

(** X3. The phrase count ignores case, is 0 without a markup, and never
    goes down when text is put before or after the markup. *)
Theorem count_ai_phrases_monotone (html before after : string) :
  count_ai_phrases (Some (PyStr.lower html)) = count_ai_phrases (Some html)
  /\ count_ai_phrases None = 0
  /\ count_ai_phrases (Some html)
     <= count_ai_phrases (Some (before ++ html ++ after)).
Proof.
  split; [|split].
  - unfold count_ai_phrases. rewrite !or_empty_some, lower_idempotent. reflexivity.
  - reflexivity.
  - unfold count_ai_phrases. rewrite !or_empty_some, !lower_append.
    apply count_ones_monotone.
    intros p Hp. apply contains_embedded. exact Hp.
Qed.

(** ** The flag, the note and the reason of the classifier *)

Lemma or_empty_filled (o : option string) (c : ascii) (s : string) :
  or_empty o = String c s -> o = Some (String c s).
Proof.
  destruct o as [[|d t]|]; simpl; intro Ho; try discriminate Ho.
  rewrite Ho. reflexivity.
Qed.

Section ClassifierCoherence.
Context `{Runtime}.

(** A note is kept only on the path of the short description. *)
Lemma should_process_product_note (p : Product) (markup : string) :
  snd (fst (should_process_product p)) = Some markup ->
  fst (fst (should_process_product p)) = true
  /\ descriptionHtml p = Some markup
  /\ markup <> EmptyString
  /\ 1 <= stripped_word_count markup <= 50.
Proof.
  unfold should_process_product, stripped_word_count.
  destruct (negb (truthy_opt (metafield_value (bag_style p))));
    [intro Hm; discriminate Hm|].
  destruct (or_empty (descriptionHtml p)) as [|c d] eqn:Hdesc;
    [intro Hm; discriminate Hm|].
  cbn [PyStr.truthy negb]. cbv zeta.
  destruct ((0 <? word_count (strip_html_to_text (String c d)))
            && (word_count (strip_html_to_text (String c d))
                <=? EDITORS_NOTE_MAX_WORDS)) eqn:Hnote.
  - intro Hm. cbn [fst snd] in Hm. injection Hm as <-.
    apply andb_true_iff in Hnote as [Hlo Hhi].
    apply Nat.ltb_lt in Hlo. apply Nat.leb_le in Hhi.
    unfold EDITORS_NOTE_MAX_WORDS in Hhi.
    split; [reflexivity|].
    split; [apply or_empty_filled; exact Hdesc|].
    split; [discriminate | lia].
  - destruct ((MAX_CHAR_COUNT <? String.length (String c d))
              && (MAX_WORD_COUNT <? word_count (strip_html_to_text (String c d)))
              && (MIN_AI_PHRASES <=? count_ai_phrases (Some (String c d))));
      intro Hm; discriminate Hm.
Qed.

(** A note is kept only for a product with a bag style. *)
Lemma should_process_product_note_bag_style (p : Product) (markup : string) :
  snd (fst (should_process_product p)) = Some markup ->
  truthy_opt (metafield_value (bag_style p)) = true.
Proof.
  unfold should_process_product.
  destruct (truthy_opt (metafield_value (bag_style p)));
    [reflexivity | intro Hm; discriminate Hm].
Qed.

(** X4. The three parts of the classifier's answer agree on every
    product: the reason starts with "PROCESS: " exactly when the flag is
    true and with "SKIPPED: " exactly when it is false, and a note is
    kept only for a processed product, where it is the description
    itself, which is then not empty and has 1 to 50 words. *)
Theorem should_process_product_coherent (p : Product) :
  let flag := fst (fst (should_process_product p)) in
  let note := snd (fst (should_process_product p)) in
  let reason := snd (should_process_product p) in
  prefix "PROCESS: " reason = flag
  /\ prefix "SKIPPED: " reason = negb flag
  /\ (forall markup,
         note = Some markup ->
         flag = true /\ descriptionHtml p = Some markup
         /\ markup <> EmptyString
         /\ 1 <= stripped_word_count markup <= 50).
Proof.
  cbv zeta.
  split; [|split; [|apply should_process_product_note]].
  - unfold should_process_product.
    destruct (negb (truthy_opt (metafield_value (bag_style p)))); [reflexivity|].
    destruct (negb (PyStr.truthy (or_empty (descriptionHtml p)))); [reflexivity|].
    cbv zeta.
    destruct ((0 <? _) && (_ <=? EDITORS_NOTE_MAX_WORDS)); [reflexivity|].
    destruct ((MAX_CHAR_COUNT <? _) && (MAX_WORD_COUNT <? _)
              && (MIN_AI_PHRASES <=? _)); reflexivity.
  - unfold should_process_product.
    destruct (negb (truthy_opt (metafield_value (bag_style p)))); [reflexivity|].
    destruct (negb (PyStr.truthy (or_empty (descriptionHtml p)))); [reflexivity|].
    cbv zeta.
    destruct ((0 <? _) && (_ <=? EDITORS_NOTE_MAX_WORDS)); [reflexivity|].
    destruct ((MAX_CHAR_COUNT <? _) && (MAX_WORD_COUNT <? _)
              && (MIN_AI_PHRASES <=? _)); reflexivity.
Qed.


End ClassifierCoherence.

(** ** What [parse_listish_string] returns *)

Lemma has_char_replace (c d : ascii) (s : string) :
  has_char d (PyStr.replace (String c EmptyString) EmptyString s)
  = if Ascii.eqb d c then false else has_char d s.
Proof.
  unfold PyStr.replace.
  induction s as [|a s IH]; simpl.
  - destruct (Ascii.eqb d c); reflexivity.
  - assert (Hp : prefix EmptyString s = true) by (destruct s; reflexivity).
    destruct (ascii_dec c a) as [<-|Hca]; simpl.
    + rewrite Hp, IH. rewrite (Ascii.eqb_sym c d).
      destruct (Ascii.eqb d c); reflexivity.
    + rewrite IH.
      destruct (Ascii.eqb_spec d c) as [->|Hdc].
      * destruct (Ascii.eqb_spec a c) as [->|_]; [contradiction Hca|]; reflexivity.
      * reflexivity.
Qed.

Lemma has_char_lstrip (d : ascii) (s : string) :
  has_char d s = false -> has_char d (PyStr.lstrip s) = false.
Proof.
  induction s as [|a s IH]; simpl; [reflexivity|].
  intro Hs. apply orb_false_iff in Hs as [Ha Hs].
  destruct (PyStr.isspace a); [apply IH; exact Hs|].
  simpl. rewrite Ha, Hs. reflexivity.
Qed.

Lemma has_char_rstrip (d : ascii) (s : string) :
  has_char d s = false -> has_char d (PyStr.rstrip s) = false.
Proof.
  induction s as [|a s IH]; simpl; [reflexivity|].
  intro Hs. apply orb_false_iff in Hs as [Ha Hs].
  specialize (IH Hs).
  destruct (PyStr.rstrip s) as [|b r].
  - destruct (PyStr.isspace a); simpl; [reflexivity|].
    rewrite Ha. reflexivity.
  - change (has_char d (String a (String b r)))
      with (Ascii.eqb a d || has_char d (String b r)).
    rewrite Ha, IH. reflexivity.
Qed.

Lemma has_char_strip (d : ascii) (s : string) :
  has_char d s = false -> has_char d (PyStr.strip s) = false.
Proof.
  intro Hs. unfold PyStr.strip. apply has_char_rstrip, has_char_lstrip, Hs.
Qed.

Lemma split_char_pieces (sep d : ascii) (s piece : string) :
  In piece (PyStr.split_char sep s) ->
  has_char sep piece = false
  /\ (has_char d s = false -> has_char d piece = false).
Proof.
  revert piece. induction s as [|a s IH]; intros piece Hin; simpl in Hin.
  - destruct Hin as [<-|[]]. split; reflexivity.
  - destruct (Ascii.eqb a sep) eqn:Hsep.
    + destruct Hin as [<-|Hin].
      * split; reflexivity.
      * destruct (IH piece Hin) as [Hp Hd]. split; [exact Hp|].
        simpl. intro Hs. apply orb_false_iff in Hs as [_ Hs]. apply Hd, Hs.
    + destruct (PyStr.split_char sep s) as [|h t] eqn:Hsplit.
      * destruct Hin as [<-|[]]. simpl. rewrite Hsep. split; [reflexivity|].
        intro Hs. apply orb_false_iff in Hs as [Ha _]. rewrite Ha. reflexivity.
      * destruct Hin as [<-|Hin].
        -- destruct (IH h (or_introl eq_refl)) as [Hp Hd].
           simpl. rewrite Hsep, Hp. split; [reflexivity|].
           intro Hs. apply orb_false_iff in Hs as [Ha Hs].
           rewrite Ha. apply Hd, Hs.
        -- destruct (IH piece (or_intror Hin)) as [Hp Hd]. split; [exact Hp|].
           simpl. intro Hs. apply orb_false_iff in Hs as [_ Hs]. apply Hd, Hs.
Qed.

Section ListishResult.
Context `{Runtime}.

(** X5. Every text [parse_listish_string] returns is trimmed: it
    neither starts nor ends with whitespace. *)
Theorem parse_listish_string_trimmed (value : option string) (r : string) :
  parse_listish_string value = Some r -> PyStr.strip r = r.
Proof.
  unfold parse_listish_string.
  destruct value as [raw|]; [|discriminate].
  cbv zeta.
  destruct (String.eqb (PyStr.strip raw) EmptyString
            || String.eqb (PyStr.lower (PyStr.strip raw)) "nan");
    [discriminate|].
  assert (Hv : Some (PyStr.strip raw) = Some r -> PyStr.strip r = r).
  { intro Hr. injection Hr as <-. apply strip_idempotent. }
  destruct (PyStr.startswith "[" (PyStr.strip raw)
            && PyStr.endswith "]" (PyStr.strip raw)); [|exact Hv].
  destruct (Json.loads (PyStr.strip raw)) as [parsed|e].
  - assert (Hfirst : forall first,
               match first with
               | PNone => None
               | _ => Some (PyStr.strip (py_str first))
               end = Some r -> PyStr.strip r = r).
    { intros first Hr.
      destruct first; try discriminate Hr;
        injection Hr as <-; apply strip_idempotent. }
    destruct parsed as [| b | z | f | s | l | d]; try exact Hv.
    destruct l as [|first rest]; [exact Hv|].
    apply Hfirst.
  - set (parts := filter PyStr.truthy _).
    intro Hr.
    assert (Hin : In r parts).
    { destruct parts as [|p0 rest]; [discriminate Hr|].
      injection Hr as <-. left. reflexivity. }
    unfold parts in Hin. apply filter_In in Hin as [Hin _].
    apply in_map_iff in Hin as (x & <- & _).
    apply strip_idempotent.
Qed.

(** X6. When the bracketed text does not decode, the item returned has
    a character and holds no bracket, no double quote, no backslash and
    no comma. *)
Theorem parse_listish_string_fallback_clean (raw r : string) (e : exn) :
  bracketed (PyStr.strip raw) = true ->
  Json.loads (PyStr.strip raw) = Raise e ->
  parse_listish_string (Some raw) = Some r ->
  r <> EmptyString
  /\ forall c, In c list_punctuation -> has_char c r = false.
Proof.
  intros Hbr Hjson. unfold parse_listish_string. cbv zeta.
  destruct (String.eqb (PyStr.strip raw) EmptyString
            || String.eqb (PyStr.lower (PyStr.strip raw)) "nan");
    [discriminate|].
  unfold bracketed in Hbr. rewrite Hbr, Hjson.
  set (v2 := PyStr.strip _).
  set (parts := filter PyStr.truthy _).
  intro Hr.
  assert (Hin : In r parts).
  { destruct parts as [|p0 rest]; [discriminate Hr|].
    injection Hr as <-. left. reflexivity. }
  unfold parts in Hin. apply filter_In in Hin as [Hin Hfilled].
  apply in_map_iff in Hin as (x & <- & Hx).
  split.
  { intro Hempty. rewrite Hempty in Hfilled. discriminate Hfilled. }
  assert (Hv2 : forall c, In c ["["%char; "]"%char; dquote; "\"%char] ->
                          has_char c v2 = false).
  { intros c Hc. unfold v2. apply has_char_strip.
    rewrite !has_char_replace.
    simpl in Hc.
    destruct Hc as [<-|[<-|[<-|[<-|[]]]]]; reflexivity. }
  intros c Hc. apply has_char_strip.
  unfold list_punctuation in Hc. simpl in Hc.
  destruct (split_char_pieces "," c v2 x Hx) as [Hcomma Hother].
  destruct Hc as [<-|[<-|[<-|[<-|[<-|[]]]]]];
    try exact Hcomma; apply Hother, Hv2; simpl; auto.
Qed.

End ListishResult.

Lemma parse_listish_string_trimmed_witness :
  @parse_listish_string text_runtime (Some "  [ Kelly , Birkin ]  ") = Some "Kelly"
  /\ PyStr.strip "Kelly" = "Kelly".
Proof.
  assert (Hr : @parse_listish_string text_runtime (Some "  [ Kelly , Birkin ]  ")
               = Some "Kelly") by (vm_compute; reflexivity).
  split; [exact Hr|].
  apply (@parse_listish_string_trimmed text_runtime _ _ Hr).
Defined.

Lemma parse_listish_string_fallback_clean_witness :
  bracketed (PyStr.strip "[Kelly\, 'Birkin']") = true
  /\ Json.loads (PyStr.strip "[Kelly\, 'Birkin']") = Raise JSONDecodeError
  /\ @parse_listish_string text_runtime (Some "[Kelly\, 'Birkin']") = Some "Kelly"
  /\ has_char "\" "Kelly" = false.
Proof.
  assert (Hbr : bracketed (PyStr.strip "[Kelly\, 'Birkin']") = true)
    by (vm_compute; reflexivity).
  assert (Hjson : Json.loads (PyStr.strip "[Kelly\, 'Birkin']")
                  = Raise JSONDecodeError) by (vm_compute; reflexivity).
  assert (Hr : @parse_listish_string text_runtime (Some "[Kelly\, 'Birkin']")
               = Some "Kelly") by (vm_compute; reflexivity).
  split; [exact Hbr|]. split; [exact Hjson|]. split; [exact Hr|].
  destruct (@parse_listish_string_fallback_clean text_runtime _ _ _ Hbr Hjson Hr)
    as [_ Hclean].
  apply Hclean. unfold list_punctuation. simpl. auto.
Defined.

(** ** Product identifiers *)

Lemma digit_facts (c : ascii) :
  is_digit c = true ->
  PyStr.isspace c = false /\ numeric_head c = true
  /\ Ascii.eqb c "." = false /\ c <> "g"%char.
Proof.
  destruct c as [[] [] [] [] [] [] [] []]; vm_compute; intro Hc;
    try discriminate Hc; repeat split; discriminate.
Qed.

Lemma lstrip_filled (c : ascii) (s : string) :
  PyStr.isspace c = false -> PyStr.lstrip (String c s) = String c s.
Proof. intro Hc. simpl. rewrite Hc. reflexivity. Qed.

Lemma rstrip_no_space (s : string) :
  string_forallb (fun c => negb (PyStr.isspace c)) s = true -> PyStr.rstrip s = s.
Proof.
  induction s as [|c s IH]; simpl; [reflexivity|].
  intro Hs. apply andb_true_iff in Hs as [Hc Hs].
  apply negb_true_iff in Hc.
  rewrite (IH Hs). destruct s; [rewrite Hc|]; reflexivity.
Qed.

Lemma strip_no_space (s : string) :
  string_forallb (fun c => negb (PyStr.isspace c)) s = true -> PyStr.strip s = s.
Proof.
  intro Hs. unfold PyStr.strip.
  destruct s as [|c s]; [reflexivity|].
  pose proof Hs as Hc. simpl in Hc. apply andb_true_iff in Hc as [Hc _].
  apply negb_true_iff in Hc.
  rewrite (lstrip_filled c s Hc). apply rstrip_no_space, Hs.
Qed.

Lemma digits_no_space (d t : string) :
  all_digits d = true ->
  string_forallb (fun c => negb (PyStr.isspace c)) t = true ->
  string_forallb (fun c => negb (PyStr.isspace c)) (d ++ t) = true.
Proof.
  intros Hd Ht. induction d as [|c d IH]; simpl; [exact Ht|].
  simpl in Hd. apply andb_true_iff in Hd as [Hc Hd].
  destruct (digit_facts c Hc) as (Hsp & _).
  rewrite Hsp, (IH Hd). reflexivity.
Qed.

Lemma re_sub_dot0_digits (d : string) :
  all_digits d = true ->
  re_sub_dot0 d = d /\ re_sub_dot0 (d ++ ".0") = d.
Proof.
  induction d as [|c d IH]; intro Hd; [split; reflexivity|].
  simpl in Hd. apply andb_true_iff in Hd as [Hc Hd].
  destruct (digit_facts c Hc) as (_ & _ & Hdot & _).
  destruct (IH Hd) as [IH1 IH2].
  split.
  - change (re_sub_dot0 (String c d))
      with (if String.eqb (String c d) ".0" then EmptyString
            else if String.eqb (String c d)
                               (String "." (String "0" (String newline EmptyString)))
                 then String newline EmptyString
                 else String c (re_sub_dot0 d)).
    simpl String.eqb. rewrite Hdot, IH1. reflexivity.
  - change (re_sub_dot0 (String c d ++ ".0"))
      with (if String.eqb (String c (d ++ ".0")) ".0" then EmptyString
            else if String.eqb (String c (d ++ ".0"))
                               (String "." (String "0" (String newline EmptyString)))
                 then String newline EmptyString
                 else String c (re_sub_dot0 (d ++ ".0"))).
    simpl String.eqb. rewrite Hdot, IH2. reflexivity.
Qed.

Lemma string_of_uint_digits (u : Decimal.uint) :
  all_digits (NilEmpty.string_of_uint u) = true.
Proof. induction u; simpl; try rewrite IHu; reflexivity. Qed.

Lemma of_Z_digits (n : Z) :
  (0 <= n)%Z -> fullmatch_digits (PyStr.of_Z n) = true.
Proof.
  intro Hn. unfold fullmatch_digits, PyStr.of_Z.
  destruct n as [|p|p]; [reflexivity| |lia].
  simpl. rewrite string_of_uint_digits, andb_true_r.
  pose proof (DecimalPos.Unsigned.to_uint_nonnil p) as Hnil.
  destruct (Pos.to_uint p); try reflexivity.
  contradiction Hnil. reflexivity.
Qed.

Section ProductIdProperties.
Context `{Runtime}.

Lemma normalize_product_id_digits (d : string) :
  fullmatch_digits d = true ->
  normalize_product_id (PStr d) = Some ("gid://shopify/Product/" ++ d)
  /\ normalize_product_id (PStr (d ++ ".0")) = Some ("gid://shopify/Product/" ++ d).
Proof.
  intro Hd. unfold fullmatch_digits in Hd.
  apply andb_true_iff in Hd as [Hne Hd].
  destruct (re_sub_dot0_digits d Hd) as [Hsub Hsub0].
  destruct d as [|c d]; [discriminate Hne|].
  pose proof Hd as Hc. simpl in Hc. apply andb_true_iff in Hc as [Hc _].
  destruct (digit_facts c Hc) as (Hsp & Hnum & Hdot & Hg).
  assert (Hguard : forall t,
             String.eqb (String c t) EmptyString
             || String.eqb (PyStr.lower (String c t)) "nan" = false).
  { intro t. simpl.
    destruct (Ascii.eqb_spec (PyStr.lower_char c) "n") as [Hn|_]; [|reflexivity].
    contradiction (numeric_head_not_n c Hnum Hn). }
  assert (Hgid : forall t, PyStr.startswith "gid://" (String c t) = false).
  { intro t. unfold PyStr.startswith.
    change (prefix "gid://" (String c t))
      with (if ascii_dec "g" c then prefix "id://" t else false).
    destruct (ascii_dec "g" c) as [Heq|_]; [|reflexivity].
    contradiction Hg. symmetry. exact Heq. }
  unfold normalize_product_id, py_str. cbv zeta.
  split.
  - rewrite (strip_no_space (String c d))
      by (rewrite <- (append_empty_r (String c d));
          apply digits_no_space; [exact Hd | reflexivity]).
    rewrite Hguard, Hgid, Hsub.
    unfold fullmatch_digits. rewrite Hd. reflexivity.
  - rewrite (strip_no_space (String c d ++ ".0"))
      by (apply digits_no_space; [exact Hd | reflexivity]).
    change (String c d ++ ".0") with (String c (d ++ ".0")) at 1 2 3.
    rewrite Hguard, Hgid.
    change (String c (d ++ ".0")) with (String c d ++ ".0").
    rewrite Hsub0.
    unfold fullmatch_digits. rewrite Hd. reflexivity.
Qed.

(** X7. A text of decimal digits, with or without the [.0] a
    spreadsheet appends, and an integer that is not negative all give
    the global id of that number. *)
Theorem normalize_product_id_numeric (d : string) (n : Z) :
  fullmatch_digits d = true ->
  (0 <= n)%Z ->
  normalize_product_id (PStr d) = Some ("gid://shopify/Product/" ++ d)
  /\ normalize_product_id (PStr (d ++ ".0")) = Some ("gid://shopify/Product/" ++ d)
  /\ normalize_product_id (PInt n)
     = Some ("gid://shopify/Product/" ++ PyStr.of_Z n).
Proof.
  intros Hd Hn.
  destruct (normalize_product_id_digits d Hd) as [H1 H2].
  split; [exact H1|]. split; [exact H2|].
  destruct (normalize_product_id_digits (PyStr.of_Z n) (of_Z_digits n Hn))
    as [Hz _].
  exact Hz.
Qed.

(** X8. An id that comes out is never empty, is trimmed, and is left as
    it is when it goes in again; nothing comes out for [None]. *)
Theorem normalize_product_id_stable (raw_id : pyval) (r : string) :
  normalize_product_id raw_id = Some r ->
  r <> EmptyString
  /\ PyStr.strip r = r
  /\ normalize_product_id (PStr r) = Some r
  /\ normalize_product_id PNone = None.
Proof.
  intro Hr.
  assert (Hs : exists s,
             s = PyStr.strip (py_str raw_id)
             /\ (if String.eqb s EmptyString || String.eqb (PyStr.lower s) "nan"
                 then None
                 else if PyStr.startswith "gid://" s then Some s
                      else if fullmatch_digits (re_sub_dot0 s)
                           then Some ("gid://shopify/Product/" ++ re_sub_dot0 s)
                           else Some s) = Some r).
  { exists (PyStr.strip (py_str raw_id)). split; [reflexivity|].
    destruct raw_id; try exact Hr. discriminate Hr. }
  clear Hr. destruct Hs as (s & Hs & Hr).
  assert (Hstrip : PyStr.strip s = s) by (subst s; apply strip_idempotent).
  assert (Hagain : forall t,
             PyStr.strip t = t ->
             normalize_product_id (PStr t)
             = if String.eqb t EmptyString || String.eqb (PyStr.lower t) "nan"
               then None
               else if PyStr.startswith "gid://" t then Some t
                    else if fullmatch_digits (re_sub_dot0 t)
                         then Some ("gid://shopify/Product/" ++ re_sub_dot0 t)
                         else Some t).
  { intros t Ht. unfold normalize_product_id, py_str. rewrite Ht. reflexivity. }
  destruct (String.eqb s EmptyString || String.eqb (PyStr.lower s) "nan")
    eqn:Hguard; [discriminate Hr|].
  assert (Hne : s <> EmptyString).
  { intros ->. discriminate Hguard. }
  destruct (PyStr.startswith "gid://" s) eqn:Hgid.
  { injection Hr as <-.
    split; [exact Hne|]. split; [exact Hstrip|]. split; [|reflexivity].
    rewrite (Hagain s Hstrip), Hguard, Hgid. reflexivity. }
  destruct (fullmatch_digits (re_sub_dot0 s)) eqn:Hfull.
  2:{ injection Hr as <-.
      split; [exact Hne|]. split; [exact Hstrip|]. split; [|reflexivity].
      rewrite (Hagain s Hstrip), Hguard, Hgid, Hfull. reflexivity. }
  injection Hr as <-.
  unfold fullmatch_digits in Hfull. apply andb_true_iff in Hfull as [_ Hd].
  assert (Hns : string_forallb (fun c => negb (PyStr.isspace c))
                               ("gid://shopify/Product/" ++ re_sub_dot0 s) = true).
  { change ("gid://shopify/Product/" ++ re_sub_dot0 s)
      with (String "g" ("id://shopify/Product/" ++ re_sub_dot0 s)).
    simpl. rewrite <- (append_empty_r (re_sub_dot0 s)).
    apply digits_no_space; [exact Hd | reflexivity]. }
  split; [discriminate|].
  split; [apply strip_no_space, Hns|].
  split; [|reflexivity].
  etransitivity; [exact (Hagain _ (strip_no_space _ Hns))|].
  reflexivity.
Qed.

End ProductIdProperties.

Lemma normalize_product_id_numeric_witness :
  (fullmatch_digits "123456" = true /\ (0 <= 42)%Z)
  /\ @normalize_product_id text_runtime (PStr "123456.0")
     = Some "gid://shopify/Product/123456"
  /\ @normalize_product_id text_runtime (PInt 42)
     = Some "gid://shopify/Product/42".
Proof.
  assert (Hd : fullmatch_digits "123456" = true) by reflexivity.
  assert (Hn : (0 <= 42)%Z) by lia.
  split; [split; assumption|].
  destruct (@normalize_product_id_numeric text_runtime "123456" 42 Hd Hn)
    as (_ & Hdot & Hint).
  split; [exact Hdot | exact Hint].
Defined.

Lemma normalize_product_id_stable_witness :
  @normalize_product_id text_runtime (PStr "  handle-7.0 ") = Some "handle-7.0"
  /\ @normalize_product_id text_runtime (PStr "handle-7.0") = Some "handle-7.0".
Proof.
  assert (Hr : @normalize_product_id text_runtime (PStr "  handle-7.0 ")
               = Some "handle-7.0") by (vm_compute; reflexivity).
  split; [exact Hr|].
  destruct (@normalize_product_id_stable text_runtime _ _ Hr) as (_ & _ & Hagain & _).
  exact Hagain.
Defined.

(** ** The puzzle block *)

Lemma key_is_not_in (k : option string) (name : string) (keys : list string) :
  existsb (String.eqb name) keys = false ->
  key_is k name = true -> key_in k keys = false.
Proof.
  destruct k as [s|]; simpl; [|discriminate].
  intros Hkeys Hs. apply String.eqb_eq in Hs. subst s. exact Hkeys.
Qed.

Lemma key_is_other (k : option string) (a b : string) :
  String.eqb a b = false -> key_is k a = true -> key_is k b = false.
Proof.
  destruct k as [s|]; simpl; [|discriminate].
  intros Hab Hs. apply String.eqb_eq in Hs. subst s. exact Hab.
Qed.

Lemma colour_fold_descriptions (fs : list Field) (acc : colour_acc) :
  colour_descriptions_array (fold_left colour_field fs acc)
  = (colour_descriptions_array acc
     ++ field_values (fun k => key_is k "colour_description") fs)%list.
Proof.
  revert acc.
  induction fs as [|f fs IH]; intro acc; simpl.
  - rewrite app_nil_r. reflexivity.
  - rewrite IH. clear IH. unfold colour_field.
    destruct (field_value f) as [[|c v]|]; simpl; try reflexivity.
    destruct (key_is (key f) "colour_description") eqn:Hdesc.
    + rewrite (key_is_not_in (key f) "colour_description" COLOUR_KEYS
                             eq_refl Hdesc).
      rewrite (key_is_other (key f) "colour_description" "colour_code"
                            eq_refl Hdesc).
      simpl. rewrite <- app_assoc. reflexivity.
    + destruct (key_in (key f) COLOUR_KEYS); simpl; [reflexivity|].
      destruct (key_is (key f) "colour_code"); reflexivity.
Qed.

Lemma material_fold_descriptions (fs : list Field) (acc : material_acc) :
  material_descriptions_array (fold_left material_field fs acc)
  = (material_descriptions_array acc
     ++ field_values (fun k => key_is k "material_description") fs)%list.
Proof.
  revert acc.
  induction fs as [|f fs IH]; intro acc; simpl.
  - rewrite app_nil_r. reflexivity.
  - rewrite IH. clear IH. unfold material_field.
    destruct (field_value f) as [[|c v]|]; simpl; try reflexivity.
    destruct (key_is (key f) "material_description") eqn:Hdesc.
    + rewrite (key_is_not_in (key f) "material_description" MATERIAL_KEYS
                             eq_refl Hdesc).
      simpl. rewrite <- app_assoc. reflexivity.
    + destruct (key_in (key f) MATERIAL_KEYS); reflexivity.
Qed.

Lemma last_cons (x d : string) (l : list string) : last (x :: l) d = last l x.
Proof.
  revert x d. induction l as [|y l IH]; intros x d; [reflexivity|].
  change (last (x :: y :: l) d) with (last (y :: l) d).
  rewrite (IH y d), (IH y x). reflexivity.
Qed.

(** The loop over the fields of the hardware reference keeps the last
    value. *)
Lemma hardware_fold_last (fs : list Field) (acc : string) :
  fold_left
    (fun acc field =>
       if key_is (key field) "hardware_description"
          && truthy_opt (field_value field)
       then or_empty (field_value field) else acc) fs acc
  = last (field_values (fun k => key_is k "hardware_description") fs) acc.
Proof.
  revert acc. induction fs as [|f fs IH]; intro acc; simpl; [reflexivity|].
  rewrite IH. unfold field_values. simpl.
  destruct (field_value f) as [[|c v]|]; simpl;
    rewrite ?andb_false_r; try reflexivity.
  rewrite andb_true_r.
  destruct (key_is (key f) "hardware_description"); [|reflexivity].
  cbn [app]. rewrite last_cons. reflexivity.
Qed.

Lemma field_values_filled (sel : option string -> bool) (fs : list Field) :
  forallb filled_text (map PStr (field_values sel fs)) = true.
Proof.
  induction fs as [|f fs IH]; simpl; [reflexivity|].
  unfold field_values in *. simpl.
  destruct (field_value f) as [[|c v]|]; simpl; try exact IH.
  destruct (sel (key f)); simpl; exact IH.
Qed.

Lemma list_entry_filled (sel : option string -> bool) (fs : list Field) (v : pyval) :
  list_entry (field_values sel fs) = Some v -> filled v = true.
Proof.
  unfold list_entry, str_list.
  pose proof (field_values_filled sel fs) as Hf.
  destruct (field_values sel fs) as [|x l]; [discriminate|].
  intro Hv. injection Hv as <-. exact Hf.
Qed.

Lemma text_entry_filled (o : option string) (v : pyval) :
  text_entry o = Some v -> filled v = true.
Proof.
  destruct o as [[|c s]|]; simpl; intro Hv; try discriminate Hv.
  injection Hv as <-. reflexivity.
Qed.

(** The puzzle block, entry by entry, in the order of insertion. *)
Lemma puzzle_description_entries (p : Product) :
  puzzle_description p =
    (opt_entry "style_size_description"
       (text_entry (named_reference_value (size_style_description p)))
     ++ opt_entry "construction_description"
          (text_entry (named_reference_value (hermes_construction p)))
     ++ opt_entry "material_descriptions"
          (list_entry
             (field_values (fun k => key_is k "material_description")
                           (all_fields (reference_nodes (hermes_material p)))))
     ++ opt_entry "colour_descriptions"
          (list_entry
             (field_values (fun k => key_is k "colour_description")
                           (all_fields (reference_nodes (hermes_colour p)))))
     ++ opt_entry "hardware_description"
          (text_entry
             (Some (last_text
                      (field_values (fun k => key_is k "hardware_description")
                                    (hardware_fields p))))))%list.
Proof.
  unfold puzzle_description.
  assert (Hmat :
            match reference_nodes (hermes_material p) with
            | [] => []
            | n :: l => material_descriptions_array (material_loop (n :: l))
            end
            = field_values (fun k => key_is k "material_description")
                           (all_fields (reference_nodes (hermes_material p)))).
  { destruct (reference_nodes (hermes_material p)) as [|n l]; [reflexivity|].
    unfold material_loop. rewrite fold_left_nodes.
    apply (material_fold_descriptions (all_fields (n :: l))). }
  assert (Hcol :
            match reference_nodes (hermes_colour p) with
            | [] => []
            | n :: l => colour_descriptions_array (colour_loop (n :: l))
            end
            = field_values (fun k => key_is k "colour_description")
                           (all_fields (reference_nodes (hermes_colour p)))).
  { destruct (reference_nodes (hermes_colour p)) as [|n l]; [reflexivity|].
    unfold colour_loop. rewrite fold_left_nodes.
    apply (colour_fold_descriptions (all_fields (n :: l))). }
  assert (Hhw : hardware_description (reference_of (hermes_hardware p))
                = last_text
                    (field_values (fun k => key_is k "hardware_description")
                                  (hardware_fields p))).
  { unfold hardware_description, hardware_fields, last_text.
    destruct (reference_of (hermes_hardware p)) as [r|]; [|reflexivity].
    apply hardware_fold_last. }
  cbv zeta. rewrite Hmat, Hcol.
  rewrite Hhw.
  unfold text_entry, list_entry.
  destruct (truthy_opt (named_reference_value (size_style_description p)));
    destruct (truthy_opt (named_reference_value (hermes_construction p)));
    destruct (field_values (fun k => key_is k "material_description") _);
    destruct (field_values (fun k => key_is k "colour_description") _);
    destruct (last_text _) as [|c h]; reflexivity.
Qed.

(** X9. The puzzle block has keys among its five names only, and never
    an empty value: a text in it has a character, and a list in it has an
    element and holds such texts only. *)
Theorem puzzle_description_filled (p : Product) (k : string) (v : pyval) :
  dict_get (puzzle_description p) k = Some v ->
  In k PUZZLE_KEYS /\ filled v = true.
Proof.
  rewrite puzzle_description_entries.
  rewrite !dict_get_app, !dict_get_opt_entry.
  unfold PUZZLE_KEYS.
  destruct (String.eqb_spec "style_size_description" k) as [<-|_].
  { destruct (text_entry (named_reference_value (size_style_description p)))
      as [v0|] eqn:Hv0.
    - intro Hv. injection Hv as <-.
      split; [simpl; tauto | apply (text_entry_filled _ _ Hv0)].
    - simpl. discriminate. }
  destruct (String.eqb_spec "construction_description" k) as [<-|_].
  { destruct (text_entry (named_reference_value (hermes_construction p)))
      as [v0|] eqn:Hv0.
    - intro Hv. injection Hv as <-.
      split; [simpl; tauto | apply (text_entry_filled _ _ Hv0)].
    - simpl. discriminate. }
  destruct (String.eqb_spec "material_descriptions" k) as [<-|_].
  { destruct (list_entry _) as [v0|] eqn:Hv0 at 1.
    - intro Hv. injection Hv as <-.
      split; [simpl; tauto | apply (list_entry_filled _ _ _ Hv0)].
    - simpl. discriminate. }
  destruct (String.eqb_spec "colour_descriptions" k) as [<-|_].
  { destruct (list_entry _) as [v0|] eqn:Hv0.
    - intro Hv. injection Hv as <-.
      split; [simpl; tauto | apply (list_entry_filled _ _ _ Hv0)].
    - simpl. discriminate. }
  destruct (String.eqb_spec "hardware_description" k) as [<-|_].
  { destruct (text_entry _) as [v0|] eqn:Hv0.
    - intro Hv. injection Hv as <-.
      split; [simpl; tauto | apply (text_entry_filled _ _ Hv0)].
    - discriminate. }
  discriminate.
Qed.

(** X10. The descriptions of the puzzle block are the values of the
    description fields in the order of the fields, repeated values
    included, as lists; of several hardware descriptions the last one
    stays. *)
Theorem puzzle_description_lists (p : Product) :
  dict_get (puzzle_description p) "colour_descriptions"
    = list_entry (field_values (fun k => key_is k "colour_description")
                               (all_fields (reference_nodes (hermes_colour p))))
  /\ dict_get (puzzle_description p) "material_descriptions"
     = list_entry (field_values (fun k => key_is k "material_description")
                                (all_fields (reference_nodes (hermes_material p))))
  /\ dict_get (puzzle_description p) "hardware_description"
     = text_entry (Some (last_text
                           (field_values (fun k => key_is k "hardware_description")
                                         (hardware_fields p))))
  /\ dict_get
       (puzzle_description
          (colour_product [one_field "colour_description" "Deep black";
                           one_field "colour_description" "Deep black"]))
       "colour_descriptions"
     = Some (PList [PStr "Deep black"; PStr "Deep black"]).
Proof.
  rewrite !puzzle_description_entries.
  rewrite !dict_get_app, !dict_get_opt_entry. simpl String.eqb. cbv iota.
  split; [|split; [|split]].
  - destruct (list_entry (field_values (fun k => key_is k "colour_description") _));
      reflexivity.
  - destruct (list_entry (field_values (fun k => key_is k "material_description") _));
      reflexivity.
  - destruct (text_entry _); reflexivity.
  - vm_compute. reflexivity.
Qed.

Lemma puzzle_description_filled_witness :
  dict_get
    (puzzle_description
       (colour_product [one_field "colour_description" "Deep black";
                        one_field "colour_description" EmptyString]))
    "colour_descriptions"
  = Some (PList [PStr "Deep black"])
  /\ filled (PList [PStr "Deep black"]) = true.
Proof.
  assert (Hv : dict_get
                 (puzzle_description
                    (colour_product [one_field "colour_description" "Deep black";
                                     one_field "colour_description" EmptyString]))
                 "colour_descriptions"
               = Some (PList [PStr "Deep black"])) by (vm_compute; reflexivity).
  split; [exact Hv|].
  apply (puzzle_description_filled _ _ _ Hv).
Defined.

(** ** The payload *)

Lemma is_subseq_NoDup (l m : list string) :
  is_subseq l m = true -> NoDup m -> NoDup l /\ forall x, In x l -> In x m.
Proof.
  revert l. induction m as [|y m IH]; intros l Hsub Hm.
  - destruct l; [split; [constructor | intros x []] | discriminate Hsub].
  - destruct l as [|x l]; [split; [constructor | intros z []]|].
    inversion Hm as [|? ? Hy Hm']; subst.
    simpl in Hsub.
    destruct (String.eqb_spec x y) as [->|Hxy].
    + destruct (IH l Hsub Hm') as [Hnd Hin].
      split.
      * constructor; [|exact Hnd]. intro Hyl. apply Hy, Hin, Hyl.
      * intros z [<-|Hz]; [left; reflexivity | right; apply Hin, Hz].
    + destruct (IH (x :: l) Hsub Hm') as [Hnd Hin].
      split; [exact Hnd|]. intros z Hz. right. apply Hin, Hz.
Qed.

Section PayloadProperties.
Context `{Runtime}.

(** X11. The keys of the specification always come in the same order,
    the order in which the code sets them: [bag_style], [bag_size_cm],
    [condition], [stamp], [receipt], [accessories], [hardware],
    [dimensions], [hermes_colour], [hermes_colour_code],
    [hermes_material], with the absent keys left out; and no key occurs
    twice. *)
Theorem specifications_key_order (p : Product) :
  is_subseq (dict_keys (specifications p))
            ["bag_style"; "bag_size_cm"; "condition"; "stamp"; "receipt";
             "accessories"; "hardware"; "dimensions"; "hermes_colour";
             "hermes_colour_code"; "hermes_material"] = true
  /\ NoDup (dict_keys (specifications p)).
Proof.
  change ["bag_style"; "bag_size_cm"; "condition"; "stamp"; "receipt";
          "accessories"; "hardware"; "dimensions"; "hermes_colour";
          "hermes_colour_code"; "hermes_material"] with SPEC_KEYS.
  assert (Hsub : is_subseq (dict_keys (specifications p)) SPEC_KEYS = true).
  { rewrite specifications_entries.
    destruct (text_entry (parse_listish_string (metafield_value (bag_style p))));
      destruct (bag_size_entry (metafield_value (bag_size p)));
      destruct (text_entry (parse_listish_string (metafield_value (condition p))));
      destruct (parse_dimensions_list_dimension (metafield_value (dimensions p)));
      destruct (joined_entry (colour_category_values p));
      destruct (joined_entry (colour_code_values p));
      destruct (joined_entry (material_category_values p));
      reflexivity. }
  split; [exact Hsub|].
  apply (is_subseq_NoDup _ SPEC_KEYS Hsub).
  unfold SPEC_KEYS.
  repeat constructor; simpl; intro Hin;
    repeat (destruct Hin as [Hin|Hin]; [discriminate Hin|]); exact Hin.
Qed.

(** X12. The note of the classifier reaches the payload as it is and
    only for a short description: built from the classifier's answer,
    the payload has the key [editor_note] exactly when the product has a
    bag style and a description of 1 to 50 words (if the key is there,
    the product has both; if the product has both, the key is there),
    and its value is then that description. *)
Theorem payload_editor_note (p : Product) :
  let note := snd (fst (should_process_product p)) in
  exists structured,
    dict_get (build_payload_from_product p note) "structured"
    = Some (PDict structured)
    /\ dict_get structured "specifications" = Some (PDict (specifications p))
    /\ dict_get structured "puzzle_description"
       = Some (PDict (puzzle_description p))
    /\ (forall v,
           dict_get structured "editor_note" = Some v ->
           exists markup,
             v = PStr markup
             /\ truthy_opt (metafield_value (bag_style p)) = true
             /\ descriptionHtml p = Some markup
             /\ 1 <= stripped_word_count markup <= 50)
    /\ (forall markup,
           truthy_opt (metafield_value (bag_style p)) = true ->
           descriptionHtml p = Some markup ->
           1 <= stripped_word_count markup <= 50 ->
           dict_get structured "editor_note" = Some (PStr markup)).
Proof.
  intro note.
  pose proof (should_process_product_note p) as Hnote.
  pose proof (should_process_product_note_bag_style p) as Hstyle.
  fold note in Hnote, Hstyle.
  unfold build_payload_from_product.
  eexists. split; [reflexivity|].
  destruct note as [[|c m]|] eqn:Hn; cbn [truthy_opt PyStr.truthy];
    (split; [reflexivity|]; split; [reflexivity|]).
  - destruct (Hnote EmptyString eq_refl) as (_ & _ & Hne & _).
    contradiction Hne. reflexivity.
  - split.
    + intros v Hv. simpl in Hv. injection Hv as <-.
      destruct (Hnote (String c m) eq_refl) as (_ & Hdesc & _ & Hwc).
      exists (String c m).
      split; [reflexivity|].
      split; [exact (Hstyle (String c m) eq_refl)|].
      split; [exact Hdesc | exact Hwc].
    + intros markup Hbag Hdesc Hwc.
      destruct (Hnote (String c m) eq_refl) as (_ & Hdesc' & _).
      rewrite Hdesc in Hdesc'. injection Hdesc' as ->. reflexivity.
  - split.
    + intros v Hv. discriminate Hv.
    + intros markup Hbag Hdesc Hwc. exfalso.
      assert (Hne : markup <> EmptyString).
      { intros ->.
        unfold stripped_word_count, strip_html_to_text, word_count in Hwc.
        simpl in Hwc. lia. }
      pose proof (should_process_product_described p markup Hbag Hdesc Hne)
        as Hres.
      cbv zeta in Hres.
      replace (0 <? stripped_word_count markup) with true in Hres
        by (symmetry; apply Nat.ltb_lt; lia).
      replace (stripped_word_count markup <=? EDITORS_NOTE_MAX_WORDS)
        with true in Hres
        by (symmetry; apply Nat.leb_le; unfold EDITORS_NOTE_MAX_WORDS; lia).
      unfold note in Hn. rewrite Hres in Hn. discriminate Hn.
Qed.

End PayloadProperties.

(** ** The rows of [main] *)


Section RowProperties.
Context `{Runtime}.
Variable World : Type.
Variable fetch_product : World -> string -> result (option Product) * World.
Variable time_sleep : World -> spec_float -> result unit * World.
Variable to_file :
  World -> table_format -> table -> string -> result unit * World.
Variable str_exn : exn -> string.
Variable sleep_seconds : spec_float.
Variable save_every : Z.
Variable out_file : string.

(** The handler always writes a failure and lets an exception leave. *)
Lemma row_failed_cases (w : World) (done : table) (body : option pyval)
      (ex : exn) :
  exists ex',
    fst (row_failed World to_file str_exn out_file w done body ex)
    = {| row_status := "FAILED: " ++ exn_str str_exn ex;
         row_body := body;
         row_raised := Some ex' |}.
Proof.
  unfold row_failed.
  destruct (write_table World to_file out_file w
                        (with_row done ("FAILED: " ++ exn_str str_exn ex) body))
    as [[u|ex'] w']; [exists ex | exists ex']; reflexivity.
Qed.

Section OneWebhook.
Variable call_webhook : World -> dict -> result dict * World.



Lemma rows_loop_stops (ids : list pyval) (limit : option Z) :
  forall w done generated_count k,
    let rs :=
      fst (rows_loop World fetch_product call_webhook time_sleep to_file
                     str_exn sleep_seconds save_every out_file
                     w done generated_count ids limit k) in
    Forall (fun r => row_raised r = None) (removelast rs)
    /\ (List.length rs < List.length ids ->
        (exists ex, row_raised (last rs (row_done EmptyString None)) = Some ex)
        \/ (exists l, limit = Some l /\ List.length rs = Z.to_nat (l - k)))
    /\ (limit = None ->
        Forall (fun r => row_raised r = None) rs ->
        List.length rs = List.length ids).
Proof.
  induction ids as [|raw_id rest IH]; intros w done generated_count k.
  { cbn. split; [constructor|]. split; [intro; lia | reflexivity]. }
  cbn [rows_loop].
  destruct (limit_reached limit k) eqn:Hlim.
  { cbn [fst]. split; [constructor|].
    split.
    - intros _. right. destruct limit as [l|]; [|discriminate Hlim].
      exists l. split; [reflexivity|].
      cbn in Hlim. apply Z.leb_le in Hlim. cbn. lia.
    - intros ->. discriminate Hlim. }
  assert (Hroom : forall l, limit = Some l -> (k < l)%Z).
  { intros l ->. cbn in Hlim. apply Z.leb_gt. exact Hlim. }
  assert (Hnext : forall (r : row_result) (w' : World) done' count',
             row_raised r = None ->
             let rs :=
               fst (let (rs, w2) :=
                      rows_loop World fetch_product call_webhook time_sleep
                                to_file str_exn sleep_seconds save_every
                                out_file w' done' count' rest limit (k + 1) in
                    (r :: rs, w2)) in
             Forall (fun r => row_raised r = None) (removelast rs)
             /\ (List.length rs < List.length (raw_id :: rest) ->
                 (exists ex,
                     row_raised (last rs (row_done EmptyString None)) = Some ex)
                 \/ (exists l, limit = Some l
                               /\ List.length rs = Z.to_nat (l - k)))
             /\ (limit = None ->
                 Forall (fun r => row_raised r = None) rs ->
                 List.length rs = List.length (raw_id :: rest))).
  { intros r w' done' count' Hr.
    specialize (IH w' done' count' (k + 1)%Z).
    destruct (rows_loop World fetch_product call_webhook time_sleep to_file
                        str_exn sleep_seconds save_every out_file
                        w' done' count' rest limit (k + 1)) as [rs w2].
    cbn [fst] in *.
    destruct IH as (Hbefore & Hshort & Hfull).
    split.
    { destruct rs as [|r' rs']; [constructor|].
      change (removelast (r :: r' :: rs')) with (r :: removelast (r' :: rs')).
      constructor; assumption. }
    split.
    - intro Hlt. cbn [List.length] in Hlt.
      destruct (Hshort ltac:(lia)) as [[ex Hex]|(l & Hl & Hlen)].
      + left. exists ex. destruct rs as [|r' rs']; [|exact Hex].
        cbn in Hex. discriminate Hex.
      + right. exists l. split; [exact Hl|].
        specialize (Hroom l Hl). cbn [List.length]. lia.
    - intros Hnone Hall. inversion Hall; subst.
      cbn [List.length]. f_equal. apply Hfull; [reflexivity | assumption]. }
  destruct (normalize_product_id raw_id) as [[|c g]|].
  - apply (Hnext row_invalid_id). reflexivity.
  - destruct (row_step World fetch_product call_webhook time_sleep to_file
                       str_exn sleep_seconds save_every out_file
                       w done generated_count (String c g))
      as [[r count] w1].
    destruct (row_raised r) as [ex|] eqn:Hr.
    + cbn [fst]. split; [constructor|].
      split; [intros _; left; exists ex; exact Hr|].
      intros _ Hall. inversion Hall as [|? ? Hnone _]; subst.
      rewrite Hr in Hnone. discriminate Hnone.
    + apply (Hnext r). exact Hr.
  - apply (Hnext row_invalid_id). reflexivity.
Qed.

(** X14. The loop of [main] stops at the first exception: no row before
    the last one visited has raised; rows from the start row on are left
    unvisited only when the last row visited has raised or the limit is
    reached; and without a limit, every row from the start row on is
    visited when no row raises. *)
Theorem main_rows_stops (w : World) (ids : list pyval) (start_row : nat)
        (limit : option Z) :
  let rs :=
    fst (main_rows World fetch_product call_webhook time_sleep to_file str_exn
                   sleep_seconds save_every out_file w ids start_row limit) in
  Forall (fun r => row_raised r = None) (removelast rs)
  /\ (List.length rs < List.length ids - start_row ->
      (exists ex, row_raised (last rs (row_done EmptyString None)) = Some ex)
      \/ (exists l, limit = Some l /\ List.length rs = Z.to_nat l))
  /\ (limit = None ->
      Forall (fun r => row_raised r = None) rs ->
      List.length rs = List.length ids - start_row).
Proof.
  unfold main_rows.
  destruct (rows_loop_stops (skipn start_row ids) limit w [] 0%Z 0%Z)
    as (Hbefore & Hshort & Hfull).
  rewrite length_skipn in Hshort, Hfull.
  split; [exact Hbefore|].
  split; [|exact Hfull].
  intro Hlt. destruct (Hshort Hlt) as [Hex|(l & Hl & Hlen)];
    [left; exact Hex|].
  right. exists l. split; [exact Hl|].
  rewrite Z.sub_0_r in Hlen. exact Hlen.
Qed.

Lemma rows_loop_length (ids : list pyval) :
  forall w done generated_count limit k,
    List.length
      (fst (rows_loop World fetch_product call_webhook time_sleep to_file
                      str_exn sleep_seconds save_every out_file
                      w done generated_count ids limit k))
    <= List.length ids
    /\ (forall l, limit = Some l ->
                  List.length
                    (fst (rows_loop World fetch_product call_webhook time_sleep
                                    to_file str_exn sleep_seconds save_every
                                    out_file w done generated_count ids limit k))
                  <= Z.to_nat (l - k)).
Proof.
  induction ids as [|raw_id rest IH]; intros w done generated_count limit k.
  { simpl. split; [lia | intros; lia]. }
  cbn [rows_loop].
  destruct (limit_reached limit k) eqn:Hlim.
  { simpl. split; [lia | intros; lia]. }
  assert (Hroom : forall l, limit = Some l -> (k < l)%Z).
  { intros l ->. simpl in Hlim. apply Z.leb_gt. exact Hlim. }
  assert (Hnext : forall (r : row_result) (w' : World) done' count',
             let rs :=
               fst (let (rs, w2) :=
                      rows_loop World fetch_product call_webhook time_sleep
                                to_file str_exn sleep_seconds save_every
                                out_file w' done' count' rest limit (k + 1) in
                    (r :: rs, w2)) in
             List.length rs <= List.length (raw_id :: rest)
             /\ (forall l, limit = Some l ->
                           List.length rs <= Z.to_nat (l - k))).
  { intros r w' done' count'.
    destruct (IH w' done' count' limit (k + 1)%Z) as [Hlen Hl].
    destruct (rows_loop World fetch_product call_webhook time_sleep to_file
                        str_exn sleep_seconds save_every out_file
                        w' done' count' rest limit (k + 1)) as [rs w2].
    cbn [fst List.length] in *.
    split; [lia|].
    intros l Hlimit. specialize (Hl l Hlimit). specialize (Hroom l Hlimit). lia. }
  destruct (normalize_product_id raw_id) as [[|c g]|].
  - apply (Hnext row_invalid_id).
  - destruct (row_step World fetch_product call_webhook time_sleep to_file
                       str_exn sleep_seconds save_every out_file
                       w done generated_count (String c g))
      as [[r count] w1].
    destruct (row_raised r).
    + cbn [fst List.length]. split; [lia|].
      intros l Hlimit. specialize (Hroom l Hlimit). lia.
    + apply (Hnext r).
  - apply (Hnext row_invalid_id).
Qed.

(** X15. [main] never visits more rows than the limit allows, nor more
    than the table has from the start row on; a limit that is not
    positive leaves every row alone. *)
Theorem main_rows_limit (w : World) (ids : list pyval) (start_row : nat)
        (limit : option Z) (l : Z) :
  List.length
    (fst (main_rows World fetch_product call_webhook time_sleep to_file str_exn
                    sleep_seconds save_every out_file w ids start_row limit))
  <= List.length ids - start_row
  /\ List.length
       (fst (main_rows World fetch_product call_webhook time_sleep to_file
                       str_exn sleep_seconds save_every out_file
                       w ids start_row (Some l)))
     <= Z.to_nat l
  /\ ((l <= 0)%Z ->
      main_rows World fetch_product call_webhook time_sleep to_file str_exn
                sleep_seconds save_every out_file w ids start_row (Some l)
      = ([], w)).
Proof.
  unfold main_rows.
  split; [|split].
  - destruct (rows_loop_length (skipn start_row ids) w [] 0%Z limit 0%Z)
      as [Hlen _].
    rewrite length_skipn in Hlen. exact Hlen.
  - destruct (rows_loop_length (skipn start_row ids) w [] 0%Z (Some l) 0%Z)
      as [_ Hl].
    specialize (Hl l eq_refl). rewrite Z.sub_0_r in Hl. exact Hl.
  - intro Hl. destruct (skipn start_row ids) as [|raw_id rest]; [reflexivity|].
    cbn [rows_loop limit_reached].
    replace (Z.leb l 0) with true by (symmetry; apply Z.leb_le; exact Hl).
    reflexivity.
Qed.

Lemma normalize_product_id_blank (v : pyval) :
  blank_id v -> normalize_product_id v = None.
Proof.
  intros [->|Hblank]; [reflexivity|].
  unfold source_blank in Hblank.
  assert (Hguard : String.eqb (PyStr.strip (py_str v)) EmptyString
                   || String.eqb (PyStr.lower (PyStr.strip (py_str v))) "nan"
                   = true).
  { destruct Hblank as [Hb|Hb]; rewrite Hb; [reflexivity | apply orb_true_r]. }
  destruct v; [reflexivity|..];
    unfold normalize_product_id; cbv zeta; rewrite Hguard; reflexivity.
Qed.

Lemma rows_loop_blank (ids : list pyval) :
  Forall blank_id ids ->
  forall w done generated_count limit k,
    snd (rows_loop World fetch_product call_webhook time_sleep to_file str_exn
                   sleep_seconds save_every out_file
                   w done generated_count ids limit k) = w
    /\ Forall (fun r => r = row_invalid_id)
              (fst (rows_loop World fetch_product call_webhook time_sleep
                              to_file str_exn sleep_seconds save_every out_file
                              w done generated_count ids limit k))
    /\ (limit = None ->
        List.length
          (fst (rows_loop World fetch_product call_webhook time_sleep to_file
                          str_exn sleep_seconds save_every out_file
                          w done generated_count ids limit k))
        = List.length ids).
Proof.
  induction 1 as [|v rest Hv Hrest IH]; intros w done generated_count limit k.
  { simpl. repeat split; try constructor. }
  cbn [rows_loop].
  destruct (limit_reached limit k) eqn:Hlim.
  { simpl. split; [reflexivity|]. split; [constructor|].
    intros ->. discriminate Hlim. }
  rewrite (normalize_product_id_blank v Hv).
  destruct (IH w (with_row done "SKIPPED: invalid ID" None) generated_count
               limit (k + 1)%Z) as (Hw & Hall & Hlen).
  destruct (rows_loop World fetch_product call_webhook time_sleep to_file
                      str_exn sleep_seconds save_every out_file
                      w (with_row done "SKIPPED: invalid ID" None)
                      generated_count rest limit (k + 1))
    as [rs w2].
  cbn [fst snd] in *.
  split; [exact Hw|].
  split; [constructor; [reflexivity | exact Hall]|].
  intro Hnone. simpl. f_equal. apply Hlen, Hnone.
Qed.

(** X16. A row whose [ID] cell is [None], or has a text that is empty
    or the "nan" token once trimmed (the empty cell of a table), is
    marked "SKIPPED: invalid ID" and reaches neither the catalog nor the
    webhook: when all the cells are such, the state of the services is
    the one [main] started with. *)
Theorem main_rows_invalid_ids (w : World) (ids : list pyval) (start_row : nat)
        (limit : option Z) :
  Forall blank_id ids ->
  snd (main_rows World fetch_product call_webhook time_sleep to_file str_exn
                 sleep_seconds save_every out_file w ids start_row limit) = w
  /\ Forall (fun r => r = row_invalid_id)
            (fst (main_rows World fetch_product call_webhook time_sleep to_file
                            str_exn sleep_seconds save_every out_file
                            w ids start_row limit))
  /\ List.length
       (fst (main_rows World fetch_product call_webhook time_sleep to_file
                       str_exn sleep_seconds save_every out_file
                       w ids start_row None))
     = List.length ids - start_row.
Proof.
  intro Hblank. unfold main_rows.
  assert (Hskip : Forall blank_id (skipn start_row ids)).
  { apply Forall_forall. intros v Hv.
    rewrite Forall_forall in Hblank. apply Hblank.
    rewrite <- (firstn_skipn start_row ids). apply in_or_app. right. exact Hv. }
  destruct (rows_loop_blank _ Hskip w [] 0%Z limit 0%Z) as (Hw & Hall & _).
  destruct (rows_loop_blank _ Hskip w [] 0%Z None 0%Z) as (_ & _ & Hlen).
  split; [exact Hw|]. split; [exact Hall|].
  rewrite (Hlen eq_refl). apply length_skipn.
Qed.

End OneWebhook.

(** X17. A row that is not processed does not depend on the webhook: if
    the catalog fails, has no such product or returns a product the
    classifier skips, the row, the count and the state come out the same
    whatever the webhook would have done, and the description cell is
    not written.  The state is the one the catalog left, after the save
    of the handler when the catalog has failed. *)
Theorem row_step_without_webhook
        (webhook1 webhook2 : World -> dict -> result dict * World)
        (w : World) (done : table) (generated_count : Z)
        (product_gid : string) :
  (forall p w1, fetch_product w product_gid = (Ok (Some p), w1) ->
                fst (fst (should_process_product p)) = false) ->
  let out :=
    row_step World fetch_product webhook1 time_sleep to_file str_exn
             sleep_seconds save_every out_file w done generated_count
             product_gid in
  out = row_step World fetch_product webhook2 time_sleep to_file str_exn
                 sleep_seconds save_every out_file w done generated_count
                 product_gid
  /\ row_body (fst (fst out)) = None
  /\ snd (fst out) = generated_count
  /\ snd out
     = match fetch_product w product_gid with
       | (Ok _, w1) => w1
       | (Raise ex, w1) =>
           snd (row_failed World to_file str_exn out_file w1 done None ex)
       end.
Proof.
  intros Hskip out. unfold out, row_step.
  destruct (fetch_product w product_gid) as [[[p|]|ex] w1].
  - specialize (Hskip p w1 eq_refl).
    destruct (should_process_product p) as [[flag note] reason].
    cbn [fst] in Hskip. subst flag. repeat split.
  - repeat split.
  - destruct (row_failed_cases w1 done None ex) as [ex' Hf].
    destruct (row_failed World to_file str_exn out_file w1 done None ex)
      as [r w'].
    cbn [fst] in Hf. subst r. repeat split.
Qed.

End RowProperties.

(** A pause that fails, as [time.sleep(-1)] does: the description cell
    is written and counted, the status is a failure and the exception
    leaves after the save of the handler. *)
Example row_step_failed_pause :
  @row_step text_runtime nat
    (counting_fetch (plain_product birkin None))
    (counting_webhook [("description_html", PStr "<p>New</p>")])
    failing_sleep counting_to_file no_text
    minus_one 10 "export_updated.csv"
    0 [] 0 "gid://shopify/Product/1"
  = ({| row_status := "FAILED: ";
        row_body := Some (PStr "<p>New</p>");
        row_raised := Some ValueError |}, 1%Z, 3).
Proof. vm_compute. reflexivity. Qed.

Lemma row_step_without_webhook_witness :
  (forall p w1,
      counting_fetch (plain_product None (Some legacy_markup)) 0
                     "gid://shopify/Product/1" = (Ok (Some p), w1) ->
      fst (fst (@should_process_product text_runtime p)) = false)
  /\ @row_step text_runtime nat
       (counting_fetch (plain_product None (Some legacy_markup)))
       (counting_webhook []) counting_sleep counting_to_file no_text
       (S754_zero false) 10 "export_updated.csv"
       0 [] 0 "gid://shopify/Product/1"
     = @row_step text_runtime nat
         (counting_fetch (plain_product None (Some legacy_markup)))
         failing_webhook counting_sleep counting_to_file no_text
         (S754_zero false) 10 "export_updated.csv"
         0 [] 0 "gid://shopify/Product/1".
Proof.
  assert (Hskip : forall p w1,
             counting_fetch (plain_product None (Some legacy_markup)) 0
                            "gid://shopify/Product/1" = (Ok (Some p), w1) ->
             fst (fst (@should_process_product text_runtime p)) = false).
  { intros p w1 Hfetch. injection Hfetch as <- _. reflexivity. }
  split; [exact Hskip|].
  exact (proj1 (@row_step_without_webhook text_runtime nat
                  (counting_fetch (plain_product None (Some legacy_markup)))
                  counting_sleep counting_to_file no_text
                  (S754_zero false) 10%Z "export_updated.csv"
                  (counting_webhook []) failing_webhook 0 [] 0%Z
                  "gid://shopify/Product/1" Hskip)).
Defined.

Lemma main_rows_invalid_ids_witness :
  Forall (@blank_id text_runtime) [PNone; PStr " NaN "; PStr EmptyString]
  /\ snd (@main_rows text_runtime nat
            (counting_fetch (plain_product birkin None)) (counting_webhook [])
            counting_sleep counting_to_file no_text
            (S754_zero false) 10 "export_updated.csv"
            0 [PNone; PStr " NaN "; PStr EmptyString] 0 None) = 0.
Proof.
  assert (Hblank : Forall (@blank_id text_runtime)
                          [PNone; PStr " NaN "; PStr EmptyString]).
  { constructor; [left; reflexivity|].
    constructor; [right; right; reflexivity|].
    constructor; [right; left; reflexivity|].
    constructor. }
  split; [exact Hblank|].
  exact (proj1 (@main_rows_invalid_ids text_runtime nat
                  (counting_fetch (plain_product birkin None))
                  counting_sleep counting_to_file no_text
                  (S754_zero false) 10%Z "export_updated.csv"
                  (counting_webhook [])
                  0 [PNone; PStr " NaN "; PStr EmptyString] 0 None Hblank)).
Defined.

(** ** The export path *)

Lemma lower_char_dot (c : ascii) :
  Ascii.eqb (PyStr.lower_char c) "." = Ascii.eqb c "."
  /\ Ascii.eqb (PyStr.lower_char c) "/" = Ascii.eqb c "/".
Proof.
  destruct c as [[] [] [] [] [] [] [] []]; split; reflexivity.
Qed.

Lemma has_char_lower (s : string) :
  has_char "." (PyStr.lower s) = has_char "." s
  /\ has_char "/" (PyStr.lower s) = has_char "/" s.
Proof.
  induction s as [|c s [IHdot IHsep]]; [split; reflexivity|].
  cbn [PyStr.lower has_char].
  destruct (lower_char_dot c) as [Hdot Hsep].
  rewrite Hdot, Hsep, IHdot, IHsep. split; reflexivity.
Qed.

Lemma has_char_append (c : ascii) (a b : string) :
  has_char c (a ++ b) = has_char c a || has_char c b.
Proof.
  induction a as [|d a IH]; [reflexivity|].
  cbn [append has_char]. rewrite IH. apply orb_assoc.
Qed.

Lemma length_append (a b : string) : length (a ++ b) = length a + length b.
Proof.
  induction a as [|c a IH]; [reflexivity|].
  cbn [append length]. rewrite IH. reflexivity.
Qed.

Lemma rfind_bounds (c : ascii) (s : string) :
  (-1 <= rfind c s < Z.of_nat (length s))%Z.
Proof.
  induction s as [|d s IH]; [cbn; lia|].
  cbn [rfind length].
  destruct (Z.leb_spec 0 (rfind c s)); [lia|].
  destruct (Ascii.eqb d c); lia.
Qed.

Lemma rfind_absent (c : ascii) (s : string) :
  has_char c s = false -> rfind c s = (-1)%Z.
Proof.
  induction s as [|d s IH]; [reflexivity|].
  cbn [has_char rfind]. intro Habsent.
  apply orb_false_iff in Habsent. destruct Habsent as [Hd Hs].
  rewrite (IH Hs), Hd. reflexivity.
Qed.

Lemma rfind_append (c : ascii) (a b : string) :
  rfind c (a ++ b)
  = if (0 <=? rfind c b)%Z then (Z.of_nat (length a) + rfind c b)%Z
    else rfind c a.
Proof.
  induction a as [|d a IH].
  { cbn [append length rfind].
    pose proof (rfind_bounds c b).
    destruct (Z.leb_spec 0 (rfind c b)); lia. }
  cbn [append rfind]. rewrite IH.
  pose proof (rfind_bounds c b).
  destruct (Z.leb_spec 0 (rfind c b)) as [Hb|Hb].
  - replace (0 <=? Z.of_nat (length a) + rfind c b)%Z with true
      by (symmetry; apply Z.leb_le; lia).
    cbn [length]. lia.
  - reflexivity.
Qed.

Lemma rfind_extension (c : ascii) (a e : string) :
  has_char c e = false ->
  rfind c (a ++ String c e) = Z.of_nat (length a).
Proof.
  intro Habsent. rewrite rfind_append. cbn [rfind].
  rewrite (rfind_absent c e Habsent), Ascii.eqb_refl. cbn. lia.
Qed.

Lemma get_append_right (a b : string) (k : nat) :
  get (length a + k) (a ++ b) = get k b.
Proof.
  induction a as [|c a IH]; [reflexivity|]. exact IH.
Qed.

Lemma get_append_left (a b : string) (k : nat) (c : ascii) :
  get k a = Some c -> get k (a ++ b) = Some c.
Proof.
  revert k. induction a as [|d a IH]; intros k Hget.
  { destruct k; discriminate Hget. }
  destruct k as [|k]; [exact Hget|]. exact (IH k Hget).
Qed.

Lemma has_stem_found (p : string) (n : nat) :
  forall i j c,
    i <= j < i + n -> get j p = Some c -> c <> "."%char ->
    has_stem p i n = true.
Proof.
  induction n as [|n IH]; intros i j c Hj Hget Hc; [lia|].
  cbn [has_stem].
  destruct (get i p) as [d|] eqn:Hd; [|reflexivity].
  destruct (Ascii.eqb d ".") eqn:Hdot; [|reflexivity].
  apply Ascii.eqb_eq in Hdot. subst d.
  assert (Hne : j <> i).
  { intros ->. rewrite Hget in Hd. injection Hd as ->. apply Hc. reflexivity. }
  apply (IH (S i) j c); [lia | exact Hget | exact Hc].
Qed.

Lemma has_stem_dots (p : string) (n : nat) :
  forall i,
    (forall j, i <= j < i + n -> get j p = Some "."%char) ->
    has_stem p i n = false.
Proof.
  induction n as [|n IH]; intros i Hdots; [reflexivity|].
  cbn [has_stem]. rewrite (Hdots i ltac:(lia)). cbn.
  apply IH. intros j Hj. apply Hdots. lia.
Qed.

Lemma not_all_dots (s : string) :
  string_forallb is_dot s = false ->
  exists k c, get k s = Some c /\ c <> "."%char.
Proof.
  induction s as [|d s IH]; [discriminate|].
  cbn [string_forallb]. intro Hsome.
  apply andb_false_iff in Hsome. destruct Hsome as [Hd|Hs].
  - exists 0, d. split; [reflexivity|].
    intros ->. discriminate Hd.
  - destruct (IH Hs) as (k & c & Hget & Hc).
    exists (S k), c. split; assumption.
Qed.

Lemma all_dots_get (s : string) :
  string_forallb is_dot s = true ->
  has_char "/" s = false
  /\ forall k, k < length s -> get k s = Some "."%char.
Proof.
  induction s as [|d s IH]; intro Hall.
  { split; [reflexivity | cbn; intros; lia]. }
  cbn [string_forallb] in Hall. apply andb_prop in Hall.
  destruct Hall as [Hd Hs]. apply Ascii.eqb_eq in Hd. subst d.
  destruct (IH Hs) as [Hsep Hget].
  split; [exact Hsep|].
  intros [|k] Hk; [reflexivity|]. apply Hget. cbn in Hk. lia.
Qed.

Lemma substring_all (s : string) : substring 0 (length s) s = s.
Proof.
  induction s as [|c s IH]; [reflexivity|].
  cbn [length substring]. rewrite IH. reflexivity.
Qed.

Lemma substring_append_left (a b : string) :
  substring 0 (length a) (a ++ b) = a.
Proof.
  induction a as [|c a IH]; [destruct b; reflexivity|].
  cbn [length append substring]. rewrite IH. reflexivity.
Qed.

Lemma substring_append_right (a b : string) (m : nat) :
  substring (length a) m (a ++ b) = substring 0 m b.
Proof.
  induction a as [|c a IH]; [reflexivity|]. exact IH.
Qed.

Lemma substring_split (s : string) :
  forall n, n <= length s ->
            s = substring 0 n s ++ substring n (length s - n) s.
Proof.
  induction s as [|c s IH]; intros n Hn.
  { destruct n; [reflexivity | cbn in Hn; lia]. }
  destruct n as [|n].
  - rewrite Nat.sub_0_r, substring_all. reflexivity.
  - cbn [substring append length]. cbn [length] in Hn.
    change (S (length s) - S n) with (length s - n).
    rewrite <- (IH n ltac:(lia)). reflexivity.
Qed.

Lemma endswith_split (suffix s : string) :
  PyStr.endswith suffix s = true -> exists a, s = a ++ suffix.
Proof.
  unfold PyStr.endswith. intro Hends.
  apply andb_prop in Hends. destruct Hends as [Hlen Heq].
  apply Nat.leb_le in Hlen. apply String.eqb_eq in Heq.
  exists (substring 0 (length s - length suffix) s).
  pose proof (substring_split s (length s - length suffix) ltac:(lia)) as Hs.
  replace (length s - (length s - length suffix)) with (length suffix) in Hs
    by lia.
  rewrite Heq in Hs. exact Hs.
Qed.

Lemma endswith_append (suffix a : string) :
  PyStr.endswith suffix (a ++ suffix) = true.
Proof.
  unfold PyStr.endswith. rewrite length_append.
  replace (length a + length suffix - length suffix) with (length a) by lia.
  rewrite substring_append_right, substring_all, String.eqb_refl.
  replace (length suffix <=? length a + length suffix) with true
    by (symmetry; apply Nat.leb_le; lia).
  reflexivity.
Qed.

Lemma last_char_append (a b : string) :
  last_char (a ++ b)
  = match last_char b with
    | Some d => Some d
    | None => last_char a
    end.
Proof.
  induction a as [|c a IH]; [cbn; destruct (last_char b); reflexivity|].
  cbn [append last_char]. rewrite IH.
  destruct (last_char b); [reflexivity|].
  destruct (last_char a); reflexivity.
Qed.

Lemma endswith_last_char (suffix s : string) (c d : ascii) :
  last_char suffix = Some c -> last_char s = Some d -> c <> d ->
  PyStr.endswith suffix s = false.
Proof.
  intros Hc Hd Hne.
  destruct (PyStr.endswith suffix s) eqn:Hends; [|reflexivity].
  destruct (endswith_split suffix s Hends) as [a ->].
  rewrite last_char_append, Hc in Hd. injection Hd as <-.
  contradiction Hne. reflexivity.
Qed.

(** The routine the suffix of a path selects. *)
Lemma export_format (x ext : string) :
  In (PyStr.lower ext) EXPORT_SUFFIXES ->
  write_export (x ++ ext) = read_export (x ++ ext)
  /\ exists format, read_export (x ++ ext) = Ok format.
Proof.
  intro Hext. split; [reflexivity|].
  unfold read_export. rewrite lower_append.
  destruct Hext as [Hext|[Hext|[Hext|[]]]]; rewrite <- Hext.
  - rewrite endswith_append. exists Csv. reflexivity.
  - rewrite (endswith_last_char ".csv" (PyStr.lower x ++ ".xlsx") "v" "x");
      [|reflexivity | rewrite last_char_append; reflexivity | discriminate].
    rewrite endswith_append. exists Excel. reflexivity.
  - rewrite (endswith_last_char ".csv" (PyStr.lower x ++ ".xls") "v" "s");
      [|reflexivity | rewrite last_char_append; reflexivity | discriminate].
    rewrite endswith_append, orb_true_r. exists Excel. reflexivity.
Qed.

(** An extension [read_export] knows starts with its only dot and has no
    slash. *)
Lemma export_suffix_shape (ext : string) :
  In (PyStr.lower ext) EXPORT_SUFFIXES ->
  has_char "/" ext = false
  /\ exists e, ext = String "." e /\ has_char "." e = false.
Proof.
  intro Hext.
  destruct (has_char_lower ext) as [_ Hsep].
  assert (Hshape : has_char "/" (PyStr.lower ext) = false
                   /\ exists c e, ext = String c e
                                  /\ Ascii.eqb (PyStr.lower_char c) "." = true
                                  /\ has_char "." (PyStr.lower e) = false).
  { destruct ext as [|c e].
    { destruct Hext as [Hext|[Hext|[Hext|[]]]]; discriminate Hext. }
    cbn [PyStr.lower] in Hext |- *.
    destruct Hext as [Hext|[Hext|[Hext|[]]]];
      injection Hext as Hc He;
      (split; [rewrite <- Hc, <- He; reflexivity|]);
      exists c, e; (split; [reflexivity|]);
      rewrite <- Hc, <- He; split; reflexivity. }
  destruct Hshape as (Hnosep & c & e & -> & Hc & He).
  split; [rewrite <- Hsep; exact Hnosep|].
  destruct (lower_char_dot c) as [Hdot _]. rewrite Hdot in Hc.
  apply Ascii.eqb_eq in Hc. subst c.
  exists e. split; [reflexivity|].
  destruct (has_char_lower e) as [He' _]. rewrite <- He'. exact He.
Qed.

Lemma splitext_indices (dir name e : string) :
  has_char "/" name = false ->
  has_char "/" (String "." e) = false ->
  has_char "." e = false ->
  rfind "/" (dir ++ name ++ String "." e) = rfind "/" dir
  /\ rfind "." (dir ++ name ++ String "." e)
     = Z.of_nat (length dir + length name).
Proof.
  intros Hname Hsep Hdot.
  rewrite <- (append_assoc dir name (String "." e)).
  rewrite (rfind_extension "." (dir ++ name) e Hdot).
  rewrite (rfind_append "/" (dir ++ name) (String "." e)).
  rewrite (rfind_absent "/" _ Hsep).
  rewrite (rfind_append "/" dir name), (rfind_absent "/" _ Hname).
  rewrite length_append. split; reflexivity.
Qed.

(** X18. When the file name of the export has a character other than
    the dot before an extension [read_export] knows, the default output
    path has [_updated] before that extension, and [write_export] writes
    it with the routine that [read_export] read the export with. *)
Theorem out_path_format (dir name ext : string) :
  has_char "/" name = false ->
  string_forallb is_dot name = false ->
  In (PyStr.lower ext) EXPORT_SUFFIXES ->
  out_path (dir ++ name ++ ext) None = dir ++ name ++ "_updated" ++ ext
  /\ write_export (out_path (dir ++ name ++ ext) None)
     = read_export (dir ++ name ++ ext)
  /\ exists format, read_export (dir ++ name ++ ext) = Ok format.
Proof.
  intros Hname Hstem Hext.
  destruct (export_suffix_shape ext Hext) as (Hsep & e & -> & Hdot).
  assert (Hpath : dir ++ name ++ String "." e = (dir ++ name) ++ String "." e).
  { symmetry. apply append_assoc. }
  assert (Hsplit : splitext (dir ++ name ++ String "." e)
                   = (dir ++ name, String "." e)).
  { destruct (splitext_indices dir name e Hname Hsep Hdot) as [Hsepi Hdoti].
    unfold splitext. rewrite Hsepi, Hdoti, Hpath.
    pose proof (rfind_bounds "/" dir) as Hbounds.
    destruct (not_all_dots name Hstem) as (k & c & Hget & Hc).
    assert (Hk : k < length name).
    { destruct (Nat.lt_ge_cases k (length name)) as [Hlt|Hge]; [exact Hlt|].
      assert (Hnone : get k name = None).
      { clear - Hge. revert k Hge.
        induction name as [|d name IH]; intros k Hge;
          [destruct k; reflexivity|].
        destruct k as [|k]; [cbn in Hge; lia|].
        apply IH. cbn in Hge. lia. }
      rewrite Hnone in Hget. discriminate Hget. }
    replace (rfind "/" dir <? Z.of_nat (length dir + length name))%Z with true
      by (symmetry; apply Z.ltb_lt; lia).
    rewrite (has_stem_found _ _ _ (length dir + k) c);
      [|lia
       |rewrite append_assoc, get_append_right;
        apply get_append_left; exact Hget
       |exact Hc].
    cbn [andb]. rewrite Nat2Z.id.
    rewrite <- (length_append dir name).
    rewrite substring_append_left.
    rewrite (length_append (dir ++ name) (String "." e)).
    replace (length (dir ++ name) + length (String "." e) - length (dir ++ name))
      with (length (String "." e)) by lia.
    rewrite substring_append_right, substring_all. reflexivity. }
  assert (Hout : out_path (dir ++ name ++ String "." e) None
                 = dir ++ name ++ "_updated" ++ String "." e).
  { unfold out_path. rewrite Hsplit. apply append_assoc. }
  split; [exact Hout|].
  rewrite Hout.
  replace (dir ++ name ++ "_updated" ++ String "." e)
    with ((dir ++ name ++ "_updated") ++ String "." e)
    by (rewrite !append_assoc; reflexivity).
  rewrite Hpath.
  destruct (export_format (dir ++ name ++ "_updated") (String "." e) Hext)
    as [_ [format Hformat]].
  destruct (export_format (dir ++ name) (String "." e) Hext)
    as [_ [format' Hformat']].
  split; [|exists format'; exact Hformat'].
  change (write_export ((dir ++ name ++ "_updated") ++ String "." e))
    with (read_export ((dir ++ name ++ "_updated") ++ String "." e)).
  unfold read_export. rewrite !lower_append.
  destruct Hext as [Hext|[Hext|[Hext|[]]]]; rewrite <- Hext.
  - rewrite !endswith_append. reflexivity.
  - rewrite !(endswith_last_char ".csv" (_ ++ ".xlsx") "v" "x");
      try reflexivity; try discriminate;
      try (rewrite last_char_append; reflexivity).
    rewrite !endswith_append. reflexivity.
  - rewrite !(endswith_last_char ".csv" (_ ++ ".xls") "v" "s");
      try reflexivity; try discriminate;
      try (rewrite last_char_append; reflexivity).
    rewrite !endswith_append, !orb_true_r. reflexivity.
Qed.

Lemma out_path_format_witness :
  out_path "exports/bags.v2.XLSX" None = "exports/bags.v2_updated.XLSX"
  /\ write_export (out_path "exports/bags.v2.XLSX" None)
     = read_export "exports/bags.v2.XLSX".
Proof.
  destruct (out_path_format "exports/" "bags.v2" ".XLSX")
    as (Hout & Hsame & _);
    [reflexivity | reflexivity | right; left; reflexivity |].
  split; [exact Hout | exact Hsame].
Defined.

(** X19. When the file name of the export is its extension alone, as in
    [.csv] or [exports/..xlsx], [read_export] reads the file, but the
    default output path only gains [_updated] at its end, and
    [write_export] raises [ValueError] for it. *)
Theorem out_path_hidden_file (dir dots ext : string) :
  dir = EmptyString \/ (exists d, dir = d ++ "/") ->
  string_forallb is_dot dots = true ->
  In (PyStr.lower ext) EXPORT_SUFFIXES ->
  (exists format, read_export (dir ++ dots ++ ext) = Ok format)
  /\ out_path (dir ++ dots ++ ext) None = dir ++ dots ++ ext ++ "_updated"
  /\ write_export (out_path (dir ++ dots ++ ext) None) = Raise ValueError.
Proof.
  intros Hdir Hdots Hext.
  destruct (export_suffix_shape ext Hext) as (Hsep & e & -> & Hdot).
  destruct (all_dots_get dots Hdots) as [Hnosep Hget].
  assert (Hpath : dir ++ dots ++ String "." e = (dir ++ dots) ++ String "." e).
  { symmetry. apply append_assoc. }
  assert (Hsepindex : (rfind "/" dir + 1)%Z = Z.of_nat (length dir)).
  { destruct Hdir as [->|[d ->]]; [reflexivity|].
    rewrite (rfind_extension "/" d EmptyString eq_refl), length_append.
    cbn [length]. lia. }
  assert (Hsplit : splitext (dir ++ dots ++ String "." e)
                   = (dir ++ dots ++ String "." e, EmptyString)).
  { destruct (splitext_indices dir dots e Hnosep Hsep Hdot) as [Hsepi Hdoti].
    unfold splitext. rewrite Hsepi, Hdoti.
    rewrite Hsepindex, Nat2Z.id.
    replace (Z.to_nat (Z.of_nat (length dir + length dots)
                       - Z.of_nat (length dir)))
      with (length dots) by lia.
    rewrite has_stem_dots; [rewrite andb_false_r; reflexivity|].
    intros j Hj.
    replace j with (length dir + (j - length dir)) by lia.
    rewrite get_append_right.
    apply get_append_left, Hget. lia. }
  split.
  { rewrite Hpath.
    exact (proj2 (export_format (dir ++ dots) (String "." e) Hext)). }
  assert (Hout : out_path (dir ++ dots ++ String "." e) None
                 = dir ++ dots ++ String "." e ++ "_updated").
  { unfold out_path. rewrite Hsplit.
    rewrite !append_assoc. reflexivity. }
  split; [exact Hout|].
  rewrite Hout.
  replace (dir ++ dots ++ String "." e ++ "_updated")
    with ((dir ++ dots ++ String "." e) ++ "_updated")
    by (rewrite !append_assoc; reflexivity).
  unfold write_export. rewrite lower_append.
  change (PyStr.lower "_updated") with "_updated".
  rewrite (endswith_last_char ".csv" _ "v" "d");
    [|reflexivity | rewrite last_char_append; reflexivity | discriminate].
  rewrite (endswith_last_char ".xlsx" _ "x" "d");
    [|reflexivity | rewrite last_char_append; reflexivity | discriminate].
  rewrite (endswith_last_char ".xls" _ "s" "d");
    [|reflexivity | rewrite last_char_append; reflexivity | discriminate].
  reflexivity.
Qed.

Lemma out_path_hidden_file_witness :
  out_path "exports/.csv" None = "exports/.csv_updated"
  /\ write_export (out_path "exports/.csv" None) = Raise ValueError.
Proof.
  destruct (out_path_hidden_file "exports/" EmptyString ".csv")
    as (_ & Hout & Hraise);
    [right; exists "exports"; reflexivity | reflexivity | left; reflexivity |].
  split; [exact Hout | exact Hraise].
Defined.
